(** * Construction project tracker: the project workflow and its collaborators

    A shallow embedding of [construction/models.py], [construction/aws_utils.py],
    the views of [construction/views.py] and the command
    [management/commands/init_construction.py].

    Python objects are records, [None] is [option]'s [None], a view is a
    computation over the state of the process (the project table, the calls made
    through each boto3 client, the console, the flash messages) that either
    returns or raises.  What the code reads from outside is explicit: the wall
    clock is a field of the state, the outcome of every SDK call is read from an
    oracle indexed by client and call number, and the conversions a
    [DateField] and a [DecimalField] apply to submitted text, what a query
    gives back for a stored budget, and the time zone of the process are
    parameters. *)

From Stdlib Require Import String Ascii List Arith Bool Lia PeanoNat.
From Stdlib Require Import ZArith NArith.
From Stdlib Require Import DecimalString.
From Stdlib Require Import Permutation Sorted.
Import ListNotations.
Local Open Scope string_scope.
Local Open Scope list_scope.

(** ** Python values *)

(** The double quote character, for the f-strings that quote a project name. *)
Definition dq : string := String (ascii_of_nat 34) EmptyString.

(** [bool(s)] for a [str]. *)
Definition truthy (s : string) : bool := negb (s =? EmptyString).

(** [str(n)] for a non-negative [int]. *)
Definition str_int (n : nat) : string := NilEmpty.string_of_uint (Nat.to_uint n).

(** [str(v)] and [f"{v}"] for a value that is a [str] or [None]. *)
Definition str_opt (v : option string) : string :=
  match v with Some s => s | None => "None" end.

Definition str_id (v : option nat) : string :=
  match v with Some n => str_int n | None => "None" end.

(** [v == s] for a value that is a [str] or [None]. *)
Definition is_str (v : option string) (s : string) : bool :=
  match v with Some x => x =? s | None => false end.

(** [a or b] on strings. *)
Definition str_or (a b : string) : string := if truthy a then a else b.

(** Values found in the [details] dict of an audit record.  [PObj] stands for
    any object [json.dumps] cannot serialise. *)
Inductive pyval := PNone | PStr (s : string) | PInt (n : nat) | PObj.

Definition of_opt (v : option string) : pyval :=
  match v with Some s => PStr s | None => PNone end.

Definition of_id (v : option nat) : pyval :=
  match v with Some n => PInt n | None => PNone end.

Definition serialisable (v : pyval) : bool :=
  match v with PObj => false | _ => true end.

(** A model attribute whose column is not text: unset, text as submitted, or a
    value of the column's Python type. *)
Inductive attr (T : Type) := Null | Raw (s : string) | Val (v : T).
Arguments Null {T}.
Arguments Raw {T} s.
Arguments Val {T} v.

Definition of_post {T} (v : option string) : attr T :=
  match v with Some s => Raw s | None => Null end.

(** [MultiValueDict.get]: the last value submitted under the key. *)
Fixpoint mvd_get {V} (key : string) (d : list (string * V)) : option V :=
  match d with
  | [] => None
  | (k, v) :: rest =>
      match mvd_get key rest with
      | Some v' => Some v'
      | None => if k =? key then Some v else None
      end
  end.

(** ** Exceptions *)

(** [InvalidOperation] is [decimal.InvalidOperation]. *)
Inductive exn :=
| ClientError | TypeError | ValidationError | IntegrityError | Http404
| InvalidOperation.

Inductive result (A : Type) := Ok (a : A) | Raise (e : exn).
Arguments Ok {A} a.
Arguments Raise {A} e.

Definition rbind {A B} (r : result A) (k : A -> result B) : result B :=
  match r with Ok a => k a | Raise e => Raise e end.

(** ** Requests *)

Record User := { user_id : nat; username : string; email : string }.

(** An uploaded file; [file_name] is [UploadedFile.name]. *)
Record File := { file_name : string; file_body : string }.

(** [request.user] is [None] for [AnonymousUser]. *)
Record HttpRequest := {
  method : string;
  user : option User;
  POST : list (string * string);
  FILES : list (string * File)
}.

(** ** Settings and the calls made through boto3 *)

Record Settings := {
  AWS_CLOUDWATCH_LOG_GROUP : string;
  AWS_REGION : string;
  AWS_S3_BUCKET_NAME : string;
  AWS_SES_SENDER_EMAIL : string;
  AWS_SNS_TOPIC_ARN : string;
  LOGIN_URL : string
}.

Inductive client := Logs | S3 | SES | SNS.

(** The [log_entry] dict of [log_project_activity]. *)
Record LogEntry := {
  timestamp : nat;
  activity_type : string;
  project_name : option string;
  actor : string;
  details : list (string * pyval)
}.

Inductive LogsCall :=
| describe_log_groups (logGroupNamePrefix : string)
| create_log_group (logGroupName : string)
| describe_log_streams (logGroupName logStreamNamePrefix : string)
| create_log_stream (logGroupName logStreamName : string)
| put_log_events (logGroupName logStreamName : string) (millis : Z) (message : LogEntry).

Inductive S3Call :=
| upload_fileobj (file_obj : File) (bucket key : string)
| generate_presigned_url (bucket key : string) (ExpiresIn : nat).

Inductive SesCall :=
| ses_send_email (Source ToAddress Subject Body : string).

Inductive SnsCall :=
| sns_publish (TopicArn Message : string) (Subject : option string).

(** What [generate_presigned_url] hands back. *)
Record Url := { url_bucket : string; url_key : string; url_expires : nat }.

(** The boto3 clients: for each client, whether its n-th call goes through
    ([false]: it raises), and the calls made so far with how they went. *)
Record Cloud := {
  aws : client -> nat -> bool;
  logs_calls : list (LogsCall * bool);
  s3_calls : list (S3Call * bool);
  ses_calls : list (SesCall * bool);
  sns_calls : list (SnsCall * bool)
}.

(** The arguments of one call of [log_project_activity]. *)
Record Activity := {
  act_type : string;
  act_project : option string;
  act_user : string;
  act_details : list (string * pyval)
}.

Section Construction.

(** The Python types of a [DateField] and of a [DecimalField], what their
    [to_python] makes of submitted text ([None] where it raises
    [ValidationError]), and [str] on a [Decimal]. *)
Context {date decimal : Type}.
Variable to_date : string -> option date.
Variable to_decimal : string -> option decimal.
Variable str_decimal : decimal -> string.

(** What a query gives back for a budget that was stored: the converter of the
    column [DecimalField(max_digits=12, decimal_places=2)] rounds what the
    database hands out to two places in a context of twelve digits, and raises
    [decimal.InvalidOperation] ([None]) when the result does not fit.  Nothing
    checks a budget against the column when it is written. *)
Variable from_db : decimal -> option decimal.

(** [django.conf.settings], and the day [CloudWatchLogger.__init__] ran. *)
Variable settings : Settings.
Variable boot_day : string.

(** [datetime.utcnow().timestamp()] at a time of the clock, in seconds:
    [utcnow] gives the UTC time without a zone and [timestamp] reads it as
    local time, so the result is off the clock by the UTC offset of the
    process. *)
Variable utcnow_timestamp : nat -> Z.

(** ** models.py *)

(** An instance of [Project].  [id] is [None] until the instance is saved. *)
Record Project := {
  id : option nat;
  name : option string;
  description : option string;
  location : option string;
  start_date : attr date;
  end_date : attr date;
  budget : attr decimal;
  status : option string;
  priority : option string;
  manager : nat;
  document : option string;
  created_at : option nat;
  updated_at : option nat
}.

(** [str(project.budget)]. *)
Definition str_budget (b : attr decimal) : string :=
  match b with Null => "None" | Raw s => s | Val v => str_decimal v end.

(** [Project.__str__]. *)
Definition Project_str (p : Project) : string := str_opt (name p).

(** A keyword argument of [Project(...)] that may be left out. *)
Definition kwarg {A} (given : option A) (default : A) : A :=
  match given with Some v => v | None => default end.

(** The constructor of [Project], called with keywords: a field with a declared
    default takes it only when its keyword is absent; a keyword given as [None]
    stays [None]. *)
Definition Project_init (name description location : option string)
    (start_date end_date : attr date) (budget : attr decimal)
    (status priority : option (option string)) (manager : nat) : Project :=
  {| id := None; name := name; description := description; location := location;
     start_date := start_date; end_date := end_date; budget := budget;
     status := kwarg status (Some "Planning");
     priority := kwarg priority (Some "Medium");
     manager := manager; document := None;
     created_at := None; updated_at := None |}.

(** The project table with its primary-key sequence. *)
Record DB := { rows : list Project; next_id : nat }.

Definition has_id (i : nat) (p : Project) : bool :=
  match id p with Some j => Nat.eqb j i | None => false end.

Definition get_row (i : nat) (d : DB) : option Project := find (has_id i) (rows d).

(** [Meta.ordering = ['-created_at']]: newest first.  The order among rows of
    equal [created_at] is the database's, which gives them in the order they
    were added: the row added earlier comes first. *)
Definition stamp (p : Project) : nat :=
  match created_at p with Some t => t | None => 0 end.

Fixpoint insert_desc (p : Project) (l : list Project) : list Project :=
  match l with
  | [] => [p]
  | q :: rest =>
      if Nat.leb (stamp q) (stamp p) then p :: q :: rest else q :: insert_desc p rest
  end.

Fixpoint order_by_created_desc (l : list Project) : list Project :=
  match l with
  | [] => []
  | p :: rest => insert_desc p (order_by_created_desc rest)
  end.

(** ** The state of the process *)

(** The project table, the wall clock, the boto3 clients with the calls made
    through them, the journal of the calls of [log_project_activity] (kept by
    the model, in the order of the calls), what was printed, and the messages
    queued for the user. *)
Record World := {
  db : DB;
  clock : nat;
  cloud : Cloud;
  activities : list Activity;
  console : list string;
  flash : list string
}.

Definition set_db (d : DB) (w : World) : World :=
  {| db := d; clock := clock w; cloud := cloud w; activities := activities w;
     console := console w; flash := flash w |}.

Definition set_cloud (c : Cloud) (w : World) : World :=
  {| db := db w; clock := clock w; cloud := c; activities := activities w;
     console := console w; flash := flash w |}.

Definition set_clock (t : nat) (w : World) : World :=
  {| db := db w; clock := t; cloud := cloud w; activities := activities w;
     console := console w; flash := flash w |}.

(** A computation: runs in a state, returns or raises, leaves a state. *)
Definition M (A : Type) : Type := World -> result A * World.

Definition ret {A} (a : A) : M A := fun w => (Ok a, w).

Definition raise {A} (e : exn) : M A := fun w => (Raise e, w).

Definition bind {A B} (m : M A) (k : A -> M B) : M B :=
  fun w => match m w with
           | (Ok a, w') => k a w'
           | (Raise e, w') => (Raise e, w')
           end.

(** [try: body  except Exception as e: handler]. *)
Definition try_except {A} (body : M A) (handler : exn -> M A) : M A :=
  fun w => match body w with
           | (Ok a, w') => (Ok a, w')
           | (Raise e, w') => handler e w'
           end.

Notation "x <- m ;; k" := (bind m (fun x => k))
  (at level 61, m at next level, right associativity).
Notation "m ;; k" := (bind m (fun _ => k))
  (at level 61, right associativity).

(** [print(...)]; the text of the exception is left out. *)
Definition print (s : string) : M unit :=
  fun w => (Ok tt, {| db := db w; clock := clock w; cloud := cloud w;
                      activities := activities w;
                      console := console w ++ [s]; flash := flash w |}).

(** [messages.success(request, text)]. *)
Definition messages_success (text : string) : M unit :=
  fun w => (Ok tt, {| db := db w; clock := clock w; cloud := cloud w;
                      activities := activities w;
                      console := console w; flash := flash w ++ [text] |}).

(** The journal entry for a call of [log_project_activity]. *)
Definition note (a : Activity) : M unit :=
  fun w => (Ok tt, {| db := db w; clock := clock w; cloud := cloud w;
                      activities := activities w ++ [a];
                      console := console w; flash := flash w |}).

Definition now : M nat := fun w => (Ok (clock w), w).

(** One call through a boto3 client: the oracle says whether it raises. *)
Definition outcome (ok : bool) : result unit :=
  if ok then Ok tt else Raise ClientError.

Definition logs_client (c : LogsCall) : M unit := fun w =>
  let k := cloud w in
  let ok := aws k Logs (length (logs_calls k)) in
  (outcome ok,
   set_cloud {| aws := aws k; logs_calls := logs_calls k ++ [(c, ok)];
                s3_calls := s3_calls k; ses_calls := ses_calls k;
                sns_calls := sns_calls k |} w).

Definition s3_client (c : S3Call) : M unit := fun w =>
  let k := cloud w in
  let ok := aws k S3 (length (s3_calls k)) in
  (outcome ok,
   set_cloud {| aws := aws k; logs_calls := logs_calls k;
                s3_calls := s3_calls k ++ [(c, ok)]; ses_calls := ses_calls k;
                sns_calls := sns_calls k |} w).

Definition ses_client (c : SesCall) : M unit := fun w =>
  let k := cloud w in
  let ok := aws k SES (length (ses_calls k)) in
  (outcome ok,
   set_cloud {| aws := aws k; logs_calls := logs_calls k;
                s3_calls := s3_calls k; ses_calls := ses_calls k ++ [(c, ok)];
                sns_calls := sns_calls k |} w).

Definition sns_client (c : SnsCall) : M unit := fun w =>
  let k := cloud w in
  let ok := aws k SNS (length (sns_calls k)) in
  (outcome ok,
   set_cloud {| aws := aws k; logs_calls := logs_calls k;
                s3_calls := s3_calls k; ses_calls := ses_calls k;
                sns_calls := sns_calls k ++ [(c, ok)] |} w).

(** ** The ORM, as far as the views use it *)

(** [Field.to_python] on the way to the database: submitted text is converted,
    anything else is passed on. *)
Definition to_python {T} (conv : string -> option T) (a : attr T) : result (attr T) :=
  match a with
  | Raw s => match conv s with
             | Some v => Ok (Val v)
             | None => Raise ValidationError
             end
  | _ => Ok a
  end.

(** The NOT NULL constraint of a column declared without [null=True]. *)
Definition not_null {T} (v : option T) : result (option T) :=
  match v with Some _ => Ok v | None => Raise IntegrityError end.

Definition not_null_attr {T} (a : attr T) : result (attr T) :=
  match a with Null => Raise IntegrityError | _ => Ok a end.

(** The row written for an instance: conversions first, constraints after. *)
Definition prepare (p : Project) : result Project :=
  rbind (to_python to_date (start_date p)) (fun sd =>
  rbind (to_python to_date (end_date p)) (fun ed =>
  rbind (to_python to_decimal (budget p)) (fun b =>
  rbind (not_null (name p)) (fun n =>
  rbind (not_null (description p)) (fun d =>
  rbind (not_null (location p)) (fun l =>
  rbind (not_null_attr sd) (fun sd =>
  rbind (not_null_attr ed) (fun ed =>
  rbind (not_null_attr b) (fun b =>
  rbind (not_null (status p)) (fun st =>
  rbind (not_null (priority p)) (fun pr =>
  rbind (not_null (created_at p)) (fun c =>
  rbind (not_null (updated_at p)) (fun u =>
  Ok {| id := id p; name := n; description := d; location := l;
        start_date := sd; end_date := ed; budget := b;
        status := st; priority := pr; manager := manager p;
        document := document p; created_at := c; updated_at := u |}))))))))))))).

(** What [save] sets on the instance before writing: the key when it is new,
    [created_at] when the row is added ([auto_now_add]), [updated_at] always
    ([auto_now]). *)
Definition stamped (i : nat) (created : option nat) (t : nat) (p : Project) : Project :=
  {| id := Some i; name := name p; description := description p;
     location := location p; start_date := start_date p; end_date := end_date p;
     budget := budget p; status := status p; priority := priority p;
     manager := manager p; document := document p;
     created_at := created; updated_at := Some t |}.

Definition replace_row (i : nat) (row : Project) (l : list Project) : list Project :=
  map (fun r => if has_id i r then row else r) l.

Definition remove_row (i : nat) (l : list Project) : list Project :=
  filter (fun r => negb (has_id i r)) l.

(** [Model.save]: UPDATE the row of the instance's key; INSERT when the instance
    has no key yet or no row has it.  Returns the instance as [save] leaves it. *)
Definition save (p : Project) : M Project := fun w =>
  let d := db w in
  let t := clock w in
  match id p with
  | Some i =>
      match get_row i d with
      | Some _ =>
          let p' := stamped i (created_at p) t p in
          match prepare p' with
          | Ok row => (Ok p', set_db {| rows := replace_row i row (rows d);
                                        next_id := next_id d |} w)
          | Raise e => (Raise e, w)
          end
      | None =>
          let p' := stamped i (Some t) t p in
          match prepare p' with
          | Ok row => (Ok p', set_db {| rows := rows d ++ [row];
                                        next_id := Nat.max (next_id d) (S i) |} w)
          | Raise e => (Raise e, w)
          end
      end
  | None =>
      let p' := stamped (next_id d) (Some t) t p in
      match prepare p' with
      | Ok row => (Ok p', set_db {| rows := rows d ++ [row];
                                    next_id := S (next_id d) |} w)
      | Raise e => (Raise e, w)
      end
  end.

(** [Project.objects.create(...)], every keyword given as the view gives them. *)
Definition objects_create (name description location : option string)
    (start_date end_date : attr date) (budget : attr decimal)
    (status priority : option string) (manager : nat) : M Project :=
  save (Project_init name description location start_date end_date budget
          (Some status) (Some priority) manager).

Definition with_budget (b : attr decimal) (p : Project) : Project :=
  {| id := id p; name := name p; description := description p;
     location := location p; start_date := start_date p; end_date := end_date p;
     budget := b; status := status p; priority := priority p;
     manager := manager p; document := document p;
     created_at := created_at p; updated_at := updated_at p |}.

(** The instance a query makes of a stored row: the budget goes through the
    converter of its column, which may raise. *)
Definition read_row (r : Project) : result Project :=
  match budget r with
  | Val v => match from_db v with
             | Some v' => Ok (with_budget (Val v') r)
             | None => Raise InvalidOperation
             end
  | _ => Ok r
  end.

Fixpoint read_rows (l : list Project) : result (list Project) :=
  match l with
  | [] => Ok []
  | r :: rest => rbind (read_row r) (fun p =>
                 rbind (read_rows rest) (fun ps => Ok (p :: ps)))
  end.

(** [get_object_or_404(Project, id=project_id)]. *)
Definition get_object_or_404 (project_id : nat) : M Project := fun w =>
  match get_row project_id (db w) with
  | Some r => (read_row r, w)
  | None => (Raise Http404, w)
  end.

(** [project.delete()]. *)
Definition delete (p : Project) : M unit := fun w =>
  match id p with
  | Some i => (Ok tt, set_db {| rows := remove_row i (rows (db w));
                                next_id := next_id (db w) |} w)
  | None => (Ok tt, w)
  end.

(** [Project.objects.all()], evaluated, which is when its rows are read: for
    [project_list], when the template goes through [projects].  [.count()]
    counts in the database and reads no row. *)
Definition objects_all : M (list Project) := fun w =>
  (read_rows (order_by_created_desc (rows (db w))), w).

Definition objects_count : M nat := fun w => (Ok (length (rows (db w))), w).

(** ** aws_utils.py *)

Record CloudWatchLogger := {
  log_group_name : string;
  logger_region : string;
  log_stream_name : string
}.

Definition CloudWatchLogger_init (log_group_name region_name : string) : CloudWatchLogger :=
  {| log_group_name := log_group_name; logger_region := region_name;
     log_stream_name := "construction-app-" ++ boot_day |}.

Definition ensure_log_group_exists (self : CloudWatchLogger) : M bool :=
  try_except
    (logs_client (describe_log_groups (log_group_name self)) ;;
     ret true)
    (fun _ =>
       try_except
         (logs_client (create_log_group (log_group_name self)) ;;
          ret true)
         (fun _ => print "Error creating log group" ;; ret false)).

Definition ensure_log_stream_exists (self : CloudWatchLogger) : M bool :=
  try_except
    (logs_client (describe_log_streams (log_group_name self) (log_stream_name self)) ;;
     ret true)
    (fun _ =>
       try_except
         (logs_client (create_log_stream (log_group_name self) (log_stream_name self)) ;;
          ret true)
         (fun _ => print "Error creating log stream" ;; ret false)).

(** [json.dumps(log_entry)]: raises on a value it cannot serialise; the entry
    itself stands for its JSON text. *)
Definition json_dumps (e : LogEntry) : M LogEntry :=
  if forallb (fun kv => serialisable (snd kv)) (details e)
  then ret e else raise TypeError.

Definition log_project_activity (self : CloudWatchLogger) (activity_type : string)
    (project_name : option string) (user : string)
    (details : list (string * pyval)) : M bool :=
  note {| act_type := activity_type; act_project := project_name;
          act_user := user; act_details := details |} ;;
  group <- ensure_log_group_exists self ;;
  if negb group then ret false else
  stream <- ensure_log_stream_exists self ;;
  if negb stream then ret false else
  t <- now ;;
  let log_entry := {| timestamp := t; activity_type := activity_type;
                      project_name := project_name; actor := user;
                      details := details |} in
  try_except
    (ms <- now ;;
     message <- json_dumps log_entry ;;
     logs_client (put_log_events (log_group_name self) (log_stream_name self)
                    (1000 * utcnow_timestamp ms)%Z message) ;;
     ret true)
    (fun _ => print "Error logging to CloudWatch" ;; ret false).

Definition log_file_upload (self : CloudWatchLogger) (filename user : string)
    (project_name : option string) : M bool :=
  let details := [("filename", PStr filename); ("action", PStr "file_upload")] in
  log_project_activity self "FILE_UPLOAD" project_name user details.

Record S3FileManager := { bucket_name : string; s3_region : string }.

Definition upload_file (self : S3FileManager) (file_obj : File) (file_key : string) : M bool :=
  try_except
    (s3_client (upload_fileobj file_obj (bucket_name self) file_key) ;;
     ret true)
    (fun _ => print "Error uploading file to S3" ;; ret false).

Definition get_file_url (self : S3FileManager) (file_key : string) (expiration : nat)
  : M (option Url) :=
  try_except
    (s3_client (generate_presigned_url (bucket_name self) file_key expiration) ;;
     ret (Some {| url_bucket := bucket_name self; url_key := file_key;
                  url_expires := expiration |}))
    (fun _ => print "Error generating presigned URL" ;; ret None).

Record NotificationManager := { notifier_region : string }.

Definition send_email (self : NotificationManager)
    (to_email subject body sender_email : string) : M bool :=
  try_except
    (ses_client (ses_send_email sender_email to_email subject body) ;;
     ret true)
    (fun _ => print "Error sending email" ;; ret false).

Definition send_sns_notification (self : NotificationManager)
    (topic_arn message : string) (subject : option string) : M bool :=
  try_except
    (let params_subject :=
       match subject with
       | Some s => if truthy s then Some s else None
       | None => None
       end in
     sns_client (sns_publish topic_arn message params_subject) ;;
     ret true)
    (fun _ => print "Error sending SNS notification" ;; ret false).

(** ** views.py *)

(** The f-strings of the views. *)
Definition created_subject (name : option string) : string :=
  "New Construction Project Created: " ++ str_opt name.

Definition created_body (name budget : option string) : string :=
  "A new construction project " ++ dq ++ str_opt name ++ dq
    ++ " has been created with budget $" ++ str_opt budget ++ ".".

Definition alert_message (name priority : option string) : string :=
  "High priority construction project created: " ++ str_opt name
    ++ " (Priority: " ++ str_opt priority ++ ")".

Definition created_message (name : option string) : string :=
  "Project " ++ dq ++ str_opt name ++ dq ++ " created successfully!".

Definition updated_message (name : option string) : string :=
  "Project " ++ dq ++ str_opt name ++ dq ++ " updated successfully!".

Definition deleted_message (name : option string) : string :=
  "Project " ++ dq ++ str_opt name ++ dq ++ " deleted successfully!".

Definition cloudwatch_logger : CloudWatchLogger :=
  CloudWatchLogger_init (AWS_CLOUDWATCH_LOG_GROUP settings) (AWS_REGION settings).

Definition s3_manager : S3FileManager :=
  {| bucket_name := AWS_S3_BUCKET_NAME settings; s3_region := AWS_REGION settings |}.

Definition notification_manager : NotificationManager :=
  {| notifier_region := AWS_REGION settings |}.

Inductive Context :=
| no_context
| projects_context (projects : list Project)
| project_context (project : Project) (document_url : option Url).

Inductive HttpResponse :=
| render (template : string) (context : Context)
| redirect (to : string).

(** [@login_required]: an anonymous request is sent to the login page and the
    view does not run.  The [next] parameter of the redirect is left out. *)
Definition login_required (view : User -> HttpRequest -> M HttpResponse)
    (request : HttpRequest) : M HttpResponse :=
  match user request with
  | Some u => view u request
  | None => ret (redirect (LOGIN_URL settings))
  end.

(** [bool(document)] for an uploaded file, and for a stored document. *)
Definition supplied (document : option File) : option File :=
  match document with
  | Some f => if truthy (file_name f) then Some f else None
  | None => None
  end.

Definition has_document (document : option string) : option string :=
  match document with
  | Some k => if truthy k then Some k else None
  | None => None
  end.

Definition file_key_of (project : Project) (document : File) : string :=
  "project_documents/" ++ str_id (id project) ++ "_" ++ file_name document.

Definition with_document (key : string) (p : Project) : Project :=
  {| id := id p; name := name p; description := description p;
     location := location p; start_date := start_date p; end_date := end_date p;
     budget := budget p; status := status p; priority := priority p;
     manager := manager p; document := Some key;
     created_at := created_at p; updated_at := updated_at p |}.

(** The eight assignments of the update branch. *)
Definition with_form (request : HttpRequest) (p : Project) : Project :=
  {| id := id p;
     name := mvd_get "name" (POST request);
     description := mvd_get "description" (POST request);
     location := mvd_get "location" (POST request);
     start_date := of_post (mvd_get "start_date" (POST request));
     end_date := of_post (mvd_get "end_date" (POST request));
     budget := of_post (mvd_get "budget" (POST request));
     status := mvd_get "status" (POST request);
     priority := mvd_get "priority" (POST request);
     manager := manager p; document := document p;
     created_at := created_at p; updated_at := updated_at p |}.

(** [priority in ['High', 'Critical']]. *)
Definition high_priority (priority : option string) : bool :=
  is_str priority "High" || is_str priority "Critical".

Definition project_list : HttpRequest -> M HttpResponse :=
  login_required (fun u request =>
    total <- objects_count ;;
    log_project_activity cloudwatch_logger "VIEW" (Some "PROJECT_LIST") (username u)
      [("total_projects", PInt total)] ;;
    projects <- objects_all ;;
    ret (render "construction/project_list.html" (projects_context projects))).

(** The second half of the POST branch of [project_create]: the creation
    record, the e-mail, the alert for a high priority, the flash message. *)
Definition announce_created (u : User) (request : HttpRequest) : M HttpResponse :=
  let name := mvd_get "name" (POST request) in
  let budget := mvd_get "budget" (POST request) in
  let status := mvd_get "status" (POST request) in
  let priority := mvd_get "priority" (POST request) in
  log_project_activity cloudwatch_logger "CREATE" name (username u)
    [("budget", PStr (str_opt budget)); ("status", of_opt status);
     ("priority", of_opt priority)] ;;
  send_email notification_manager
    (str_or (email u) (AWS_SES_SENDER_EMAIL settings))
    (created_subject name) (created_body name budget)
    (AWS_SES_SENDER_EMAIL settings) ;;
  (if high_priority priority then
     send_sns_notification notification_manager (AWS_SNS_TOPIC_ARN settings)
       (alert_message name priority) (Some "High Priority Project Alert") ;;
     ret tt
   else ret tt) ;;
  messages_success (created_message name) ;;
  ret (redirect "project_list").

Definition project_create : HttpRequest -> M HttpResponse :=
  login_required (fun u request =>
    if method request =? "POST" then
      let name := mvd_get "name" (POST request) in
      let description := mvd_get "description" (POST request) in
      let location := mvd_get "location" (POST request) in
      let start_date := mvd_get "start_date" (POST request) in
      let end_date := mvd_get "end_date" (POST request) in
      let budget := mvd_get "budget" (POST request) in
      let status := mvd_get "status" (POST request) in
      let priority := mvd_get "priority" (POST request) in
      let document := mvd_get "document" (FILES request) in
      project <- objects_create name description location
                   (of_post start_date) (of_post end_date) (of_post budget)
                   status priority (user_id u) ;;
      match supplied document with
      | Some document =>
          let file_key := file_key_of project document in
          uploaded <- upload_file s3_manager document file_key ;;
          if uploaded then
            save (with_document file_key project) ;;
            log_file_upload cloudwatch_logger (file_name document) (username u) name ;;
            ret tt
          else ret tt
      | None => ret tt
      end ;;
      announce_created u request
    else
      ret (render "construction/project_create.html" no_context)).

(** The tail of [project_detail]: the view record, the document URL, the page. *)
Definition show_project (u : User) (project : Project) : M HttpResponse :=
  log_project_activity cloudwatch_logger "VIEW" (name project) (username u)
    [("project_id", of_id (id project)); ("status", of_opt (status project))] ;;
  document_url <- match has_document (document project) with
                  | Some key => get_file_url s3_manager key 3600
                  | None => ret None
                  end ;;
  ret (render "construction/project_detail.html" (project_context project document_url)).

Definition project_detail (project_id : nat) : HttpRequest -> M HttpResponse :=
  login_required (fun u request =>
    project <- get_object_or_404 project_id ;;
    if method request =? "POST" then
      let action := mvd_get "action" (POST request) in
      if is_str action "update" then
        let project := with_form request project in
        let document := mvd_get "document" (FILES request) in
        project <- match supplied document with
                   | Some document =>
                       let file_key := file_key_of project document in
                       uploaded <- upload_file s3_manager document file_key ;;
                       if uploaded then
                         let project := with_document file_key project in
                         log_file_upload cloudwatch_logger (file_name document)
                           (username u) (name project) ;;
                         ret project
                       else ret project
                   | None => ret project
                   end ;;
        project <- save project ;;
        log_project_activity cloudwatch_logger "UPDATE" (name project) (username u)
          [("budget", PStr (str_budget (budget project)));
           ("status", of_opt (status project))] ;;
        messages_success (updated_message (name project)) ;;
        show_project u project
      else if is_str action "delete" then
        let project_name := name project in
        delete project ;;
        log_project_activity cloudwatch_logger "DELETE" project_name (username u) [] ;;
        messages_success (deleted_message project_name) ;;
        ret (redirect "project_list")
      else show_project u project
    else show_project u project).

(** ** Serving *)

(** What the client gets: the view's response, 404 for [Http404], 500 for any
    other exception the view lets through. *)
Inductive Served :=
| sent (response : HttpResponse)
| not_found
| server_error (e : exn).

Definition serve (view : HttpRequest -> M HttpResponse) (request : HttpRequest)
  : World -> Served * World :=
  fun w => match view request w with
           | (Ok r, w') => (sent r, w')
           | (Raise Http404, w') => (not_found, w')
           | (Raise e, w') => (server_error e, w')
           end.

(** The project routes of [urls.py]. *)
Inductive Route := list_route | create_route | detail_route (project_id : nat).

Definition resolve (r : Route) : HttpRequest -> M HttpResponse :=
  match r with
  | list_route => project_list
  | create_route => project_create
  | detail_route project_id => project_detail project_id
  end.

(** A request arriving at time [t] on route [r]. *)
Definition handle (t : nat) (r : Route) (request : HttpRequest) (w : World) : Served * World :=
  serve (resolve r) request (set_clock t w).

Fixpoint handle_all (l : list (nat * Route * HttpRequest)) (w : World) : World :=
  match l with
  | [] => w
  | (t, r, request) :: rest => handle_all rest (snd (handle t r request w))
  end.

(** ** Frames *)

(** [w'] differs from [w] at most in the calls made through the logs client
    and in the console. *)
Definition only_logged (w w' : World) : Prop :=
  db w' = db w /\ clock w' = clock w /\ flash w' = flash w /\
  activities w' = activities w /\
  aws (cloud w') = aws (cloud w) /\
  s3_calls (cloud w') = s3_calls (cloud w) /\
  ses_calls (cloud w') = ses_calls (cloud w) /\
  sns_calls (cloud w') = sns_calls (cloud w).

(** The last call made through the logs client raised. *)
Definition last_call_failed (w : World) : Prop :=
  exists before c, logs_calls (cloud w) = before ++ [(c, false)].

(** The requests [project_detail] answers with the page of the project: any
    method but POST, and a POST whose action is neither update nor delete. *)
Definition plain_view (request : HttpRequest) : bool :=
  negb (method request =? "POST")
  || (negb (is_str (mvd_get "action" (POST request)) "update")
      && negb (is_str (mvd_get "action" (POST request)) "delete")).

(** The state right after [log_project_activity] has been entered. *)
Definition noted (a : Activity) (w : World) : World := snd (note a w).

(** The state a collaborator call leaves. *)
Definition logged (self : CloudWatchLogger) (activity_type : string)
    (project_name : option string) (user : string)
    (details : list (string * pyval)) (w : World) : World :=
  snd (log_project_activity self activity_type project_name user details w).

Definition mailed (self : NotificationManager)
    (to_email subject body sender_email : string) (w : World) : World :=
  snd (send_email self to_email subject body sender_email w).

Definition published (self : NotificationManager) (topic_arn message : string)
    (subject : option string) (w : World) : World :=
  snd (send_sns_notification self topic_arn message subject w).

Definition put (self : S3FileManager) (file_obj : File) (file_key : string)
    (w : World) : World :=
  snd (upload_file self file_obj file_key w).

Definition signed (self : S3FileManager) (file_key : string) (expiration : nat)
    (w : World) : World :=
  snd (get_file_url self file_key expiration w).

(** Whether the next call through a client goes through. *)
Definition next_ok (c : client) (w : World) : bool :=
  aws (cloud w) c
    (match c with
     | Logs => length (logs_calls (cloud w))
     | S3 => length (s3_calls (cloud w))
     | SES => length (ses_calls (cloud w))
     | SNS => length (sns_calls (cloud w))
     end).

(** Every row has a key below the sequence, and a creation time. *)
Definition db_wf (d : DB) : Prop :=
  forall r, In r (rows d) ->
    (exists i, id r = Some i /\ i < next_id d) /\ created_at r <> None.

(** A stored attribute is what the column's conversion makes of the submitted
    text. *)
Definition converted {T} (conv : string -> option T) (submitted : option string)
    (stored : attr T) : Prop :=
  match submitted with
  | Some s => match conv s with Some v => stored = Val v | None => False end
  | None => False
  end.

(** The row carries the eight fields of the form. *)
Definition holds_form (request : HttpRequest) (row : Project) : Prop :=
  (exists s, mvd_get "name" (POST request) = Some s /\ name row = Some s) /\
  (exists s, mvd_get "description" (POST request) = Some s /\ description row = Some s) /\
  (exists s, mvd_get "location" (POST request) = Some s /\ location row = Some s) /\
  converted to_date (mvd_get "start_date" (POST request)) (start_date row) /\
  converted to_date (mvd_get "end_date" (POST request)) (end_date row) /\
  converted to_decimal (mvd_get "budget" (POST request)) (budget row) /\
  (exists s, mvd_get "status" (POST request) = Some s /\ status row = Some s) /\
  (exists s, mvd_get "priority" (POST request) = Some s /\ priority row = Some s).

(** The instance [project_create] hands to the table. *)
Definition submitted_project (u : User) (request : HttpRequest) : Project :=
  Project_init (mvd_get "name" (POST request))
    (mvd_get "description" (POST request))
    (mvd_get "location" (POST request))
    (of_post (mvd_get "start_date" (POST request)))
    (of_post (mvd_get "end_date" (POST request)))
    (of_post (mvd_get "budget" (POST request)))
    (Some (mvd_get "status" (POST request)))
    (Some (mvd_get "priority" (POST request)))
    (user_id u).

(** The instance has the eight fields as the form gives them. *)
Definition carries (request : HttpRequest) (p : Project) : Prop :=
  name p = mvd_get "name" (POST request) /\
  description p = mvd_get "description" (POST request) /\
  location p = mvd_get "location" (POST request) /\
  start_date p = of_post (mvd_get "start_date" (POST request)) /\
  end_date p = of_post (mvd_get "end_date" (POST request)) /\
  budget p = of_post (mvd_get "budget" (POST request)) /\
  status p = mvd_get "status" (POST request) /\
  priority p = mvd_get "priority" (POST request).

(** The key under which a file of project [i] is stored. *)
Definition document_key (i : nat) (f : File) : string :=
  "project_documents/" ++ str_int i ++ "_" ++ file_name f.

(** The row [project_create] leaves for a row [row] just inserted, given the
    uploaded file, if any, and whether the upload went through. *)
Definition created_row (i : nat) (document : option File) (uploaded : bool)
    (row : Project) : Project :=
  match supplied document with
  | Some f => if uploaded then with_document (document_key i f) row else row
  | None => row
  end.

(** The e-mail and the alert [project_create] sends. *)
Definition creation_email (u : User) (request : HttpRequest) : SesCall :=
  ses_send_email (AWS_SES_SENDER_EMAIL settings)
    (str_or (email u) (AWS_SES_SENDER_EMAIL settings))
    (created_subject (mvd_get "name" (POST request)))
    (created_body (mvd_get "name" (POST request)) (mvd_get "budget" (POST request))).

Definition creation_alert (request : HttpRequest) : SnsCall :=
  sns_publish (AWS_SNS_TOPIC_ARN settings)
    (alert_message (mvd_get "name" (POST request))
       (mvd_get "priority" (POST request)))
    (Some "High Priority Project Alert").

(** The instance the update branch saves: the form's fields over the stored
    project, and the new key when a supplied file was stored. *)
Definition updated_project (i : nat) (request : HttpRequest) (uploaded : bool)
    (old : Project) : Project :=
  match supplied (mvd_get "document" (FILES request)) with
  | Some f => if uploaded then with_document (document_key i f) (with_form request old)
              else with_form request old
  | None => with_form request old
  end.

(** The records the views leave with the audit sink. *)
Definition update_activity (u : User) (p : Project) : Activity :=
  {| act_type := "UPDATE"; act_project := name p; act_user := username u;
     act_details := [("budget", PStr (str_budget (budget p)));
                     ("status", of_opt (status p))] |}.

Definition view_activity (u : User) (p : Project) : Activity :=
  {| act_type := "VIEW"; act_project := name p; act_user := username u;
     act_details := [("project_id", of_id (id p)); ("status", of_opt (status p))] |}.

Definition upload_activity (u : User) (f : File) (project_name : option string)
  : Activity :=
  {| act_type := "FILE_UPLOAD"; act_project := project_name; act_user := username u;
     act_details := [("filename", PStr (file_name f)); ("action", PStr "file_upload")] |}.

Definition delete_activity (u : User) (p : Project) : Activity :=
  {| act_type := "DELETE"; act_project := name p; act_user := username u;
     act_details := [] |}.

(** The calls [show_project] makes through the S3 client, and the URL it shows. *)
Definition url_calls (p : Project) (ok : bool) : list (S3Call * bool) :=
  match has_document (document p) with
  | Some key => [(generate_presigned_url (AWS_S3_BUCKET_NAME settings) key 3600, ok)]
  | None => []
  end.

Definition shown_url (p : Project) (ok : bool) : option Url :=
  match has_document (document p) with
  | Some key => if ok then Some {| url_bucket := AWS_S3_BUCKET_NAME settings;
                                   url_key := key; url_expires := 3600 |}
                else None
  | None => None
  end.

Definition upload_calls (i : nat) (request : HttpRequest) (ok : bool)
  : list (S3Call * bool) :=
  match supplied (mvd_get "document" (FILES request)) with
  | Some f => [(upload_fileobj f (AWS_S3_BUCKET_NAME settings) (document_key i f), ok)]
  | None => []
  end.

Definition upload_activities (u : User) (request : HttpRequest) (uploaded : bool)
  : list Activity :=
  match supplied (mvd_get "document" (FILES request)) with
  | Some f => if uploaded
              then [upload_activity u f (mvd_get "name" (POST request))]
              else []
  | None => []
  end.


(** The ways a view changes the table. *)
Inductive db_step (d : DB) : DB -> Prop :=
| step_same : db_step d d
| step_insert (row : Project) :
    id row = Some (next_id d) -> created_at row <> None ->
    db_step d {| rows := rows d ++ [row]; next_id := S (next_id d) |}
| step_replace (i : nat) (row old : Project) :
    get_row i d = Some old -> id row = Some i -> created_at row <> None ->
    db_step d {| rows := replace_row i row (rows d); next_id := next_id d |}
| step_remove (i : nat) :
    db_step d {| rows := remove_row i (rows d); next_id := next_id d |}.

(** Newer rows come first. *)
Definition newest_first (l : list Project) : Prop :=
  StronglySorted (fun a b => stamp b <= stamp a) l.

(** The form has all eight fields, and the text of its dates and of its budget
    is text their columns convert. *)
Definition acceptable (request : HttpRequest) : Prop :=
  mvd_get "name" (POST request) <> None /\
  mvd_get "description" (POST request) <> None /\
  mvd_get "location" (POST request) <> None /\
  (exists s v, mvd_get "start_date" (POST request) = Some s /\ to_date s = Some v) /\
  (exists s v, mvd_get "end_date" (POST request) = Some s /\ to_date s = Some v) /\
  (exists s v, mvd_get "budget" (POST request) = Some s /\ to_decimal s = Some v) /\
  mvd_get "status" (POST request) <> None /\
  mvd_get "priority" (POST request) <> None.

(** The calls made through the S3 client between two states. *)
Definition new_s3_calls (w w' : World) : list (S3Call * bool) :=
  skipn (length (s3_calls (cloud w))) (s3_calls (cloud w')).

(** The project a request on a route is about: the one named by the route, or
    the one a creation is about to add. *)
Definition subject (r : Route) (w : World) : nat :=
  match r with
  | detail_route project_id => project_id
  | _ => next_id (db w)
  end.

(** The update record of a form submitted by [u]. *)
Definition update_record (u : User) (request : HttpRequest) : Activity :=
  {| act_type := "UPDATE";
     act_project := mvd_get "name" (POST request);
     act_user := username u;
     act_details := [("budget", PStr (str_opt (mvd_get "budget" (POST request))));
                     ("status", of_opt (mvd_get "status" (POST request)))] |}.

(** The same request from another user. *)
Definition as_user (u : option User) (request : HttpRequest) : HttpRequest :=
  {| method := method request; user := u; POST := POST request;
     FILES := FILES request |}.

(** Two states with the same table, clock, flash messages and document store;
    what was left with the audit sink, and how it behaves, may differ. *)
Definition alike (w1 w2 : World) : Prop :=
  db w1 = db w2 /\ clock w1 = clock w2 /\ flash w1 = flash w2 /\
  aws (cloud w1) S3 = aws (cloud w2) S3 /\
  s3_calls (cloud w1) = s3_calls (cloud w2).

(** Two computations that, from states alike, return the same and leave states
    alike. *)
Definition agree {A} (m1 m2 : M A) : Prop :=
  forall w1 w2, alike w1 w2 ->
    fst (m1 w1) = fst (m2 w2) /\ alike (snd (m1 w1)) (snd (m2 w2)).

(** ** The session views and the management command *)

(** [CloudWatchLogger.log_user_login]. *)
Definition log_user_login (self : CloudWatchLogger) (username : string)
    (ip_address : option string) : M bool :=
  let details := match ip_address with
                 | Some ip => if truthy ip then [("ip_address", PStr ip)] else []
                 | None => []
                 end in
  log_project_activity self "LOGIN" (Some "USER_AUTH") username details.

(** What [user_login] and the command [init_construction] can raise beside the
    exceptions of the project views. *)
Inductive error :=
| view_error (e : exn)
| MultiValueDictKeyError (key : string)
| DoesNotExist.

Inductive thrown (A : Type) := Returned (a : A) | Thrown (e : error).
#[global] Arguments Returned {A} a.
#[global] Arguments Thrown {A} e.

Definition X (A : Type) : Type := World -> thrown A * World.

Definition xret {A} (a : A) : X A := fun w => (Returned a, w).

Definition xraise {A} (e : error) : X A := fun w => (Thrown e, w).

Definition xbind {A B} (m : X A) (k : A -> X B) : X B :=
  fun w => match m w with
           | (Returned a, w') => k a w'
           | (Thrown e, w') => (Thrown e, w')
           end.

Definition lift {A} (m : M A) : X A :=
  fun w => match m w with
           | (Ok a, w') => (Returned a, w')
           | (Raise e, w') => (Thrown (view_error e), w')
           end.

Declare Scope X_scope.
Delimit Scope X_scope with X.
Notation "x <- m ;; k" := (xbind m (fun x => k))
  (at level 61, m at next level, right associativity) : X_scope.
Notation "m ;; k" := (xbind m (fun _ => k))
  (at level 61, right associativity) : X_scope.

(** [request.POST[key]]. *)
Definition post_item (key : string) (request : HttpRequest) : X string :=
  match mvd_get key (POST request) with
  | Some v => xret v
  | None => xraise (MultiValueDictKeyError key)
  end.

(** [messages.error(request, text)]; [flash] keeps the text of a message, not
    its level. *)
Definition messages_error (text : string) : M unit :=
  fun w => (Ok tt, {| db := db w; clock := clock w; cloud := cloud w;
                      activities := activities w;
                      console := console w; flash := flash w ++ [text] |}).

(** A response, and the user the session is bound to once the view is done:
    [login] binds it, [logout] clears it. *)
Record Answer := { response : HttpResponse; session : option User }.

(** [user_login].  [authenticate] is [django.contrib.auth.authenticate], which
    gives the user the credentials belong to; [META] is [request.META]. *)
Definition user_login (authenticate : string -> string -> option User)
    (META : list (string * string)) (request : HttpRequest) : X Answer :=
  (if method request =? "POST" then
     username <- post_item "username" request ;;
     password <- post_item "password" request ;;
     match authenticate username password with
     | Some user =>
         let ip_address := match mvd_get "REMOTE_ADDR" META with
                           | Some ip => ip
                           | None => EmptyString
                           end in
         lift (log_user_login cloudwatch_logger username (Some ip_address)) ;;
         lift (messages_success "Login successful!") ;;
         xret {| response := redirect "project_list"; session := Some user |}
     | None =>
         lift (messages_error "Invalid username or password.") ;;
         xret {| response := render "construction/login.html" no_context;
                 session := user request |}
     end
   else
     xret {| response := render "construction/login.html" no_context;
             session := user request |})%X.

Definition user_logout (request : HttpRequest) : X Answer :=
  (let who := match user request with
              | Some u => username u
              | None => "Anonymous"
              end in
   lift (log_project_activity cloudwatch_logger "LOGOUT" (Some "USER_AUTH") who []) ;;
   lift (messages_success "You have been logged out successfully.") ;;
   xret {| response := redirect "user_login"; session := None |})%X.

(** *** management/commands/init_construction.py *)

(** The table of [django.contrib.auth.models.User]; [password] stands for the
    hash that is stored. *)
Record Account := { account : User; password : string; is_superuser : bool }.

Record Auth := { accounts : list Account; next_user : nat }.

Definition named (name : string) (a : Account) : bool := username (account a) =? name.

(** [User.objects.filter(username=name).exists()]. *)
Definition username_exists (name : string) (a : Auth) : bool :=
  existsb (named name) (accounts a).

(** [User.objects.create_superuser(username, email, password)]; the column
    [username] is unique. *)
Definition create_superuser (username email password : string) (a : Auth) : X Auth :=
  if username_exists username a then xraise (view_error IntegrityError)
  else xret {| accounts := accounts a
                 ++ [{| account := {| user_id := next_user a; username := username;
                                      email := email |};
                        password := password; is_superuser := true |}];
               next_user := S (next_user a) |}.

(** [User.objects.get(username=name)]; user names being unique, no two rows
    match. *)
Definition get_user (name : string) (a : Auth) : X User :=
  match find (named name) (accounts a) with
  | Some x => xret (account x)
  | None => xraise DoesNotExist
  end.

(** [Project.objects.exists()]. *)
Definition objects_exists : M bool := fun w =>
  (Ok (match rows (db w) with [] => false | _ :: _ => true end), w).

(** What the command reads beside the state: the date at a time of the wall
    clock, [d + timedelta(days=n)], and the [Decimal] a [DecimalField] makes of
    a [float], given by its literal. *)
Record Calendar := {
  date_of : nat -> date;
  plus_days : date -> nat -> date;
  decimal_of_float : string -> decimal
}.

(** [date.today()]. *)
Definition date_today (cal : Calendar) : M date :=
  fun w => (Ok (date_of cal (clock w)), w).

(** [self.stdout.write(style(text))]; the console takes the text without its
    colour. *)
Definition stdout_write (text : string) : M unit := print text.

Definition nl : string := String (ascii_of_nat 10) EmptyString.

Definition office_text : string :=
  "A 25-story office building with modern amenities including underground parking, rooftop garden, and energy-efficient systems.".

Definition housing_text : string :=
  "A 50-unit residential complex with family-friendly amenities including playground, community center, and green spaces.".

Definition bridge_text : string :=
  "Complete renovation of a critical highway bridge including structural reinforcement and traffic safety improvements.".

Definition exists_text : string :=
  "⚠️ Superuser " ++ dq ++ "admin" ++ dq ++ " already exists".

Definition done_text : string :=
  nl ++ "🎉 Construction Management App initialized successfully!" ++ nl
    ++ "📝 Login with: admin/admin" ++ nl
    ++ "🌐 Access the app at: http://127.0.0.1:8000/construction/" ++ nl
    ++ "🔧 Admin panel at: http://127.0.0.1:8000/admin/" ++ nl.

(** The three sample projects of [Command.handle]. *)
Definition create_samples (cal : Calendar) (admin_user : User) : X unit :=
  (start_date <- lift (date_today cal) ;;
   end_date <- lift (date_today cal) ;;
   lift (objects_create (Some "Downtown Office Complex") (Some office_text)
           (Some "123 Main Street, New York, NY 10001")
           (Val start_date) (Val (plus_days cal end_date 365))
           (Val (decimal_of_float cal "5000000.00"))
           (Some "Planning") (Some "High") (user_id admin_user)) ;;
   start_date <- lift (date_today cal) ;;
   end_date <- lift (date_today cal) ;;
   lift (objects_create (Some "Residential Housing Development") (Some housing_text)
           (Some "456 Oak Avenue, Brooklyn, NY 11201")
           (Val (plus_days cal start_date 30)) (Val (plus_days cal end_date 545))
           (Val (decimal_of_float cal "8500000.00"))
           (Some "Planning") (Some "Medium") (user_id admin_user)) ;;
   start_date <- lift (date_today cal) ;;
   end_date <- lift (date_today cal) ;;
   lift (objects_create (Some "Highway Bridge Renovation") (Some bridge_text)
           (Some "Route 95, Queens, NY 11368")
           (Val (plus_days cal start_date 60)) (Val (plus_days cal end_date 240))
           (Val (decimal_of_float cal "2750000.00"))
           (Some "Planning") (Some "Critical") (user_id admin_user)) ;;
   xret tt)%X.

(** The first step of [Command.handle]: the superuser. *)
Definition ensure_superuser (a : Auth) : X Auth :=
  (if negb (username_exists "admin" a) then
     a <- create_superuser "admin" "admin@construction.com" "admin" a ;;
     lift (stdout_write "✅ Created superuser: admin/admin") ;;
     xret a
   else
     lift (stdout_write exists_text) ;;
     xret a)%X.

(** Its second step: the sample projects. *)
Definition ensure_samples (cal : Calendar) (a : Auth) : X unit :=
  (have <- lift objects_exists ;;
   if negb have then
     admin_user <- get_user "admin" a ;;
     create_samples cal admin_user ;;
     lift (stdout_write "✅ Created 3 sample construction projects")
   else
     lift (stdout_write "⚠️ Projects already exist, skipping sample data creation"))%X.

(** [Command.handle], from the user table to the user table it leaves. *)
Definition Command_handle (cal : Calendar) (a : Auth) : X Auth :=
  (lift (stdout_write "Initializing Construction Management App...") ;;
   a <- ensure_superuser a ;;
   ensure_samples cal a ;;
   lift (stdout_write done_text) ;;
   xret a)%X.

(** ** Statements about the collaborators *)

(** Whether the [k]-th call from now through the logs client goes through. *)
Definition logs_ok (k : nat) (w : World) : bool :=
  aws (cloud w) Logs (length (logs_calls (cloud w)) + k).

(** [w'] differs from [w] at most in the console and in the calls made through
    the client [c]. *)
Definition only_called (c : client) (w w' : World) : Prop :=
  db w' = db w /\ clock w' = clock w /\ flash w' = flash w /\
  activities w' = activities w /\ aws (cloud w') = aws (cloud w) /\
  (c <> Logs -> logs_calls (cloud w') = logs_calls (cloud w)) /\
  (c <> S3 -> s3_calls (cloud w') = s3_calls (cloud w)) /\
  (c <> SES -> ses_calls (cloud w') = ses_calls (cloud w)) /\
  (c <> SNS -> sns_calls (cloud w') = sns_calls (cloud w)).

(** What is printed when a call did not go through. *)
Definition complaint (ok : bool) (text : string) : list string :=
  if ok then [] else [text].

(** [bool(subject)] for an optional [str]. *)
Definition given (subject : option string) : option string :=
  match subject with
  | Some s => if truthy s then Some s else None
  | None => None
  end.

Definition is_put (c : LogsCall) : bool :=
  match c with put_log_events _ _ _ _ => true | _ => false end.

(** ** Statements about the views *)

(** The same request sent with GET. *)
Definition as_get (request : HttpRequest) : HttpRequest :=
  {| method := "GET"; user := user request; POST := POST request;
     FILES := FILES request |}.

(** The record [project_list] leaves with the audit sink. *)
Definition list_activity (u : User) (total : nat) : Activity :=
  {| act_type := "VIEW"; act_project := Some "PROJECT_LIST"; act_user := username u;
     act_details := [("total_projects", PInt total)] |}.

(** The keys of the table, in the order of its rows. *)
Definition keys (d : DB) : list (option nat) := map id (rows d).

(** An exception of the persistence layer. *)
Definition persistence_error (e : exn) : Prop :=
  e = ValidationError \/ e = IntegrityError.

(** ** Statements about the session views and the command *)

(** The page [user_login] shows; the session stays as it came. *)
Definition login_form (request : HttpRequest) : Answer :=
  {| response := render "construction/login.html" no_context;
     session := user request |}.

(** The details of a login record: the address of the client, when the request
    has one that is not empty. *)
Definition login_details (META : list (string * string)) : list (string * pyval) :=
  match given (mvd_get "REMOTE_ADDR" META) with
  | Some ip => [("ip_address", PStr ip)]
  | None => []
  end.

(** The name a logout is recorded under. *)
Definition leaver (request : HttpRequest) : string :=
  match user request with
  | Some u => username u
  | None => "Anonymous"
  end.

(** The state after a line was written to the console. *)
Definition wrote (text : string) (w : World) : World := snd (print text w).

(** The account [Command.handle] creates, with the key [i]. *)
Definition new_admin (i : nat) : Account :=
  {| account := {| user_id := i; username := "admin";
                   email := "admin@construction.com" |};
     password := "admin"; is_superuser := true |}.

(** A row as [Project.objects.create] writes it at time [t] under the key [i]
    for values of the columns' types. *)
Definition written (i t : nat) (n d l : string) (s e : date) (b : decimal)
    (st pr : string) (m : nat) : Project :=
  {| id := Some i; name := Some n; description := Some d; location := Some l;
     start_date := Val s; end_date := Val e; budget := Val b;
     status := Some st; priority := Some pr; manager := m; document := None;
     created_at := Some t; updated_at := Some t |}.

(** The rows of the three sample projects, added at time [t] from the key [i]
    on for the manager [m]. *)
Definition sample_rows (cal : Calendar) (m i t : nat) : list Project :=
  let today := date_of cal t in
  [written i t "Downtown Office Complex" office_text
     "123 Main Street, New York, NY 10001"
     today (plus_days cal today 365) (decimal_of_float cal "5000000.00")
     "Planning" "High" m;
   written (S i) t "Residential Housing Development" housing_text
     "456 Oak Avenue, Brooklyn, NY 11201"
     (plus_days cal today 30) (plus_days cal today 545)
     (decimal_of_float cal "8500000.00")
     "Planning" "Medium" m;
   written (S (S i)) t "Highway Bridge Renovation" bridge_text
     "Route 95, Queens, NY 11368"
     (plus_days cal today 60) (plus_days cal today 240)
     (decimal_of_float cal "2750000.00")
     "Planning" "Critical" m].

(** The user table with an account named [admin]: as it is when it has one,
    with a new superuser otherwise. *)
Definition with_admin (a : Auth) : Auth :=
  if username_exists "admin" a then a
  else {| accounts := accounts a ++ [new_admin (next_user a)];
          next_user := S (next_user a) |}.

(** [w'] differs from [w] at most in the table and in the console. *)
Definition only_stored (w w' : World) : Prop :=
  clock w' = clock w /\ cloud w' = cloud w /\ activities w' = activities w
  /\ flash w' = flash w.

(** * Properties *)

(** ** The audit sink *)

Lemma only_logged_refl (w : World) : only_logged w w.
Proof. repeat split. Qed.

Lemma only_logged_trans (w1 w2 w3 : World) :
  only_logged w1 w2 -> only_logged w2 w3 -> only_logged w1 w3.
Proof.
  unfold only_logged. intros H1 H2.
  decompose [and] H1. decompose [and] H2.
  repeat split; congruence.
Qed.

Ltac oracle :=
  repeat match goal with
         | |- context [outcome ?b] => destruct b eqn:?; cbn
         end.

Lemma ensure_log_group_exists_total (self : CloudWatchLogger) (w : World) :
  exists b w', ensure_log_group_exists self w = (Ok b, w') /\ only_logged w w'
               /\ (b = false -> last_call_failed w').
Proof.
  unfold ensure_log_group_exists, try_except, bind, logs_client, print, ret.
  cbn. oracle; eexists _, _;
    (split; [reflexivity | split; [repeat split |]]);
    intros E; try discriminate E; eexists _, _; reflexivity.
Qed.

Lemma ensure_log_stream_exists_total (self : CloudWatchLogger) (w : World) :
  exists b w', ensure_log_stream_exists self w = (Ok b, w') /\ only_logged w w'
               /\ (b = false -> last_call_failed w').
Proof.
  unfold ensure_log_stream_exists, try_except, bind, logs_client, print, ret.
  cbn. oracle; eexists _, _;
    (split; [reflexivity | split; [repeat split |]]);
    intros E; try discriminate E; eexists _, _; reflexivity.
Qed.

Lemma log_project_activity_total (self : CloudWatchLogger) (activity_type : string)
    (project_name : option string) (user : string) (details : list (string * pyval))
    (w : World) :
  exists b w',
    log_project_activity self activity_type project_name user details w = (Ok b, w')
    /\ only_logged
         (noted {| act_type := activity_type; act_project := project_name;
                   act_user := user; act_details := details |} w) w'
    /\ (b = true ->
        exists before ms,
          logs_calls (cloud w')
          = before ++ [(put_log_events (log_group_name self) (log_stream_name self) ms
                          {| timestamp := clock w; activity_type := activity_type;
                             project_name := project_name; actor := user;
                             details := details |}, true)])
    /\ (b = false ->
        last_call_failed w'
        \/ forallb (fun kv => serialisable (snd kv)) details = false).
Proof.
  unfold log_project_activity, noted.
  set (a := {| act_type := activity_type |}).
  unfold bind at 1. destruct (note a w) as [r w1] eqn:N.
  unfold note in N. injection N as <- Hw1. cbn [snd].
  assert (C1 : clock w1 = clock w) by (subst w1; reflexivity).
  clear Hw1.
  unfold bind at 1.
  destruct (ensure_log_group_exists_total self w1) as (g & w2 & -> & F2 & L2).
  destruct g; cbn [negb].
  2:{ eexists _, _. split; [reflexivity |].
      split; [exact F2 | split; [discriminate | left; apply L2; reflexivity]]. }
  unfold bind at 1.
  destruct (ensure_log_stream_exists_total self w2) as (st & w3 & -> & F3 & L3).
  pose proof (only_logged_trans _ _ _ F2 F3) as F.
  destruct st; cbn [negb].
  2:{ eexists _, _. split; [reflexivity |].
      split; [exact F | split; [discriminate | left; apply L3; reflexivity]]. }
  assert (C3 : clock w3 = clock w) by (destruct F as (_ & -> & _); exact C1).
  unfold bind, now, try_except, json_dumps, logs_client, print, ret, raise. cbn.
  destruct (forallb _ details); cbn.
  - oracle.
    + eexists _, _. split; [reflexivity |].
      split; [| split].
      * eapply only_logged_trans; [exact F | repeat split].
      * intros _. rewrite C3. eexists _, _. reflexivity.
      * discriminate.
    + eexists _, _. split; [reflexivity |].
      split; [| split; [discriminate |]].
      * eapply only_logged_trans; [exact F | repeat split].
      * intros _. left. eexists _, _. reflexivity.
  - eexists _, _. split; [reflexivity |].
    split; [| split; [discriminate |]].
    + eapply only_logged_trans; [exact F | repeat split].
    + intros _. right. reflexivity.
Qed.

Lemma bind_log {B} (self : CloudWatchLogger) (activity_type : string)
    (project_name : option string) (user : string) (details : list (string * pyval))
    (k : M B) (w : World) :
  bind (log_project_activity self activity_type project_name user details)
       (fun _ => k) w
  = k (logged self activity_type project_name user details w).
Proof.
  unfold bind, logged.
  destruct (log_project_activity_total self activity_type project_name user details w)
    as (b & w' & -> & _).
  reflexivity.
Qed.

Lemma logged_frame (self : CloudWatchLogger) (activity_type : string)
    (project_name : option string) (user : string) (details : list (string * pyval))
    (w : World) :
  only_logged
    (noted {| act_type := activity_type; act_project := project_name;
              act_user := user; act_details := details |} w)
    (logged self activity_type project_name user details w).
Proof.
  unfold logged.
  destruct (log_project_activity_total self activity_type project_name user details w)
    as (b & w' & -> & F & _).
  exact F.
Qed.

Section LoggedFrame.
Variables (self : CloudWatchLogger) (a : string) (p : option string) (u : string)
          (d : list (string * pyval)) (w : World).

Lemma logged_db : db (logged self a p u d w) = db w.
Proof. destruct (logged_frame self a p u d w) as (H & _). exact H. Qed.

Lemma logged_clock : clock (logged self a p u d w) = clock w.
Proof. destruct (logged_frame self a p u d w) as (_ & H & _). exact H. Qed.

Lemma logged_flash : flash (logged self a p u d w) = flash w.
Proof. destruct (logged_frame self a p u d w) as (_ & _ & H & _). exact H. Qed.

Lemma logged_activities :
  activities (logged self a p u d w)
  = activities w ++ [{| act_type := a; act_project := p; act_user := u;
                        act_details := d |}].
Proof. destruct (logged_frame self a p u d w) as (_ & _ & _ & H & _). exact H. Qed.

Lemma logged_aws : aws (cloud (logged self a p u d w)) = aws (cloud w).
Proof. destruct (logged_frame self a p u d w) as (_ & _ & _ & _ & H & _). exact H. Qed.

Lemma logged_s3 : s3_calls (cloud (logged self a p u d w)) = s3_calls (cloud w).
Proof.
  destruct (logged_frame self a p u d w) as (_ & _ & _ & _ & _ & H & _). exact H.
Qed.

Lemma logged_ses : ses_calls (cloud (logged self a p u d w)) = ses_calls (cloud w).
Proof.
  destruct (logged_frame self a p u d w) as (_ & _ & _ & _ & _ & _ & H & _). exact H.
Qed.

Lemma logged_sns : sns_calls (cloud (logged self a p u d w)) = sns_calls (cloud w).
Proof.
  destruct (logged_frame self a p u d w) as (_ & _ & _ & _ & _ & _ & _ & H). exact H.
Qed.
End LoggedFrame.

(** ** The document store and the notification dispatcher *)

Lemma upload_file_run (self : S3FileManager) (f : File) (key : string) (w : World) :
  upload_file self f key w = (Ok (next_ok S3 w), put self f key w).
Proof.
  unfold put, upload_file, try_except, bind, s3_client, print, ret, next_ok.
  cbn. oracle; reflexivity.
Qed.

Lemma get_file_url_run (self : S3FileManager) (key : string) (ttl : nat) (w : World) :
  get_file_url self key ttl w
  = (Ok (if next_ok S3 w
         then Some {| url_bucket := bucket_name self; url_key := key;
                      url_expires := ttl |}
         else None),
     signed self key ttl w).
Proof.
  unfold signed, get_file_url, try_except, bind, s3_client, print, ret, next_ok.
  cbn. oracle; reflexivity.
Qed.

Lemma bind_send_email {B} (self : NotificationManager) (to subject body sender : string)
    (k : M B) (w : World) :
  bind (send_email self to subject body sender) (fun _ => k) w
  = k (mailed self to subject body sender w).
Proof.
  unfold mailed, send_email, try_except, bind, ses_client, print, ret.
  cbn. oracle; reflexivity.
Qed.

Lemma bind_send_sns {B} (self : NotificationManager) (topic message : string)
    (subject : option string) (k : M B) (w : World) :
  bind (send_sns_notification self topic message subject) (fun _ => k) w
  = k (published self topic message subject w).
Proof.
  unfold published, send_sns_notification, try_except, bind, sns_client, print, ret.
  cbn. oracle; reflexivity.
Qed.

Ltac frame_of defs :=
  intros; unfold next_ok; defs; unfold try_except, bind, print, ret;
  cbn; oracle; reflexivity.

Lemma put_db (s3 : S3FileManager) (f : File) (key : string) (w : World) :
  db (put s3 f key w) = db w.
Proof. frame_of ltac:(unfold put, upload_file, s3_client). Qed.

Lemma put_clock (s3 : S3FileManager) (f : File) (key : string) (w : World) :
  clock (put s3 f key w) = clock w.
Proof. frame_of ltac:(unfold put, upload_file, s3_client). Qed.

Lemma put_flash (s3 : S3FileManager) (f : File) (key : string) (w : World) :
  flash (put s3 f key w) = flash w.
Proof. frame_of ltac:(unfold put, upload_file, s3_client). Qed.

Lemma put_activities (s3 : S3FileManager) (f : File) (key : string) (w : World) :
  activities (put s3 f key w) = activities w.
Proof. frame_of ltac:(unfold put, upload_file, s3_client). Qed.

Lemma put_aws (s3 : S3FileManager) (f : File) (key : string) (w : World) :
  aws (cloud (put s3 f key w)) = aws (cloud w).
Proof. frame_of ltac:(unfold put, upload_file, s3_client). Qed.

Lemma put_s3 (s3 : S3FileManager) (f : File) (key : string) (w : World) :
  s3_calls (cloud (put s3 f key w)) = s3_calls (cloud w)
      ++ [(upload_fileobj f (bucket_name s3) key, next_ok S3 w)].
Proof. frame_of ltac:(unfold put, upload_file, s3_client). Qed.

Lemma put_ses (s3 : S3FileManager) (f : File) (key : string) (w : World) :
  ses_calls (cloud (put s3 f key w)) = ses_calls (cloud w).
Proof. frame_of ltac:(unfold put, upload_file, s3_client). Qed.

Lemma put_sns (s3 : S3FileManager) (f : File) (key : string) (w : World) :
  sns_calls (cloud (put s3 f key w)) = sns_calls (cloud w).
Proof. frame_of ltac:(unfold put, upload_file, s3_client). Qed.

Lemma signed_db (s3 : S3FileManager) (key : string) (ttl : nat) (w : World) :
  db (signed s3 key ttl w) = db w.
Proof. frame_of ltac:(unfold signed, get_file_url, s3_client). Qed.

Lemma signed_clock (s3 : S3FileManager) (key : string) (ttl : nat) (w : World) :
  clock (signed s3 key ttl w) = clock w.
Proof. frame_of ltac:(unfold signed, get_file_url, s3_client). Qed.

Lemma signed_flash (s3 : S3FileManager) (key : string) (ttl : nat) (w : World) :
  flash (signed s3 key ttl w) = flash w.
Proof. frame_of ltac:(unfold signed, get_file_url, s3_client). Qed.

Lemma signed_activities (s3 : S3FileManager) (key : string) (ttl : nat) (w : World) :
  activities (signed s3 key ttl w) = activities w.
Proof. frame_of ltac:(unfold signed, get_file_url, s3_client). Qed.

Lemma signed_aws (s3 : S3FileManager) (key : string) (ttl : nat) (w : World) :
  aws (cloud (signed s3 key ttl w)) = aws (cloud w).
Proof. frame_of ltac:(unfold signed, get_file_url, s3_client). Qed.

Lemma signed_s3 (s3 : S3FileManager) (key : string) (ttl : nat) (w : World) :
  s3_calls (cloud (signed s3 key ttl w)) = s3_calls (cloud w)
      ++ [(generate_presigned_url (bucket_name s3) key ttl, next_ok S3 w)].
Proof. frame_of ltac:(unfold signed, get_file_url, s3_client). Qed.

Lemma signed_ses (s3 : S3FileManager) (key : string) (ttl : nat) (w : World) :
  ses_calls (cloud (signed s3 key ttl w)) = ses_calls (cloud w).
Proof. frame_of ltac:(unfold signed, get_file_url, s3_client). Qed.

Lemma signed_sns (s3 : S3FileManager) (key : string) (ttl : nat) (w : World) :
  sns_calls (cloud (signed s3 key ttl w)) = sns_calls (cloud w).
Proof. frame_of ltac:(unfold signed, get_file_url, s3_client). Qed.

Lemma mailed_db (nm : NotificationManager) (to subject body sender : string) (w : World) :
  db (mailed nm to subject body sender w) = db w.
Proof. frame_of ltac:(unfold mailed, send_email, ses_client). Qed.

Lemma mailed_clock (nm : NotificationManager) (to subject body sender : string) (w : World) :
  clock (mailed nm to subject body sender w) = clock w.
Proof. frame_of ltac:(unfold mailed, send_email, ses_client). Qed.

Lemma mailed_flash (nm : NotificationManager) (to subject body sender : string) (w : World) :
  flash (mailed nm to subject body sender w) = flash w.
Proof. frame_of ltac:(unfold mailed, send_email, ses_client). Qed.

Lemma mailed_activities (nm : NotificationManager) (to subject body sender : string) (w : World) :
  activities (mailed nm to subject body sender w) = activities w.
Proof. frame_of ltac:(unfold mailed, send_email, ses_client). Qed.

Lemma mailed_aws (nm : NotificationManager) (to subject body sender : string) (w : World) :
  aws (cloud (mailed nm to subject body sender w)) = aws (cloud w).
Proof. frame_of ltac:(unfold mailed, send_email, ses_client). Qed.

Lemma mailed_s3 (nm : NotificationManager) (to subject body sender : string) (w : World) :
  s3_calls (cloud (mailed nm to subject body sender w)) = s3_calls (cloud w).
Proof. frame_of ltac:(unfold mailed, send_email, ses_client). Qed.

Lemma mailed_ses (nm : NotificationManager) (to subject body sender : string) (w : World) :
  ses_calls (cloud (mailed nm to subject body sender w)) = ses_calls (cloud w)
      ++ [(ses_send_email sender to subject body, next_ok SES w)].
Proof. frame_of ltac:(unfold mailed, send_email, ses_client). Qed.

Lemma mailed_sns (nm : NotificationManager) (to subject body sender : string) (w : World) :
  sns_calls (cloud (mailed nm to subject body sender w)) = sns_calls (cloud w).
Proof. frame_of ltac:(unfold mailed, send_email, ses_client). Qed.

Lemma published_db (nm : NotificationManager) (topic message : string) (subject : option string) (w : World) :
  db (published nm topic message subject w) = db w.
Proof. frame_of ltac:(unfold published, send_sns_notification, sns_client). Qed.

Lemma published_clock (nm : NotificationManager) (topic message : string) (subject : option string) (w : World) :
  clock (published nm topic message subject w) = clock w.
Proof. frame_of ltac:(unfold published, send_sns_notification, sns_client). Qed.

Lemma published_flash (nm : NotificationManager) (topic message : string) (subject : option string) (w : World) :
  flash (published nm topic message subject w) = flash w.
Proof. frame_of ltac:(unfold published, send_sns_notification, sns_client). Qed.

Lemma published_activities (nm : NotificationManager) (topic message : string) (subject : option string) (w : World) :
  activities (published nm topic message subject w) = activities w.
Proof. frame_of ltac:(unfold published, send_sns_notification, sns_client). Qed.

Lemma published_aws (nm : NotificationManager) (topic message : string) (subject : option string) (w : World) :
  aws (cloud (published nm topic message subject w)) = aws (cloud w).
Proof. frame_of ltac:(unfold published, send_sns_notification, sns_client). Qed.

Lemma published_s3 (nm : NotificationManager) (topic message : string) (subject : option string) (w : World) :
  s3_calls (cloud (published nm topic message subject w)) = s3_calls (cloud w).
Proof. frame_of ltac:(unfold published, send_sns_notification, sns_client). Qed.

Lemma published_ses (nm : NotificationManager) (topic message : string) (subject : option string) (w : World) :
  ses_calls (cloud (published nm topic message subject w)) = ses_calls (cloud w).
Proof. frame_of ltac:(unfold published, send_sns_notification, sns_client). Qed.

Lemma published_sns (nm : NotificationManager) (topic message : string) (subject : option string) (w : World) :
  sns_calls (cloud (published nm topic message subject w)) = sns_calls (cloud w)
      ++ [(sns_publish topic message
            (match subject with
             | Some s => if truthy s then Some s else None
             | None => None
             end), next_ok SNS w)].
Proof. frame_of ltac:(unfold published, send_sns_notification, sns_client). Qed.

Create Rewrite HintDb world.

#[local] Hint Rewrite
  @logged_db @logged_clock @logged_flash @logged_activities @logged_aws
  @logged_s3 @logged_ses @logged_sns
  @put_db @put_clock @put_flash @put_activities @put_aws @put_s3 @put_ses
  @put_sns @signed_db @signed_clock @signed_flash @signed_activities
  @signed_aws @signed_s3 @signed_ses @signed_sns @mailed_db @mailed_clock
  @mailed_flash @mailed_activities @mailed_aws @mailed_s3 @mailed_ses
  @mailed_sns @published_db @published_clock @published_flash
  @published_activities @published_aws @published_s3 @published_ses
  @published_sns : world.

(** ** The table *)

Lemma has_id_true (i : nat) (p : Project) : has_id i p = true <-> id p = Some i.
Proof.
  unfold has_id. destruct (id p) as [j |].
  - rewrite Nat.eqb_eq. split; congruence.
  - split; discriminate.
Qed.

Lemma get_row_id (i : nat) (d : DB) (p : Project) :
  get_row i d = Some p -> id p = Some i /\ In p (rows d).
Proof.
  unfold get_row. intros H. apply find_some in H as [HIn Hid].
  split; [apply has_id_true; exact Hid | exact HIn].
Qed.

Lemma fresh_absent (d : DB) :
  db_wf d -> forall r, In r (rows d) -> has_id (next_id d) r = false.
Proof.
  intros W r HIn. destruct (W r HIn) as ((i & Hi & Hlt) & _).
  unfold has_id. rewrite Hi. apply Nat.eqb_neq. lia.
Qed.

Lemma find_app_fresh (i : nat) (l : list Project) (row : Project) :
  (forall r, In r l -> has_id i r = false) -> has_id i row = true ->
  find (has_id i) (l ++ [row]) = Some row.
Proof.
  intros Hl Hrow. induction l as [| q l IH]; cbn.
  - rewrite Hrow. reflexivity.
  - rewrite (Hl q (or_introl eq_refl)). apply IH.
    intros r Hr. apply Hl. right. exact Hr.
Qed.

Lemma replace_row_app_fresh (i : nat) (l : list Project) (row x : Project) :
  (forall r, In r l -> has_id i r = false) -> has_id i row = true ->
  replace_row i x (l ++ [row]) = l ++ [x].
Proof.
  intros Hl Hrow. unfold replace_row. rewrite map_app. cbn. rewrite Hrow.
  f_equal. induction l as [| q l IH]; cbn; [reflexivity |].
  rewrite (Hl q (or_introl eq_refl)). f_equal. apply IH.
  intros r Hr. apply Hl. right. exact Hr.
Qed.

Lemma find_other_app (j : nat) (l : list Project) (row : Project) :
  has_id j row = false -> find (has_id j) (l ++ [row]) = find (has_id j) l.
Proof.
  intros H. induction l as [| q l IH]; cbn.
  - rewrite H. reflexivity.
  - destruct (has_id j q); [reflexivity | exact IH].
Qed.

Lemma find_remove_same (i : nat) (l : list Project) :
  find (has_id i) (remove_row i l) = None.
Proof.
  induction l as [| q l IH]; cbn; [reflexivity |].
  destruct (has_id i q) eqn:E; cbn; [exact IH |].
  rewrite E. exact IH.
Qed.

Lemma find_remove_other (i j : nat) (l : list Project) :
  i <> j -> find (has_id j) (remove_row i l) = find (has_id j) l.
Proof.
  intros Hij. induction l as [| q l IH]; cbn; [reflexivity |].
  destruct (has_id i q) eqn:Ei; cbn.
  - destruct (has_id j q) eqn:Ej; [| exact IH].
    apply has_id_true in Ei. apply has_id_true in Ej. congruence.
  - destruct (has_id j q); [reflexivity | exact IH].
Qed.

Lemma find_replace_same (i : nat) (l : list Project) (x old : Project) :
  has_id i x = true -> find (has_id i) l = Some old ->
  find (has_id i) (replace_row i x l) = Some x.
Proof.
  intros Hx. induction l as [| q l IH]; cbn; [discriminate |].
  destruct (has_id i q) eqn:E; cbn.
  - intros _. rewrite Hx. reflexivity.
  - intros H. rewrite E. apply IH. exact H.
Qed.

Lemma find_replace_other (i j : nat) (l : list Project) (x : Project) :
  i <> j -> has_id i x = true ->
  find (has_id j) (replace_row i x l) = find (has_id j) l.
Proof.
  intros Hij Hx. induction l as [| q l IH]; cbn; [reflexivity |].
  destruct (has_id i q) eqn:Ei.
  - assert (has_id j x = false) as ->.
    { destruct (has_id j x) eqn:Ej; [| reflexivity].
      apply has_id_true in Hx. apply has_id_true in Ej. congruence. }
    assert (has_id j q = false) as ->.
    { destruct (has_id j q) eqn:Ej; [| reflexivity].
      apply has_id_true in Ei. apply has_id_true in Ej. congruence. }
    exact IH.
  - destruct (has_id j q); [reflexivity | exact IH].
Qed.

(** ** What [save] writes *)

Lemma not_null_ok {T} (v v' : option T) :
  not_null v = Ok v' -> v' = v /\ v <> None.
Proof. destruct v; cbn; intros H; [| discriminate]. split; congruence. Qed.

Lemma not_null_attr_ok {T} (a a' : attr T) :
  not_null_attr a = Ok a' -> a' = a /\ a <> Null.
Proof. destruct a; cbn; intros H; try discriminate; split; congruence. Qed.

Lemma to_python_null {T} (conv : string -> option T) (a a' : attr T) :
  to_python conv a = Ok a' -> a' <> Null -> a <> Null.
Proof. destruct a; cbn; congruence. Qed.

Ltac prepare_cases H :=
  unfold prepare, rbind in H;
  repeat match type of H with
         | context [match ?x with _ => _ end] => destruct x eqn:?; try discriminate H
         end;
  repeat match goal with
         | E : not_null _ = Ok _ |- _ => apply not_null_ok in E as [? ?]
         | E : not_null_attr _ = Ok _ |- _ => apply not_null_attr_ok in E as [? ?]
         end;
  subst.

Lemma prepare_fields (p row : Project) :
  prepare p = Ok row ->
  id row = id p /\ manager row = manager p /\ document row = document p /\
  created_at row = created_at p /\ updated_at row = updated_at p /\
  name row = name p /\ description row = description p /\ location row = location p /\
  status row = status p /\ priority row = priority p /\
  to_python to_date (start_date p) = Ok (start_date row) /\
  to_python to_date (end_date p) = Ok (end_date row) /\
  to_python to_decimal (budget p) = Ok (budget row).
Proof.
  intros H. prepare_cases H.
  injection H as <-. cbn. repeat split; assumption.
Qed.

Lemma prepare_not_null (p row : Project) :
  prepare p = Ok row ->
  name p <> None /\ description p <> None /\ location p <> None /\
  status p <> None /\ priority p <> None /\
  start_date p <> Null /\ end_date p <> Null /\ budget p <> Null.
Proof.
  intros H. prepare_cases H.
  repeat split; try assumption; eapply to_python_null; eassumption.
Qed.

Lemma prepare_with_document (key : string) (p row : Project) :
  prepare p = Ok row ->
  prepare (with_document key p) = Ok (with_document key row).
Proof.
  intros H. unfold prepare, rbind in *. cbn [with_document start_date end_date budget
    name description location status priority created_at updated_at id manager document].
  repeat match type of H with
         | context [match ?x with _ => _ end] => destruct x eqn:?; try discriminate H
         end.
  injection H as <-. reflexivity.
Qed.

Lemma converted_of_post {T} (conv : string -> option T) (v : option string)
    (a : attr T) :
  to_python conv (of_post v) = Ok a -> a <> Null \/ v <> None -> converted conv v a.
Proof.
  unfold converted, of_post, to_python. destruct v as [s |].
  - destruct (conv s); [| discriminate]. intros H _. congruence.
  - intros H [C | C]; congruence.
Qed.

Lemma prepare_holds_form (request : HttpRequest) (p row : Project) :
  carries request p -> prepare p = Ok row ->
  holds_form request row.
Proof.
  intros C H.
  destruct (prepare_not_null _ _ H) as (Nn & Nd & Nl & Nst & Np & Ns & Ne & Nb).
  destruct (prepare_fields _ _ H)
    as (_ & _ & _ & _ & _ & Fn & Fd & Fl & Fst & Fp & Fs & Fe & Fb).
  destruct C as (Cn & Cd & Cl & Cs & Ce & Cb & Cst & Cp).
  assert (text : forall key (stored given : option string),
             stored = given -> given = mvd_get key (POST request) -> given <> None ->
             exists s, mvd_get key (POST request) = Some s /\ stored = Some s).
  { intros key stored given E1 E2 NN.
    destruct (mvd_get key (POST request)) as [s |]; [| congruence].
    exists s. split; congruence. }
  repeat split; eauto.
  - apply converted_of_post; [congruence | right; intros E].
    apply Ns. rewrite Cs, E. reflexivity.
  - apply converted_of_post; [congruence | right; intros E].
    apply Ne. rewrite Ce, E. reflexivity.
  - apply converted_of_post; [congruence | right; intros E].
    apply Nb. rewrite Cb, E. reflexivity.
Qed.

Ltac frames :=
  repeat progress
    (unfold next_ok; try (rewrite_strat (topdown (hints world)));
     rewrite ?logged_aws, ?put_aws, ?signed_aws, ?mailed_aws, ?published_aws;
     cbn [db clock cloud flash activities aws s3_calls ses_calls sns_calls
          logs_calls console set_db set_clock set_cloud]).

Lemma prepare_raises (p : Project) (e : exn) :
  prepare p = Raise e -> persistence_error e.
Proof.
  unfold prepare, rbind, persistence_error. intros H.
  repeat match type of H with
         | context [match ?x with _ => _ end] => destruct x eqn:?
         end;
  try discriminate H;
  repeat match goal with
         | E : to_python _ _ = Raise _ |- _ =>
             unfold to_python in E;
             repeat match type of E with
                    | context [match ?x with _ => _ end] => destruct x
                    end; try discriminate E; injection E as <-
         | E : not_null _ = Raise _ |- _ =>
             unfold not_null in E;
             repeat match type of E with
                    | context [match ?x with _ => _ end] => destruct x
                    end; try discriminate E; injection E as <-
         | E : not_null_attr _ = Raise _ |- _ =>
             unfold not_null_attr in E;
             repeat match type of E with
                    | context [match ?x with _ => _ end] => destruct x
                    end; try discriminate E; injection E as <-
         end;
  injection H as <-; auto.
Qed.

Lemma prepare_ok_acceptable (request : HttpRequest) (p row : Project) :
  carries request p -> prepare p = Ok row -> acceptable request.
Proof.
  intros (Cn & Cd & Cl & Cs & Ce & Cb & Cst & Cp) P.
  destruct (prepare_not_null _ _ P) as (Nn & Nd & Nl & Nst & Np & Ns & Ne & Nb).
  destruct (prepare_fields _ _ P) as (_ & _ & _ & _ & _ & _ & _ & _ & _ & _ & Ts & Te & Tb).
  rewrite Cn in Nn. rewrite Cd in Nd. rewrite Cl in Nl. rewrite Cst in Nst.
  rewrite Cp in Np. rewrite Cs in Ns, Ts. rewrite Ce in Ne, Te. rewrite Cb in Nb, Tb.
  unfold acceptable.
  split; [exact Nn |]. split; [exact Nd |]. split; [exact Nl |].
  split; [| split; [| split; [| split; [exact Nst | exact Np]]]].
  - destruct (mvd_get "start_date" (POST request)) as [x |]; [| contradiction Ns; reflexivity].
    cbn in Ts. destruct (to_date x) as [v |] eqn:Tx; [| discriminate].
    exists x, v. split; [reflexivity | exact Tx].
  - destruct (mvd_get "end_date" (POST request)) as [x |]; [| contradiction Ne; reflexivity].
    cbn in Te. destruct (to_date x) as [v |] eqn:Tx; [| discriminate].
    exists x, v. split; [reflexivity | exact Tx].
  - destruct (mvd_get "budget" (POST request)) as [x |]; [| contradiction Nb; reflexivity].
    cbn in Tb. destruct (to_decimal x) as [v |] eqn:Tx; [| discriminate].
    exists x, v. split; [reflexivity | exact Tx].
Qed.

(** A form that is not acceptable is refused by the persistence layer. *)
Lemma prepare_refuses (request : HttpRequest) (p : Project) :
  carries request p -> ~ acceptable request ->
  exists e, prepare p = Raise e /\ persistence_error e.
Proof.
  intros C N. destruct (prepare p) as [row | e] eqn:P.
  - contradiction N. exact (prepare_ok_acceptable request p row C P).
  - exists e. split; [reflexivity | exact (prepare_raises p e P)].
Qed.

(** ** What a query reads *)

Lemma read_row_raises (r : Project) (e : exn) :
  read_row r = Raise e -> e = InvalidOperation.
Proof.
  unfold read_row. destruct (budget r) as [| s | v]; try discriminate.
  destruct (from_db v); [discriminate |]. intros H. injection H as <-. reflexivity.
Qed.

Lemma read_row_fields (r p : Project) :
  read_row r = Ok p ->
  id p = id r /\ name p = name r /\ description p = description r
  /\ location p = location r /\ start_date p = start_date r
  /\ end_date p = end_date r /\ status p = status r /\ priority p = priority r
  /\ manager p = manager r /\ document p = document r
  /\ created_at p = created_at r /\ updated_at p = updated_at r.
Proof.
  unfold read_row. destruct (budget r) as [| s | v].
  - intros H. injection H as <-. repeat split.
  - intros H. injection H as <-. repeat split.
  - destruct (from_db v); [| discriminate]. intros H. injection H as <-.
    repeat split.
Qed.

Lemma read_row_budget (r p : Project) (v : decimal) :
  read_row r = Ok p -> budget r = Val v ->
  exists v', from_db v = Some v' /\ p = with_budget (Val v') r.
Proof.
  unfold read_row. intros H B. rewrite B in H.
  destruct (from_db v) as [v' |]; [| discriminate].
  injection H as <-. exists v'. split; reflexivity.
Qed.

Lemma with_form_read (request : HttpRequest) (r p : Project) :
  read_row r = Ok p -> with_form request p = with_form request r.
Proof.
  intros H. destruct (read_row_fields r p H)
    as (Hi & _ & _ & _ & _ & _ & _ & _ & Hm & Hd & Hc & Hu).
  unfold with_form. rewrite Hi, Hm, Hd, Hc, Hu. reflexivity.
Qed.

Lemma read_rows_raises (l : list Project) (e : exn) :
  read_rows l = Raise e ->
  e = InvalidOperation /\ exists r, In r l /\ read_row r = Raise InvalidOperation.
Proof.
  induction l as [| r l IH]; cbn [read_rows]; [discriminate |].
  unfold rbind. destruct (read_row r) as [p |e'] eqn:R.
  - destruct (read_rows l) as [ps | e''] eqn:Rs; [discriminate |].
    intros H. injection H as <-. destruct (IH eq_refl) as (-> & x & Hx & Rx).
    split; [reflexivity |]. exists x. split; [right; exact Hx | exact Rx].
  - intros H. injection H as <-. pose proof (read_row_raises r e' R) as ->.
    split; [reflexivity |]. exists r. split; [left; reflexivity | exact R].
Qed.

Lemma read_rows_all (l ps : list Project) :
  read_rows l = Ok ps -> Forall2 (fun r p => read_row r = Ok p) l ps.
Proof.
  revert ps. induction l as [| r l IH]; cbn [read_rows]; intros ps H.
  - injection H as <-. constructor.
  - unfold rbind in H. destruct (read_row r) as [p |] eqn:R; [| discriminate].
    destruct (read_rows l) as [qs |] eqn:Rs; [| discriminate].
    injection H as <-. constructor; [exact R | apply IH; reflexivity].
Qed.

Lemma read_rows_in (l ps : list Project) (r : Project) :
  read_rows l = Ok ps -> In r l -> exists p, In p ps /\ read_row r = Ok p.
Proof.
  intros Rs. apply read_rows_all in Rs.
  induction Rs as [| x y l ps Rxy Rs IH]; intros HIn; [destruct HIn |].
  destruct HIn as [<- | HIn].
  - exists y. split; [left; reflexivity | exact Rxy].
  - destruct (IH HIn) as (p & Hp & Rp). exists p. split; [right; exact Hp | exact Rp].
Qed.

Lemma read_rows_from (l ps : list Project) (p : Project) :
  read_rows l = Ok ps -> In p ps -> exists r, In r l /\ read_row r = Ok p.
Proof.
  intros Rs. apply read_rows_all in Rs.
  induction Rs as [| x y l ps Rxy Rs IH]; intros HIn; [destruct HIn |].
  destruct HIn as [<- | HIn].
  - exists x. split; [left; reflexivity | exact Rxy].
  - destruct (IH HIn) as (r & Hr & Rr). exists r. split; [right; exact Hr | exact Rr].
Qed.

Lemma read_rows_length (l ps : list Project) :
  read_rows l = Ok ps -> length ps = length l.
Proof.
  intros Rs. apply read_rows_all in Rs.
  induction Rs as [| x y l ps Rxy Rs IH]; cbn; [reflexivity | rewrite IH; reflexivity].
Qed.

Lemma read_rows_readable (l : list Project) :
  (forall r, In r l -> exists p, read_row r = Ok p) ->
  exists ps, read_rows l = Ok ps.
Proof.
  induction l as [| r l IH]; intros H; cbn [read_rows].
  - exists []. reflexivity.
  - destruct (H r (or_introl eq_refl)) as (p & R). rewrite R.
    destruct (IH (fun x Hx => H x (or_intror Hx))) as (ps & Rs). rewrite Rs.
    exists (p :: ps). reflexivity.
Qed.

(** ** [project_create] *)

Lemma announce_created_run (u : User) (request : HttpRequest) (w : World) :
  exists w',
    announce_created u request w = (Ok (redirect "project_list"), w')
    /\ db w' = db w /\ clock w' = clock w /\ aws (cloud w') = aws (cloud w)
    /\ s3_calls (cloud w') = s3_calls (cloud w)
    /\ ses_calls (cloud w')
       = ses_calls (cloud w) ++ [(creation_email u request, next_ok SES w)]
    /\ sns_calls (cloud w')
       = sns_calls (cloud w)
           ++ (if high_priority (mvd_get "priority" (POST request))
               then [(creation_alert request, next_ok SNS w)] else [])
    /\ flash w' = flash w ++ [created_message (mvd_get "name" (POST request))].
Proof.
  unfold announce_created. cbv zeta. rewrite bind_log, bind_send_email.
  unfold bind at 1.
  destruct (high_priority _).
  - rewrite bind_send_sns. unfold ret at 1. unfold bind, messages_success, ret.
    eexists. split; [reflexivity |]. frames. repeat split.
  - unfold ret at 1. unfold bind, messages_success, ret.
    eexists. split; [reflexivity |]. frames. rewrite app_nil_r. repeat split.
Qed.

Lemma project_create_run (u : User) (request : HttpRequest) (w : World) :
  user request = Some u -> method request = "POST" -> db_wf (db w) ->
  let i := next_id (db w) in
  let t := clock w in
  match prepare (stamped i (Some t) t (submitted_project u request)) with
  | Raise e => project_create request w = (Raise e, w)
  | Ok row =>
      exists w',
        project_create request w = (Ok (redirect "project_list"), w')
        /\ db w' = {| rows := rows (db w)
                        ++ [created_row i (mvd_get "document" (FILES request))
                              (next_ok S3 w) row];
                      next_id := S i |}
        /\ clock w' = clock w
        /\ aws (cloud w') = aws (cloud w)
        /\ s3_calls (cloud w')
           = s3_calls (cloud w)
               ++ match supplied (mvd_get "document" (FILES request)) with
                  | Some f => [(upload_fileobj f (AWS_S3_BUCKET_NAME settings)
                                  (document_key i f), next_ok S3 w)]
                  | None => []
                  end
        /\ ses_calls (cloud w')
           = ses_calls (cloud w) ++ [(creation_email u request, next_ok SES w)]
        /\ sns_calls (cloud w')
           = sns_calls (cloud w)
               ++ (if high_priority (mvd_get "priority" (POST request))
                   then [(creation_alert request, next_ok SNS w)] else [])
        /\ flash w' = flash w ++ [created_message (mvd_get "name" (POST request))]
  end.
Proof.
  intros Hu Hm W i t.
  set (p0 := stamped i (Some t) t (submitted_project u request)).
  destruct (prepare p0) as [row | e] eqn:P.
  2:{ unfold project_create, login_required. rewrite Hu, Hm.
      change ("POST" =? "POST") with true. cbv iota zeta.
      unfold bind at 1. unfold objects_create, save at 1.
      cbn [id Project_init].
      fold (submitted_project u request). fold i t p0. rewrite P. reflexivity. }
  unfold project_create, login_required. rewrite Hu, Hm.
  change ("POST" =? "POST") with true. cbv iota zeta.
  unfold bind at 1. unfold objects_create, save at 1.
  cbn [id Project_init].
  fold (submitted_project u request). fold i t p0. rewrite P.
  assert (Hrow : has_id i row = true).
  { apply has_id_true. destruct (prepare_fields _ _ P) as (-> & _). reflexivity. }
  unfold bind at 1. unfold created_row.
  destruct (supplied (mvd_get "document" (FILES request))) as [f |] eqn:Sup.
  - unfold bind at 1. rewrite upload_file_run.
    change (next_ok S3 (set_db _ w)) with (next_ok S3 w).
    change (file_key_of p0 f) with (document_key i f).
    destruct (next_ok S3 w) eqn:Up.
    + unfold bind at 1. unfold save at 1.
      cbn [id with_document p0 stamped].
      rewrite put_db, put_clock. cbn [db set_db clock]. unfold get_row. cbn [rows].
      rewrite (find_app_fresh i (rows (db w)) row);
        [| apply fresh_absent; exact W | exact Hrow].
      change (prepare _) with (prepare (with_document (document_key i f) p0)).
      rewrite (prepare_with_document _ _ _ P).
      rewrite (replace_row_app_fresh i (rows (db w)) row);
        [| apply fresh_absent; exact W | exact Hrow].
      unfold log_file_upload. rewrite bind_log. unfold ret at 1.
      match goal with
      | |- exists w', announce_created u request ?w1 = _ /\ _ =>
          destruct (announce_created_run u request w1)
            as (w' & E & D & C & A & S3' & SES' & SNS' & F)
      end.
      exists w'. split; [exact E |].
      rewrite D, C, A, S3', SES', SNS', F. frames. fold i.
      unfold next_ok in Up. rewrite Up.
      unfold s3_manager. cbn [bucket_name]. repeat split.
    + unfold ret at 1.
      match goal with
      | |- exists w', announce_created u request ?w1 = _ /\ _ =>
          destruct (announce_created_run u request w1)
            as (w' & E & D & C & A & S3' & SES' & SNS' & F)
      end.
      exists w'. split; [exact E |].
      rewrite D, C, A, S3', SES', SNS', F. frames. fold i.
      unfold next_ok in Up. rewrite Up.
      unfold s3_manager. cbn [bucket_name]. repeat split.
  - unfold ret at 1.
    match goal with
    | |- exists w', announce_created u request ?w1 = _ /\ _ =>
        destruct (announce_created_run u request w1)
          as (w' & E & D & C & A & S3' & SES' & SNS' & F)
    end.
    exists w'. split; [exact E |].
    rewrite D, C, A, S3', SES', SNS', F. frames. rewrite app_nil_r. repeat split.
Qed.

(** ** [project_detail] *)

Lemma show_project_run (u : User) (p : Project) (w : World) :
  exists w',
    show_project u p w
    = (Ok (render "construction/project_detail.html"
             (project_context p (shown_url p (next_ok S3 w)))), w')
    /\ db w' = db w /\ clock w' = clock w /\ aws (cloud w') = aws (cloud w)
    /\ flash w' = flash w
    /\ s3_calls (cloud w') = s3_calls (cloud w) ++ url_calls p (next_ok S3 w)
    /\ ses_calls (cloud w') = ses_calls (cloud w)
    /\ sns_calls (cloud w') = sns_calls (cloud w)
    /\ activities w' = activities w ++ [view_activity u p].
Proof.
  unfold show_project, shown_url, url_calls. rewrite bind_log. unfold bind.
  destruct (has_document (document p)) as [key |].
  - rewrite get_file_url_run. unfold ret. eexists. split.
    + f_equal. f_equal. f_equal. frames. reflexivity.
    + frames. repeat split.
  - unfold ret. eexists. split; [reflexivity |]. frames.
    rewrite app_nil_r. repeat split.
Qed.

Lemma project_detail_update_run (u : User) (i : nat) (request : HttpRequest)
    (w : World) (old p0 : Project) :
  user request = Some u -> method request = "POST" ->
  mvd_get "action" (POST request) = Some "update" ->
  get_row i (db w) = Some old -> read_row old = Ok p0 ->
  let up := next_ok S3 w in
  let p := stamped i (created_at old) (clock w) (updated_project i request up old) in
  let calls := s3_calls (cloud w) ++ upload_calls i request up in
  let ok := aws (cloud w) S3 (length calls) in
  match prepare p with
  | Raise e =>
      exists w',
        project_detail i request w = (Raise e, w')
        /\ db w' = db w /\ flash w' = flash w
        /\ s3_calls (cloud w') = calls
        /\ activities w' = activities w ++ upload_activities u request up
  | Ok row =>
      exists w',
        project_detail i request w
        = (Ok (render "construction/project_detail.html"
                 (project_context p (shown_url p ok))), w')
        /\ db w' = {| rows := replace_row i row (rows (db w));
                      next_id := next_id (db w) |}
        /\ clock w' = clock w /\ aws (cloud w') = aws (cloud w)
        /\ flash w' = flash w ++ [updated_message (name p)]
        /\ s3_calls (cloud w') = calls ++ url_calls p ok
        /\ ses_calls (cloud w') = ses_calls (cloud w)
        /\ sns_calls (cloud w') = sns_calls (cloud w)
        /\ activities w'
           = activities w ++ upload_activities u request up
               ++ [update_activity u p; view_activity u p]
  end.
Proof.
  intros Hu Hm Ha Hold Hread up p calls ok.
  destruct (get_row_id _ _ _ Hold) as [Hid _].
  assert (first :
    exists w1,
      (match supplied (mvd_get "document" (FILES request)) with
       | Some document =>
           uploaded <- upload_file s3_manager document
                         (file_key_of (with_form request old) document) ;;
           (if uploaded
            then
              log_file_upload cloudwatch_logger (file_name document) (username u)
                (name (with_document (file_key_of (with_form request old) document)
                         (with_form request old))) ;;
              ret (with_document (file_key_of (with_form request old) document)
                     (with_form request old))
            else ret (with_form request old))
       | None => ret (with_form request old)
       end) w
      = (Ok (updated_project i request up old), w1)
      /\ db w1 = db w /\ clock w1 = clock w /\ aws (cloud w1) = aws (cloud w)
      /\ flash w1 = flash w /\ s3_calls (cloud w1) = calls
      /\ ses_calls (cloud w1) = ses_calls (cloud w)
      /\ sns_calls (cloud w1) = sns_calls (cloud w)
      /\ activities w1 = activities w ++ upload_activities u request up).
  { unfold updated_project, upload_activities, calls, upload_calls.
    destruct (supplied (mvd_get "document" (FILES request))) as [f |].
    - assert (K : file_key_of (with_form request old) f = document_key i f).
      { unfold file_key_of, document_key. cbn [id with_form]. rewrite Hid. reflexivity. }
      rewrite K. unfold bind at 1. rewrite upload_file_run. fold up.
      destruct up eqn:Up.
      + unfold log_file_upload. rewrite bind_log. unfold ret. eexists.
        split; [reflexivity |]. subst up. frames. unfold next_ok in Up. rewrite Up.
        unfold s3_manager. cbn [bucket_name]. repeat split.
      + unfold ret. eexists. split; [reflexivity |]. subst up. frames.
        unfold next_ok in Up. rewrite Up. rewrite app_nil_r.
        unfold s3_manager. cbn [bucket_name]. repeat split.
    - unfold ret. eexists. split; [reflexivity |]. rewrite !app_nil_r. repeat split. }
  destruct first as (w1 & E1 & D1 & C1 & A1 & F1 & S1 & SE1 & SN1 & AC1).
  assert (Hid' : id (updated_project i request up old) = Some i).
  { unfold updated_project.
    destruct (supplied _); [destruct up |]; cbn [id with_document with_form]; exact Hid. }
  assert (Hc : created_at (updated_project i request up old) = created_at old).
  { unfold updated_project.
    destruct (supplied _); [destruct up |]; reflexivity. }
  assert (Hsave : save (updated_project i request up old) w1
                  = match prepare p with
                    | Ok row => (Ok p, set_db {| rows := replace_row i row (rows (db w));
                                                 next_id := next_id (db w) |} w1)
                    | Raise e => (Raise e, w1)
                    end).
  { unfold save. rewrite Hid', D1, Hold, C1, Hc. reflexivity. }
  destruct (prepare p) as [row | e] eqn:P.
  - unfold project_detail, login_required. rewrite Hu.
    unfold bind at 1. unfold get_object_or_404. rewrite Hold, Hread, Hm, Ha.
    change ("POST" =? "POST") with true.
    change (is_str (Some "update") "update") with true. cbv iota zeta.
    rewrite (with_form_read request old p0 Hread).
    unfold bind at 1. rewrite E1.
    unfold bind at 1. rewrite Hsave.
    rewrite bind_log. unfold bind at 1. unfold messages_success at 1.
    match goal with
    | |- exists w', show_project u p ?w2 = _ /\ _ =>
        destruct (show_project_run u p w2)
          as (w' & E & D & C & A & F & S3' & SES' & SNS' & AC)
    end.
    exists w'. rewrite E, D, C, A, F, S3', SES', SNS', AC.
    frames. rewrite C1, A1, F1, S1, SE1, SN1, AC1. fold ok.
    rewrite <- !app_assoc. repeat split.
  - unfold project_detail, login_required. rewrite Hu.
    unfold bind at 1. unfold get_object_or_404. rewrite Hold, Hread, Hm, Ha.
    change ("POST" =? "POST") with true.
    change (is_str (Some "update") "update") with true. cbv iota zeta.
    rewrite (with_form_read request old p0 Hread).
    unfold bind at 1. rewrite E1.
    unfold bind at 1. rewrite Hsave.
    exists w1. repeat split; assumption.
Qed.

Lemma project_detail_delete_run (u : User) (i : nat) (request : HttpRequest)
    (w : World) (old p0 : Project) :
  user request = Some u -> method request = "POST" ->
  mvd_get "action" (POST request) = Some "delete" ->
  get_row i (db w) = Some old -> read_row old = Ok p0 ->
  exists w',
    project_detail i request w = (Ok (redirect "project_list"), w')
    /\ db w' = {| rows := remove_row i (rows (db w)); next_id := next_id (db w) |}
    /\ clock w' = clock w /\ aws (cloud w') = aws (cloud w)
    /\ flash w' = flash w ++ [deleted_message (name old)]
    /\ s3_calls (cloud w') = s3_calls (cloud w)
    /\ ses_calls (cloud w') = ses_calls (cloud w)
    /\ sns_calls (cloud w') = sns_calls (cloud w)
    /\ activities w' = activities w ++ [delete_activity u old].
Proof.
  intros Hu Hm Ha Hold Hread.
  destruct (get_row_id _ _ _ Hold) as [Hid _].
  destruct (read_row_fields old p0 Hread) as (Ri & Rn & _).
  unfold project_detail, login_required. rewrite Hu.
  unfold bind at 1. unfold get_object_or_404. rewrite Hold, Hread, Hm, Ha.
  change ("POST" =? "POST") with true.
  change (is_str (Some "delete") "update") with false.
  change (is_str (Some "delete") "delete") with true. cbv iota zeta.
  unfold bind at 1. unfold delete. rewrite Ri, Hid, Rn.
  rewrite bind_log. unfold bind, messages_success, ret.
  eexists. split; [reflexivity |]. frames. repeat split.
Qed.

Lemma project_detail_view_run (u : User) (i : nat) (request : HttpRequest)
    (w : World) (old p0 : Project) :
  user request = Some u -> plain_view request = true ->
  get_row i (db w) = Some old -> read_row old = Ok p0 ->
  project_detail i request w = show_project u p0 w.
Proof.
  intros Hu Hv Hold Hread.
  unfold project_detail, login_required. rewrite Hu.
  unfold bind at 1. unfold get_object_or_404. rewrite Hold, Hread.
  unfold plain_view in Hv.
  destruct (method request =? "POST"); [| reflexivity].
  cbv zeta. cbn in Hv.
  destruct (is_str (mvd_get "action" (POST request)) "update"); [discriminate |].
  destruct (is_str (mvd_get "action" (POST request)) "delete"); [discriminate |].
  reflexivity.
Qed.

Lemma project_detail_missing (u : User) (i : nat) (request : HttpRequest) (w : World) :
  user request = Some u -> get_row i (db w) = None ->
  project_detail i request w = (Raise Http404, w).
Proof.
  intros Hu Hnone. unfold project_detail, login_required. rewrite Hu.
  unfold bind, get_object_or_404. rewrite Hnone. reflexivity.
Qed.

(** A stored row that cannot be read: the view raises at its first line,
    whatever the request asks for, and nothing has happened. *)
Lemma project_detail_unreadable (u : User) (i : nat) (request : HttpRequest)
    (w : World) (old : Project) (e : exn) :
  user request = Some u -> get_row i (db w) = Some old -> read_row old = Raise e ->
  project_detail i request w = (Raise InvalidOperation, w).
Proof.
  intros Hu Hold Hread. pose proof (read_row_raises old e Hread) as ->.
  unfold project_detail, login_required. rewrite Hu.
  unfold bind, get_object_or_404. rewrite Hold, Hread. reflexivity.
Qed.

Lemma anonymous_redirected (view : User -> HttpRequest -> M HttpResponse)
    (request : HttpRequest) (w : World) :
  user request = None ->
  login_required view request w = (Ok (redirect (LOGIN_URL settings)), w).
Proof. intros Hu. unfold login_required. rewrite Hu. reflexivity. Qed.

(** ** [project_list] *)

Lemma project_list_run (u : User) (request : HttpRequest) (w : World) :
  user request = Some u ->
  exists w',
    project_list request w
    = (match read_rows (order_by_created_desc (rows (db w))) with
       | Ok projects =>
           Ok (render "construction/project_list.html" (projects_context projects))
       | Raise e => Raise e
       end, w')
    /\ db w' = db w /\ clock w' = clock w /\ aws (cloud w') = aws (cloud w)
    /\ flash w' = flash w
    /\ s3_calls (cloud w') = s3_calls (cloud w)
    /\ ses_calls (cloud w') = ses_calls (cloud w)
    /\ sns_calls (cloud w') = sns_calls (cloud w)
    /\ activities w' = activities w ++ [list_activity u (length (rows (db w)))].
Proof.
  intros Hu. unfold project_list, login_required. rewrite Hu.
  unfold bind at 1. unfold objects_count. cbv beta iota. rewrite bind_log.
  unfold bind, objects_all, ret. rewrite logged_db.
  destruct (read_rows (order_by_created_desc (rows (db w)))) as [ps | e];
    (eexists; split; [reflexivity |]); frames; repeat split.
Qed.

(** ** The default ordering *)

Lemma insert_desc_perm (p : Project) (l : list Project) :
  Permutation (insert_desc p l) (p :: l).
Proof.
  induction l as [| q l IH]; cbn [insert_desc]; [reflexivity |].
  destruct (Nat.leb (stamp q) (stamp p)); [reflexivity |].
  rewrite IH. apply perm_swap.
Qed.

Lemma order_by_created_desc_perm (l : list Project) :
  Permutation (order_by_created_desc l) l.
Proof.
  induction l as [| p l IH]; cbn [order_by_created_desc]; [reflexivity |].
  rewrite insert_desc_perm. constructor. exact IH.
Qed.

Lemma insert_desc_sorted (p : Project) (l : list Project) :
  newest_first l -> newest_first (insert_desc p l).
Proof.
  unfold newest_first. induction l as [| q l IH]; intros S; cbn [insert_desc].
  - repeat constructor.
  - destruct (Nat.leb_spec (stamp q) (stamp p)) as [Hle | Hgt].
    + constructor; [exact S |].
      apply StronglySorted_inv in S as [_ Hq].
      constructor; [exact Hle |].
      rewrite Forall_forall in *. intros x Hx. specialize (Hq x Hx). lia.
    + apply StronglySorted_inv in S as [S Hq].
      constructor; [apply IH; exact S |].
      rewrite Forall_forall in *. intros x Hx.
      apply (Permutation_in _ (insert_desc_perm p l)) in Hx.
      destruct Hx as [<- | Hx]; [lia | apply Hq; exact Hx].
Qed.

Lemma order_by_created_desc_sorted (l : list Project) :
  newest_first (order_by_created_desc l).
Proof.
  induction l as [| p l IH]; cbn [order_by_created_desc].
  - constructor.
  - apply insert_desc_sorted. exact IH.
Qed.

Lemma order_newest_last (l : list Project) (c : Project) :
  (forall x, In x l -> stamp x < stamp c) ->
  order_by_created_desc (l ++ [c]) = c :: order_by_created_desc l.
Proof.
  induction l as [| x l IH]; intros Hl; cbn [app order_by_created_desc insert_desc];
    [reflexivity |].
  rewrite IH by (intros y Hy; apply Hl; right; exact Hy).
  cbn [insert_desc]. destruct (Nat.leb_spec (stamp c) (stamp x)) as [Hle | Hgt]; [| reflexivity].
  specialize (Hl x (or_introl eq_refl)). lia.
Qed.

(** ** The table under the views *)

Lemma is_str_true (v : option string) (s : string) :
  is_str v s = true -> v = Some s.
Proof.
  destruct v as [x |]; cbn; [| discriminate].
  intros H. apply String.eqb_eq in H. congruence.
Qed.

Lemma replace_row_in (i : nat) (row : Project) (l : list Project) (r : Project) :
  In r (replace_row i row l) -> r = row \/ In r l.
Proof.
  unfold replace_row. rewrite in_map_iff. intros (q & Hq & HIn).
  destruct (has_id i q); [left; congruence | right; congruence].
Qed.

Lemma db_step_wf (d d' : DB) :
  db_step d d' -> db_wf d ->
  db_wf d' /\ next_id d <= next_id d' /\
  (forall j, j < next_id d -> get_row j d = None -> get_row j d' = None).
Proof.
  intros St W. pose proof W as W0. unfold db_wf in W.
  destruct St as [| row Hrow Hc | i row old Hold Hrow Hc | i].
  - split; [exact W0 | split; [lia | tauto]].
  - split; [| split]; cbn [next_id rows].
    + intros r Hr. cbn [next_id rows] in *.
      apply in_app_or in Hr as [Hr | [<- | []]].
      * destruct (W r Hr) as ((k & Hk & Hlt) & Hcr).
        split; [exists k; split; [exact Hk | lia] | exact Hcr].
      * split; [exists (next_id d); split; [exact Hrow | lia] | exact Hc].
    + lia.
    + intros j Hj Hnone. unfold get_row. cbn [rows]. rewrite find_other_app.
      * exact Hnone.
      * unfold has_id. rewrite Hrow. apply Nat.eqb_neq. lia.
  - destruct (get_row_id _ _ _ Hold) as [Hid HIn].
    destruct (W old HIn) as ((k & Hk & Hlt) & _).
    assert (k = i) as -> by congruence.
    split; [| split]; cbn [next_id rows].
    + intros r Hr. cbn [next_id rows] in *.
      apply replace_row_in in Hr as [-> | Hr].
      * split; [exists i; split; [exact Hrow | exact Hlt] | exact Hc].
      * exact (W r Hr).
    + lia.
    + intros j Hj Hnone. unfold get_row. cbn [rows].
      destruct (Nat.eq_dec i j) as [-> | Hij].
      * congruence.
      * rewrite find_replace_other; [exact Hnone | exact Hij |].
        apply has_id_true. exact Hrow.
  - split; [| split]; cbn [next_id rows].
    + intros r Hr. cbn [next_id rows] in *.
      apply filter_In in Hr as [Hr _]. exact (W r Hr).
    + lia.
    + intros j Hj Hnone. unfold get_row. cbn [rows].
      destruct (Nat.eq_dec i j) as [-> | Hij].
      * apply find_remove_same.
      * rewrite find_remove_other; [exact Hnone | exact Hij].
Qed.

Lemma prepare_acceptable (request : HttpRequest) (p : Project) :
  carries request p -> acceptable request ->
  created_at p <> None -> updated_at p <> None ->
  exists row, prepare p = Ok row.
Proof.
  intros (Cn & Cd & Cl & Cs & Ce & Cb & Cst & Cp)
         (An & Ad & Al & (s1 & v1 & As & Vs) & (s2 & v2 & Ae & Ve)
             & (s3 & v3 & Ab & Vb) & Ast & Ap) Hc Hu.
  unfold prepare, rbind.
  rewrite Cs, Ce, Cb, As, Ae, Ab. cbn [of_post to_python]. rewrite Vs, Ve, Vb.
  cbn [not_null_attr].
  rewrite Cn, Cd, Cl, Cst, Cp.
  destruct (mvd_get "name" (POST request)); [| congruence].
  destruct (mvd_get "description" (POST request)); [| congruence].
  destruct (mvd_get "location" (POST request)); [| congruence].
  destruct (mvd_get "status" (POST request)); [| congruence].
  destruct (mvd_get "priority" (POST request)); [| congruence].
  destruct (created_at p); [| congruence].
  destruct (updated_at p); [| congruence].
  cbn [not_null]. eexists. reflexivity.
Qed.

Lemma prepare_missing_status (p : Project) :
  status p = None -> exists e, prepare p = Raise e.
Proof.
  intros H. destruct (prepare p) as [row | e] eqn:P; [| exists e; reflexivity].
  destruct (prepare_not_null _ _ P) as (_ & _ & _ & N & _). congruence.
Qed.

Lemma created_row_id (i : nat) (document : option File) (ok : bool) (row : Project) :
  id (created_row i document ok row) = id row.
Proof. unfold created_row. destruct (supplied document); [destruct ok |]; reflexivity. Qed.

Lemma created_row_created (i : nat) (document : option File) (ok : bool)
    (row : Project) :
  created_at (created_row i document ok row) = created_at row.
Proof. unfold created_row. destruct (supplied document); [destruct ok |]; reflexivity. Qed.

Lemma updated_project_frame (i : nat) (request : HttpRequest) (ok : bool)
    (old : Project) :
  id (updated_project i request ok old) = id old
  /\ manager (updated_project i request ok old) = manager old
  /\ created_at (updated_project i request ok old) = created_at old
  /\ carries request (updated_project i request ok old).
Proof.
  unfold updated_project.
  destruct (supplied _); [destruct ok |]; repeat split.
Qed.

Lemma project_create_step (request : HttpRequest) (w : World) :
  db_wf (db w) -> db_step (db w) (db (snd (project_create request w))).
Proof.
  intros W. destruct (user request) as [u |] eqn:Hu.
  2:{ unfold project_create. rewrite anonymous_redirected by exact Hu. constructor. }
  destruct (method request =? "POST") eqn:Hm.
  - apply String.eqb_eq in Hm.
    pose proof (project_create_run u request w Hu Hm W) as R. cbv zeta in R.
    destruct (prepare _) as [row | e] eqn:P.
    + destruct R as (w' & E & D & _). rewrite E. cbn [snd]. rewrite D.
      destruct (prepare_fields _ _ P) as (Fi & _ & _ & Fc & _).
      apply step_insert.
      * rewrite created_row_id, Fi. reflexivity.
      * rewrite created_row_created, Fc. discriminate.
    + rewrite R. constructor.
  - unfold project_create, login_required. rewrite Hu, Hm. constructor.
Qed.

Lemma project_list_step (request : HttpRequest) (w : World) :
  db_step (db w) (db (snd (project_list request w))).
Proof.
  destruct (user request) as [u |] eqn:Hu.
  - destruct (project_list_run u request w Hu) as (w' & E & D & _).
    rewrite E. cbn [snd]. rewrite D. constructor.
  - unfold project_list. rewrite anonymous_redirected by exact Hu. constructor.
Qed.

Lemma project_detail_step (i : nat) (request : HttpRequest) (w : World) :
  db_wf (db w) -> db_step (db w) (db (snd (project_detail i request w))).
Proof.
  intros W. destruct (user request) as [u |] eqn:Hu.
  2:{ unfold project_detail. rewrite anonymous_redirected by exact Hu. constructor. }
  destruct (get_row i (db w)) as [old |] eqn:Hold.
  2:{ rewrite project_detail_missing with (u := u) by assumption. constructor. }
  destruct (read_row old) as [p0 | e] eqn:Hread.
  2:{ rewrite (project_detail_unreadable u i request w old e Hu Hold Hread).
      constructor. }
  destruct (plain_view request) eqn:Hv.
  { rewrite project_detail_view_run with (u := u) (old := old) (p0 := p0)
      by assumption.
    destruct (show_project_run u p0 w) as (w' & E & D & _).
    rewrite E. cbn [snd]. rewrite D. constructor. }
  unfold plain_view in Hv. apply orb_false_iff in Hv as [Hm Ha].
  apply negb_false_iff in Hm. apply String.eqb_eq in Hm.
  destruct (is_str (mvd_get "action" (POST request)) "update") eqn:Hup.
  - apply is_str_true in Hup.
    pose proof (project_detail_update_run u i request w old p0 Hu Hm Hup Hold Hread)
      as R.
    cbv zeta in R. destruct (prepare _) as [row | e] eqn:P.
    + destruct R as (w' & E & D & _). rewrite E. cbn [snd]. rewrite D.
      destruct (prepare_fields _ _ P) as (Fi & _ & _ & Fc & _).
      apply step_replace with (old := old); [exact Hold | rewrite Fi; reflexivity |].
      rewrite Fc. cbn [created_at stamped].
      destruct (get_row_id _ _ _ Hold) as [_ HIn]. apply (W old HIn).
    + destruct R as (w' & E & D & _). rewrite E. cbn [snd]. rewrite D. constructor.
  - destruct (is_str (mvd_get "action" (POST request)) "delete") eqn:Hdel;
      [| discriminate].
    apply is_str_true in Hdel.
    destruct (project_detail_delete_run u i request w old p0 Hu Hm Hdel Hold Hread)
      as (w' & E & D & _).
    rewrite E. cbn [snd]. rewrite D. apply step_remove.
Qed.

Lemma serve_world (view : HttpRequest -> M HttpResponse) (request : HttpRequest)
    (w : World) :
  snd (serve view request w) = snd (view request w).
Proof.
  unfold serve. destruct (view request w) as [[r | e] w']; [reflexivity |].
  destruct e; reflexivity.
Qed.

Lemma handle_step (t : nat) (r : Route) (request : HttpRequest) (w : World) :
  db_wf (db w) -> db_step (db w) (db (snd (handle t r request w))).
Proof.
  intros W. unfold handle. rewrite serve_world.
  change (db w) with (db (set_clock t w)) at 1.
  destruct r; cbn [resolve].
  - apply project_list_step.
  - apply project_create_step. exact W.
  - apply project_detail_step. exact W.
Qed.

Lemma handle_all_wf (l : list (nat * Route * HttpRequest)) (w : World) :
  db_wf (db w) -> db_wf (db (handle_all l w)).
Proof.
  revert w. induction l as [| [[t r] request] l IH]; intros w W; [exact W |].
  cbn [handle_all]. apply IH.
  exact (proj1 (db_step_wf _ _ (handle_step t r request w W) W)).
Qed.

Lemma empty_wf (d : DB) : rows d = [] -> db_wf d.
Proof. intros E r HIn. rewrite E in HIn. destruct HIn. Qed.

(** A key that was given out and has no row never has a row again. *)
Lemma handle_all_gone (i : nat) (l : list (nat * Route * HttpRequest)) (w : World) :
  db_wf (db w) -> i < next_id (db w) -> get_row i (db w) = None ->
  db_wf (db (handle_all l w)) /\ i < next_id (db (handle_all l w))
  /\ get_row i (db (handle_all l w)) = None.
Proof.
  revert w. induction l as [| [[t r] request] l IH]; intros w W Hi Hnone.
  - cbn. auto.
  - cbn [handle_all].
    destruct (db_step_wf _ _ (handle_step t r request w W) W) as (W' & Hle & Hkeep).
    apply IH; [exact W' | lia | apply Hkeep; assumption].
Qed.

(** ** Who asks does not matter *)

Lemma agree_ret {A} (a : A) : agree (ret a) (ret a).
Proof. intros w1 w2 H. split; [reflexivity | exact H]. Qed.

Lemma agree_bind {A B} (m1 m2 : M A) (k1 k2 : A -> M B) :
  agree m1 m2 -> (forall a, agree (k1 a) (k2 a)) -> agree (bind m1 k1) (bind m2 k2).
Proof.
  intros Hm Hk w1 w2 H. unfold bind.
  destruct (Hm w1 w2 H) as [Hr Hw].
  destruct (m1 w1) as [[a1 | e1] w1'], (m2 w2) as [[a2 | e2] w2']; cbn [fst snd] in *;
    try discriminate.
  - injection Hr as <-. apply Hk. exact Hw.
  - injection Hr as <-. split; [reflexivity | exact Hw].
Qed.

Lemma agree_log {B} (self1 self2 : CloudWatchLogger) (a1 a2 : string)
    (p1 p2 : option string) (u1 u2 : string) (d1 d2 : list (string * pyval))
    (k1 k2 : M B) :
  agree k1 k2 ->
  agree (bind (log_project_activity self1 a1 p1 u1 d1) (fun _ => k1))
        (bind (log_project_activity self2 a2 p2 u2 d2) (fun _ => k2)).
Proof.
  intros Hk w1 w2 (D & C & F & A & S). rewrite !bind_log. apply Hk.
  unfold alike. frames. repeat split; assumption.
Qed.

Lemma agree_upload (s3 : S3FileManager) (f : File) (key : string) :
  agree (upload_file s3 f key) (upload_file s3 f key).
Proof.
  intros w1 w2 (D & C & F & A & S). rewrite !upload_file_run. cbn [fst snd].
  unfold alike. frames. rewrite A, S. repeat split; assumption.
Qed.

Lemma agree_url (s3 : S3FileManager) (key : string) (ttl : nat) :
  agree (get_file_url s3 key ttl) (get_file_url s3 key ttl).
Proof.
  intros w1 w2 (D & C & F & A & S). rewrite !get_file_url_run. cbn [fst snd].
  unfold alike. frames. rewrite A, S. repeat split; assumption.
Qed.

Lemma agree_save (p : Project) : agree (save p) (save p).
Proof.
  intros w1 w2 (D & C & F & A & S). unfold save. rewrite D, C.
  destruct (id p) as [i |]; [destruct (get_row i (db w2)) |];
    destruct (prepare _); cbn [fst snd];
    (split; [reflexivity | repeat split; assumption]).
Qed.

Lemma agree_delete (p : Project) : agree (delete p) (delete p).
Proof.
  intros w1 w2 (D & C & F & A & S). unfold delete. rewrite D.
  destruct (id p); cbn [fst snd]; (split; [reflexivity | repeat split; assumption]).
Qed.

Lemma agree_get (i : nat) : agree (get_object_or_404 i) (get_object_or_404 i).
Proof.
  intros w1 w2 (D & C & F & A & S). unfold get_object_or_404. rewrite D.
  destruct (get_row i (db w2)); cbn [fst snd];
    (split; [reflexivity | repeat split; assumption]).
Qed.

Lemma agree_message (text : string) :
  agree (messages_success text) (messages_success text).
Proof.
  intros w1 w2 (D & C & F & A & S). unfold messages_success. cbn.
  split; [reflexivity | repeat split; try assumption]. rewrite F. reflexivity.
Qed.

Lemma agree_show (u1 u2 : User) (p : Project) :
  agree (show_project u1 p) (show_project u2 p).
Proof.
  unfold show_project. apply agree_log. apply agree_bind.
  - destruct (has_document (document p)); [apply agree_url | apply agree_ret].
  - intros url. apply agree_ret.
Qed.

Lemma agree_detail (i : nat) (u1 u2 : User) (request : HttpRequest) :
  agree (project_detail i (as_user (Some u1) request))
        (project_detail i (as_user (Some u2) request)).
Proof.
  unfold project_detail, login_required. cbn [user method POST FILES as_user].
  apply agree_bind; [apply agree_get |]. intros project.
  destruct (method request =? "POST"); [| apply agree_show].
  cbv zeta.
  destruct (is_str (mvd_get "action" (POST request)) "update").
  - apply agree_bind.
    + destruct (supplied (mvd_get "document" (FILES request))) as [f |];
        [| apply agree_ret].
      apply agree_bind; [apply agree_upload |].
      intros [|]; [| apply agree_ret].
      unfold log_file_upload. apply agree_log. apply agree_ret.
    + intros p. apply agree_bind; [apply agree_save |]. intros saved.
      apply agree_log. apply agree_bind; [apply agree_message |].
      intros _. apply agree_show.
  - destruct (is_str (mvd_get "action" (POST request)) "delete");
      [| apply agree_show].
    apply agree_bind; [apply agree_delete |]. intros _.
    apply agree_log. apply agree_bind; [apply agree_message |].
    intros _. apply agree_ret.
Qed.

Lemma agree_count : agree objects_count objects_count.
Proof.
  intros w1 w2 H. pose proof H as (D & _). unfold objects_count. rewrite D.
  split; [reflexivity | exact H].
Qed.

Lemma agree_all : agree objects_all objects_all.
Proof.
  intros w1 w2 H. pose proof H as (D & _). unfold objects_all. rewrite D.
  split; [reflexivity | exact H].
Qed.

Lemma agree_list (u1 u2 : User) (request : HttpRequest) :
  agree (project_list (as_user (Some u1) request))
        (project_list (as_user (Some u2) request)).
Proof.
  unfold project_list, login_required. cbn [user as_user].
  apply agree_bind; [apply agree_count |]. intros total.
  apply agree_log. apply agree_bind; [apply agree_all |].
  intros projects. apply agree_ret.
Qed.

(** * The claims *)

(** C8.  [log_project_activity] returns for every activity type, project name,
    user and details, in every state: it never raises, and so do the two
    checks it starts with.  It leaves the table alone.  It returns [True] only
    after a [put_log_events] that went through, and [False] only when the last
    call through the logs client raised or the details could not be
    serialised. *)
Theorem audit_record_never_raises (self : CloudWatchLogger) (activity_type : string)
    (project_name : option string) (user : string) (details : list (string * pyval))
    (w : World) :
  (exists g wg, ensure_log_group_exists self w = (Ok g, wg))
  /\ (exists s ws, ensure_log_stream_exists self w = (Ok s, ws))
  /\ exists b w',
       log_project_activity self activity_type project_name user details w = (Ok b, w')
       /\ db w' = db w
       /\ (b = true ->
           exists before ms,
             logs_calls (cloud w')
             = before ++ [(put_log_events (log_group_name self) (log_stream_name self) ms
                             {| timestamp := clock w; activity_type := activity_type;
                                project_name := project_name; actor := user;
                                details := details |}, true)])
       /\ (b = false ->
           last_call_failed w'
           \/ forallb (fun kv => serialisable (snd kv)) details = false).
Proof.
  split; [| split].
  - destruct (ensure_log_group_exists_total self w) as (g & wg & E & _).
    exists g, wg. exact E.
  - destruct (ensure_log_stream_exists_total self w) as (st & ws & E & _).
    exists st, ws. exact E.
  - destruct (log_project_activity_total self activity_type project_name user details w)
      as (b & w' & E & F & T & N).
    exists b, w'. split; [exact E |]. split; [| split; assumption].
    destruct F as (D & _). exact D.
Qed.

Lemma created_row_carries (i : nat) (request request' : HttpRequest) (ok : bool)
    (row : Project) :
  holds_form request row ->
  holds_form request (created_row i (mvd_get "document" (FILES request')) ok row).
Proof.
  unfold created_row. destruct (supplied _); [destruct ok |]; intros H; exact H.
Qed.

(** What a successful creation leaves in the table. *)
Lemma project_create_row (u : User) (request : HttpRequest) (w w' : World)
    (response : HttpResponse) :
  user request = Some u -> method request = "POST" -> db_wf (db w) ->
  project_create request w = (Ok response, w') ->
  exists row,
    rows (db w') = rows (db w) ++ [row]
    /\ next_id (db w') = S (next_id (db w))
    /\ get_row (next_id (db w)) (db w') = Some row
    /\ holds_form request row
    /\ id row = Some (next_id (db w))
    /\ manager row = user_id u
    /\ created_at row = Some (clock w)
    /\ document row
       = match supplied (mvd_get "document" (FILES request)) with
         | Some f => if next_ok S3 w
                     then Some (document_key (next_id (db w)) f) else None
         | None => None
         end.
Proof.
  intros Hu Hm W Run.
  pose proof (project_create_run u request w Hu Hm W) as R. cbv zeta in R.
  destruct (prepare _) as [row | e] eqn:P; [| congruence].
  destruct R as (w1 & E & D & _).
  assert (w1 = w') as -> by congruence.
  destruct (prepare_fields _ _ P) as (Fi & Fm & Fd & Fc & _).
  cbn [id manager document created_at stamped submitted_project Project_init]
    in Fi, Fm, Fd, Fc.
  exists (created_row (next_id (db w)) (mvd_get "document" (FILES request))
            (next_ok S3 w) row).
  rewrite D. cbn [rows next_id].
  split; [reflexivity |]. split; [reflexivity |].
  split; [| split; [| split; [| split; [| split]]]].
  - unfold get_row. cbn [rows]. apply find_app_fresh.
    + apply fresh_absent. exact W.
    + apply has_id_true. rewrite created_row_id. exact Fi.
  - apply created_row_carries. eapply prepare_holds_form; [| exact P].
    repeat split.
  - rewrite created_row_id. exact Fi.
  - unfold created_row. destruct (supplied _); [destruct (next_ok S3 w) |]; exact Fm.
  - rewrite created_row_created. exact Fc.
  - unfold created_row.
    destruct (supplied _); [destruct (next_ok S3 w) |]; cbn [document with_document];
      try exact Fd; reflexivity.
Qed.

(** C1, as amended.  A create submission that carries all eight fields, with
    dates and a budget their columns convert, is persisted: the row under the
    new key holds the submitted values and the requesting user as manager.
    Retrieving it gives these values back except for the budget, which comes
    back as the column reads it, and raises [decimal.InvalidOperation] when
    the stored budget does not fit the column.  Any other submission is
    refused by the persistence layer and stores nothing; a submission without
    a status is one of them, because [project_create] hands the submitted
    status to the constructor also when the form has none and the default of
    the model is not applied. *)
Theorem created_project_holds_submitted_values (u : User) (request : HttpRequest)
    (w : World) :
  user request = Some u -> method request = "POST" -> db_wf (db w) ->
  (acceptable request ->
   exists w' row v,
     project_create request w = (Ok (redirect "project_list"), w')
     /\ get_row (next_id (db w)) (db w') = Some row
     /\ holds_form request row
     /\ manager row = user_id u
     /\ budget row = Val v
     /\ get_object_or_404 (next_id (db w)) w'
        = (match from_db v with
           | Some v' => Ok (with_budget (Val v') row)
           | None => Raise InvalidOperation
           end, w'))
  /\ (~ acceptable request ->
      exists e, persistence_error e /\ project_create request w = (Raise e, w))
  /\ (mvd_get "status" (POST request) = None ->
      exists e, persistence_error e /\ project_create request w = (Raise e, w)).
Proof.
  intros Hu Hm W.
  pose proof (project_create_run u request w Hu Hm W) as R. cbv zeta in R.
  assert (Refused : ~ acceptable request ->
            exists e, persistence_error e /\ project_create request w = (Raise e, w)).
  { intros N.
    destruct (prepare_refuses request
                (stamped (next_id (db w)) (Some (clock w)) (clock w)
                   (submitted_project u request)))
      as (e & P & Pe); [repeat split | exact N |].
    rewrite P in R. exists e. split; [exact Pe | exact R]. }
  split; [| split; [exact Refused |]].
  - intros A.
    destruct (prepare_acceptable request
                (stamped (next_id (db w)) (Some (clock w)) (clock w)
                   (submitted_project u request)))
      as (row & P); [repeat split | exact A | discriminate | discriminate |].
    rewrite P in R. destruct R as (w' & E & _).
    destruct (project_create_row u request w w' _ Hu Hm W E)
      as (r & _ & _ & G & H & _ & M & _).
    assert (B : exists v, budget r = Val v).
    { destruct H as (_ & _ & _ & _ & _ & Hb & _). unfold converted in Hb.
      destruct (mvd_get "budget" (POST request)) as [x |]; [| contradiction].
      destruct (to_decimal x) as [v |]; [| contradiction]. exists v. exact Hb. }
    destruct B as (v & B).
    exists w', r, v. split; [exact E |]. split; [exact G |]. split; [exact H |].
    split; [exact M |]. split; [exact B |].
    unfold get_object_or_404. rewrite G. unfold read_row. rewrite B.
    destruct (from_db v); reflexivity.
  - intros Hs. apply Refused. intros (_ & _ & _ & _ & _ & _ & St & _).
    contradiction.
Qed.

(** C2.  A creation that succeeds makes exactly one call to send the e-mail,
    and one call to publish the alert when the submitted priority is High or
    Critical, none otherwise. *)
Theorem creation_notifies (u : User) (request : HttpRequest) (w w' : World)
    (response : HttpResponse) :
  user request = Some u -> method request = "POST" -> db_wf (db w) ->
  project_create request w = (Ok response, w') ->
  (exists sent_ok,
     ses_calls (cloud w') = ses_calls (cloud w) ++ [(creation_email u request, sent_ok)])
  /\ (mvd_get "priority" (POST request) = Some "High"
      \/ mvd_get "priority" (POST request) = Some "Critical" ->
      exists published_ok,
        sns_calls (cloud w')
        = sns_calls (cloud w) ++ [(creation_alert request, published_ok)])
  /\ (~ (mvd_get "priority" (POST request) = Some "High"
         \/ mvd_get "priority" (POST request) = Some "Critical") ->
      sns_calls (cloud w') = sns_calls (cloud w)).
Proof.
  intros Hu Hm W Run.
  pose proof (project_create_run u request w Hu Hm W) as R. cbv zeta in R.
  destruct (prepare _) as [row | e]; [| congruence].
  destruct R as (w1 & E & _ & _ & _ & _ & SES' & SNS' & _).
  assert (w1 = w') as -> by congruence.
  split; [| split].
  - eexists. exact SES'.
  - intros Hp. rewrite SNS'.
    assert (high_priority (mvd_get "priority" (POST request)) = true) as ->.
    { unfold high_priority. destruct Hp as [-> | ->]; reflexivity. }
    eexists. reflexivity.
  - intros Hp. rewrite SNS'.
    destruct (high_priority (mvd_get "priority" (POST request))) eqn:Hh.
    + exfalso. apply Hp. unfold high_priority in Hh.
      apply orb_true_iff in Hh as [Hh | Hh]; apply is_str_true in Hh; auto.
    + apply app_nil_r.
Qed.

(** C3.  When the creation was given a file and the upload failed, that is, the
    one call made through the S3 client during the request is an upload that
    raised, the view still answers with the redirect, the project is in the
    table with the submitted values, and its document is unset. *)
Theorem failed_upload_keeps_project (u : User) (request : HttpRequest) (w w' : World)
    (outcome : result HttpResponse) (f : File) (bucket key : string) :
  user request = Some u -> method request = "POST" -> db_wf (db w) ->
  mvd_get "document" (FILES request) = Some f ->
  project_create request w = (outcome, w') ->
  s3_calls (cloud w') = s3_calls (cloud w) ++ [(upload_fileobj f bucket key, false)] ->
  outcome = Ok (redirect "project_list")
  /\ exists row,
       rows (db w') = rows (db w) ++ [row]
       /\ get_row (next_id (db w)) (db w') = Some row
       /\ holds_form request row
       /\ manager row = user_id u
       /\ document row = None.
Proof.
  intros Hu Hm W Hf Run Hcalls.
  pose proof (project_create_run u request w Hu Hm W) as R. cbv zeta in R.
  destruct (prepare _) as [prepared | e] eqn:P.
  - destruct R as (w1 & E & _ & _ & _ & S3' & _).
    assert (outcome = Ok (redirect "project_list") /\ w1 = w') as [-> ->]
      by (split; congruence).
    split; [reflexivity |].
    destruct (project_create_row u request w w' _ Hu Hm W E)
      as (row & Hrows & _ & G & H & _ & M & _ & Hdoc).
    exists row.
    split; [exact Hrows | split; [exact G | split; [exact H | split; [exact M |]]]].
    rewrite Hdoc. rewrite S3' in Hcalls. apply app_inv_head in Hcalls.
    destruct (supplied _) as [f' |]; [| reflexivity].
    assert (Hup : next_ok S3 w = false) by (injection Hcalls; intros; assumption).
    rewrite Hup. reflexivity.
  - rewrite R in Run. injection Run as _ <-.
    rewrite <- (app_nil_r (s3_calls (cloud w))) in Hcalls at 1.
    apply app_inv_head in Hcalls. discriminate.
Qed.

Lemma new_s3_calls_app (w w' : World) (l : list (S3Call * bool)) :
  s3_calls (cloud w') = s3_calls (cloud w) ++ l -> new_s3_calls w w' = l.
Proof.
  intros E. unfold new_s3_calls. rewrite E, skipn_app, skipn_all, Nat.sub_diag.
  reflexivity.
Qed.

Lemma update_activity_record (u : User) (request : HttpRequest) (p : Project) :
  carries request p -> update_activity u p = update_record u request.
Proof.
  intros (Cn & _ & _ & _ & _ & Cb & Cst & _).
  unfold update_activity, update_record. rewrite Cn, Cb, Cst.
  destruct (mvd_get "budget" (POST request)); reflexivity.
Qed.

Lemma stamped_carries (i : nat) (c : option nat) (t : nat) (request : HttpRequest)
    (p : Project) :
  carries request p -> carries request (stamped i c t p).
Proof. intros C. exact C. Qed.

Lemma updated_project_document (i : nat) (request : HttpRequest) (ok : bool)
    (old : Project) :
  document (updated_project i request ok old)
  = match supplied (mvd_get "document" (FILES request)) with
    | Some f => if ok then Some (document_key i f) else document old
    | None => document old
    end.
Proof.
  unfold updated_project. destruct (supplied _); [destruct ok |]; reflexivity.
Qed.

(** C4, as amended.  An update submission on a stored project that can be
    read.  When it carries all eight fields, with dates and a budget their
    columns convert, it overwrites every one of them on the stored project; a
    supplied file replaces the document key when its upload goes through, and
    the previous key stays when it does not; the update record, with the
    submitted values, is left with the audit sink after the save, followed
    only by the record of the view.  When it lacks a field, or carries text
    its column does not convert, it is refused: nothing is patched, the table
    is as it was and no update record is written.  On a stored project that
    cannot be read, the view raises before it looks at the form. *)
Theorem update_overwrites_every_field (u : User) (i : nat) (request : HttpRequest)
    (w : World) (old : Project) :
  user request = Some u -> method request = "POST" ->
  mvd_get "action" (POST request) = Some "update" ->
  db_wf (db w) -> get_row i (db w) = Some old ->
  (forall p0, read_row old = Ok p0 -> acceptable request ->
   exists response w' row before,
     project_detail i request w = (Ok response, w')
     /\ get_row i (db w') = Some row
     /\ holds_form request row
     /\ document row
        = match supplied (mvd_get "document" (FILES request)) with
          | Some f => if next_ok S3 w then Some (document_key i f) else document old
          | None => document old
          end
     /\ activities w'
        = activities w ++ before ++ [update_record u request; view_activity u row])
  /\ (forall p0, read_row old = Ok p0 -> ~ acceptable request ->
      exists e w',
        persistence_error e
        /\ project_detail i request w = (Raise e, w')
        /\ db w' = db w
        /\ activities w' = activities w ++ upload_activities u request (next_ok S3 w))
  /\ (forall e, read_row old = Raise e ->
      project_detail i request w = (Raise InvalidOperation, w)).
Proof.
  intros Hu Hm Ha W Hold.
  destruct (updated_project_frame i request (next_ok S3 w) old) as (Ui & Um & Uc & Ucar).
  destruct (get_row_id _ _ _ Hold) as [Hid HIn].
  split; [| split].
  - intros p0 Hread A.
    pose proof (project_detail_update_run u i request w old p0 Hu Hm Ha Hold Hread) as R.
    cbv zeta in R.
    set (p := stamped i (created_at old) (clock w)
                (updated_project i request (next_ok S3 w) old)) in *.
    destruct (prepare_acceptable request p) as (row & P).
    { apply stamped_carries. exact Ucar. }
    { exact A. }
    { cbn [p created_at stamped]. apply (W old HIn). }
    { discriminate. }
    rewrite P in R. destruct R as (w' & E & D & _ & _ & _ & _ & _ & _ & AC).
    destruct (prepare_fields _ _ P) as (Fi & _ & Fd & _ & _ & Fn & _ & _ & Fst & _).
    eexists _, w', row, _. split; [exact E |].
    split; [| split; [| split]].
    + rewrite D. unfold get_row. cbn [rows].
      apply find_replace_same with (old := old); [| exact Hold].
      apply has_id_true. rewrite Fi. reflexivity.
    + eapply prepare_holds_form; [| exact P]. apply stamped_carries. exact Ucar.
    + rewrite Fd. cbn [p document stamped]. apply updated_project_document.
    + rewrite AC. f_equal. f_equal.
      rewrite (update_activity_record u request p) by (apply stamped_carries; exact Ucar).
      f_equal. f_equal. unfold view_activity. rewrite Fn, Fst, Fi. reflexivity.
  - intros p0 Hread N.
    pose proof (project_detail_update_run u i request w old p0 Hu Hm Ha Hold Hread) as R.
    cbv zeta in R.
    set (p := stamped i (created_at old) (clock w)
                (updated_project i request (next_ok S3 w) old)) in *.
    destruct (prepare_refuses request p) as (e & P & Pe).
    { apply stamped_carries. exact Ucar. }
    { exact N. }
    rewrite P in R. destruct R as (w' & E & D & _ & _ & AC).
    exists e, w'. split; [exact Pe |]. split; [exact E |]. split; [exact D | exact AC].
  - intros e Hread. exact (project_detail_unreadable u i request w old e Hu Hold Hread).
Qed.

(** C10, as amended.  An update leaves the key, the manager and the creation
    time of the project as they were, and leaves every other project and the
    key sequence alone; besides the eight fields of the form and possibly the
    document key, it sets the time of the last update. *)
Theorem update_keeps_manager_and_creation (u : User) (i : nat) (request : HttpRequest)
    (w : World) (old : Project) :
  user request = Some u -> method request = "POST" ->
  mvd_get "action" (POST request) = Some "update" ->
  get_row i (db w) = Some old ->
  let w' := snd (project_detail i request w) in
  (exists row,
     get_row i (db w') = Some row
     /\ id row = id old /\ manager row = manager old
     /\ created_at row = created_at old
     /\ (row = old \/ updated_at row = Some (clock w)))
  /\ (forall j, j <> i -> get_row j (db w') = get_row j (db w))
  /\ next_id (db w') = next_id (db w).
Proof.
  intros Hu Hm Ha Hold w'.
  destruct (read_row old) as [p0 | e0] eqn:Hread.
  2:{ assert (Hw : w' = w).
      { unfold w'.
        rewrite (project_detail_unreadable u i request w old e0 Hu Hold Hread).
        reflexivity. }
      rewrite Hw. split; [| split; reflexivity].
      exists old. split; [exact Hold |]. repeat split. left. reflexivity. }
  pose proof (project_detail_update_run u i request w old p0 Hu Hm Ha Hold Hread) as R.
  cbv zeta in R.
  destruct (updated_project_frame i request (next_ok S3 w) old) as (Ui & Um & Uc & _).
  destruct (get_row_id _ _ _ Hold) as [Hid _].
  destruct (prepare _) as [row | e] eqn:P.
  - destruct R as (w1 & E & D & _).
    assert (Hw : w' = w1) by (unfold w'; rewrite E; reflexivity).
    destruct (prepare_fields _ _ P) as (Fi & Fm & _ & Fc & Fu & _).
    cbn [id manager created_at updated_at stamped] in Fi, Fm, Fc, Fu.
    rewrite Hw, D. cbn [next_id]. split; [| split; [| reflexivity]].
    + exists row. split.
      * unfold get_row. cbn [rows].
        apply find_replace_same with (old := old); [| exact Hold].
        apply has_id_true. exact Fi.
      * split; [congruence | split; [congruence | split; [exact Fc | right; exact Fu]]].
    + intros j Hj. unfold get_row. cbn [rows]. apply find_replace_other.
      * congruence.
      * apply has_id_true. exact Fi.
  - destruct R as (w1 & E & D & _).
    assert (Hw : w' = w1) by (unfold w'; rewrite E; reflexivity).
    rewrite Hw, D. split; [| split; reflexivity].
    exists old. split; [exact Hold |]. repeat split. left. reflexivity.
Qed.

Lemma new_s3_calls_none (w : World) : new_s3_calls w w = [].
Proof. apply new_s3_calls_app. symmetry. apply app_nil_r. Qed.

Lemma url_calls_no_upload (p : Project) (ok ok' : bool) (f : File)
    (bucket key : string) :
  ~ In (upload_fileobj f bucket key, ok') (url_calls p ok).
Proof.
  unfold url_calls. destruct (has_document _); cbn; [| tauto].
  intros [H | []]. discriminate.
Qed.

Lemma create_uploads (request : HttpRequest) (w w' : World)
    (outcome : result HttpResponse) (f : File) (bucket key : string) (ok : bool) :
  db_wf (db w) -> project_create request w = (outcome, w') ->
  In (upload_fileobj f bucket key, ok) (new_s3_calls w w') ->
  key = document_key (next_id (db w)) f
  /\ (ok = true ->
      exists row, get_row (next_id (db w)) (db w') = Some row
                  /\ document row = Some key).
Proof.
  intros W Run HIn. destruct (user request) as [u |] eqn:Hu.
  2:{ unfold project_create in Run. rewrite anonymous_redirected in Run by exact Hu.
      injection Run as _ <-. rewrite new_s3_calls_none in HIn. destruct HIn. }
  destruct (method request =? "POST") eqn:Hm.
  2:{ unfold project_create, login_required in Run. rewrite Hu, Hm in Run.
      injection Run as _ <-. rewrite new_s3_calls_none in HIn. destruct HIn. }
  apply String.eqb_eq in Hm.
  pose proof (project_create_run u request w Hu Hm W) as R. cbv zeta in R.
  destruct (prepare _) as [prepared | e] eqn:P.
  2:{ rewrite R in Run. injection Run as _ <-.
      rewrite new_s3_calls_none in HIn. destruct HIn. }
  destruct R as (w1 & E & _ & _ & _ & S3' & _).
  assert (outcome = Ok (redirect "project_list") /\ w1 = w') as [-> ->]
    by (split; congruence).
  destruct (project_create_row u request w w' _ Hu Hm W E)
    as (row & _ & _ & G & _ & _ & _ & _ & Hdoc).
  rewrite (new_s3_calls_app _ _ _ S3') in HIn.
  destruct (supplied _) as [f' |]; [| destruct HIn].
  destruct HIn as [HIn | []]. injection HIn as -> _ <- Hok.
  split; [reflexivity |].
  intros ->. exists row. split; [exact G |]. rewrite Hdoc, Hok. reflexivity.
Qed.

Lemma detail_uploads (i : nat) (request : HttpRequest) (w w' : World)
    (outcome : result HttpResponse) (f : File) (bucket key : string) (ok : bool) :
  project_detail i request w = (outcome, w') ->
  In (upload_fileobj f bucket key, ok) (new_s3_calls w w') ->
  key = document_key i f
  /\ (ok = true -> forall response, outcome = Ok response ->
      exists row, get_row i (db w') = Some row /\ document row = Some key).
Proof.
  intros Run HIn. destruct (user request) as [u |] eqn:Hu.
  2:{ unfold project_detail in Run. rewrite anonymous_redirected in Run by exact Hu.
      injection Run as _ <-. rewrite new_s3_calls_none in HIn. destruct HIn. }
  destruct (get_row i (db w)) as [old |] eqn:Hold.
  2:{ rewrite project_detail_missing with (u := u) in Run by assumption.
      injection Run as _ <-. rewrite new_s3_calls_none in HIn. destruct HIn. }
  destruct (read_row old) as [p0 | e0] eqn:Hread.
  2:{ rewrite (project_detail_unreadable u i request w old e0 Hu Hold Hread) in Run.
      injection Run as _ <-. rewrite new_s3_calls_none in HIn. destruct HIn. }
  destruct (plain_view request) eqn:Hv.
  { rewrite project_detail_view_run with (u := u) (old := old) (p0 := p0) in Run
      by assumption.
    destruct (show_project_run u p0 w) as (w1 & E & _ & _ & _ & _ & S3' & _).
    assert (w1 = w') as -> by congruence.
    rewrite (new_s3_calls_app _ _ _ S3') in HIn.
    apply url_calls_no_upload in HIn. destruct HIn. }
  unfold plain_view in Hv. apply orb_false_iff in Hv as [Hm Ha].
  apply negb_false_iff in Hm. apply String.eqb_eq in Hm.
  destruct (is_str (mvd_get "action" (POST request)) "update") eqn:Hup.
  - apply is_str_true in Hup.
    pose proof (project_detail_update_run u i request w old p0 Hu Hm Hup Hold Hread)
      as R.
    cbv zeta in R.
    destruct (prepare _) as [row | e] eqn:P.
    + destruct R as (w1 & E & D & _ & _ & _ & S3' & _).
      assert (w1 = w') as -> by congruence.
      rewrite <- app_assoc in S3'.
      rewrite (new_s3_calls_app _ _ _ S3') in HIn.
      apply in_app_or in HIn as [HIn | HIn];
        [| apply url_calls_no_upload in HIn; destruct HIn].
      unfold upload_calls in HIn.
      destruct (supplied _) as [f' |] eqn:Sup; [| destruct HIn].
      destruct HIn as [HIn | []]. injection HIn as -> _ <- Hok.
      split; [reflexivity |]. intros -> response _.
      exists row. split.
      * rewrite D. unfold get_row. cbn [rows].
        apply find_replace_same with (old := old); [| exact Hold].
        apply has_id_true. destruct (prepare_fields _ _ P) as (-> & _). reflexivity.
      * destruct (prepare_fields _ _ P) as (_ & _ & -> & _).
        cbn [document stamped]. rewrite updated_project_document, Sup, Hok.
        reflexivity.
    + destruct R as (w1 & E & _ & _ & S3' & _).
      assert (outcome = Raise e /\ w1 = w') as [-> ->] by (split; congruence).
      rewrite (new_s3_calls_app _ _ _ S3') in HIn.
      unfold upload_calls in HIn.
      destruct (supplied _) as [f' |]; [| destruct HIn].
      destruct HIn as [HIn | []]. injection HIn as -> _ <- _.
      split; [reflexivity |]. intros _ response Hr. discriminate Hr.
  - destruct (is_str (mvd_get "action" (POST request)) "delete") eqn:Hdel;
      [| discriminate].
    apply is_str_true in Hdel.
    destruct (project_detail_delete_run u i request w old p0 Hu Hm Hdel Hold Hread)
      as (w1 & E & _ & _ & _ & _ & S3' & _).
    assert (w1 = w') as -> by congruence.
    rewrite <- (app_nil_r (s3_calls (cloud w))) in S3'.
    rewrite (new_s3_calls_app _ _ _ S3') in HIn. destruct HIn.
Qed.

(** C5, as amended.  Every upload a view makes, during a create or during an
    update, stores the file under
    [project_documents/<project-id>_<original-filename>], and that is the key
    the project then carries. *)
Theorem stored_document_key (r : Route) (request : HttpRequest) (w w' : World)
    (outcome : result HttpResponse) (f : File) (bucket key : string) (ok : bool) :
  db_wf (db w) -> resolve r request w = (outcome, w') ->
  In (upload_fileobj f bucket key, ok) (new_s3_calls w w') ->
  key = ("project_documents/" ++ str_int (subject r w) ++ "_" ++ file_name f)%string
  /\ (ok = true -> forall response, outcome = Ok response ->
      exists row, get_row (subject r w) (db w') = Some row
                  /\ document row = Some key).
Proof.
  intros W Run HIn. destruct r as [| | i]; cbn [resolve subject] in *.
  - exfalso. destruct (user request) as [u |] eqn:Hu.
    + destruct (project_list_run u request w Hu) as (w1 & E & _ & _ & _ & _ & S3' & _).
      assert (w1 = w') as -> by congruence.
      rewrite <- (app_nil_r (s3_calls (cloud w))) in S3'.
      rewrite (new_s3_calls_app _ _ _ S3') in HIn. destruct HIn.
    + unfold project_list in Run. rewrite anonymous_redirected in Run by exact Hu.
      injection Run as _ <-. rewrite new_s3_calls_none in HIn. destruct HIn.
  - destruct (create_uploads request w w' outcome f bucket key ok W Run HIn)
      as [K D].
    split; [exact K |]. intros Hok response _. apply D. exact Hok.
  - exact (detail_uploads i request w w' outcome f bucket key ok Run HIn).
Qed.

(** C7, as amended.  A delete submission on a stored project that can be read
    is answered with the redirect to the list, and from then on, whatever
    requests are served in between, a detail lookup of that key is answered
    with not-found: the row is gone and the key is never given out again.  On
    a stored project that cannot be read the submission raises, the row stays,
    and a detail lookup of the key is answered with a server error, not with
    not-found. *)
Theorem deleted_project_is_not_found (u u' : User) (i t : nat)
    (request request' : HttpRequest) (w : World) (old : Project)
    (later : list (nat * Route * HttpRequest)) :
  db_wf (db w) ->
  user request = Some u -> method request = "POST" ->
  mvd_get "action" (POST request) = Some "delete" ->
  get_row i (db w) = Some old ->
  user request' = Some u' ->
  (forall p0, read_row old = Ok p0 ->
   fst (project_detail i request w) = Ok (redirect "project_list")
   /\ fst (handle t (detail_route i) request'
             (handle_all later (snd (project_detail i request w))))
      = not_found)
  /\ (forall e, read_row old = Raise e ->
      project_detail i request w = (Raise InvalidOperation, w)
      /\ fst (handle t (detail_route i) request' w) = server_error InvalidOperation).
Proof.
  intros W Hu Hm Ha Hold Hu'. split.
  - intros p0 Hread.
    destruct (project_detail_delete_run u i request w old p0 Hu Hm Ha Hold Hread)
      as (w1 & E & D & _).
    rewrite E. cbn [fst snd]. split; [reflexivity |].
    destruct (get_row_id _ _ _ Hold) as [Hid HIn].
    destruct (W old HIn) as ((k & Hk & Hlt) & _).
    assert (k = i) as -> by congruence.
    assert (St : db_step (db w) (db w1)) by (rewrite D; apply step_remove).
    destruct (db_step_wf _ _ St W) as (W1 & Hle & _).
    assert (Gone : get_row i (db w1) = None).
    { rewrite D. unfold get_row. cbn [rows]. apply find_remove_same. }
    destruct (handle_all_gone i later w1 W1 ltac:(lia) Gone) as (_ & _ & Gone').
    unfold handle, serve. cbn [resolve].
    rewrite project_detail_missing with (u := u'); [reflexivity | exact Hu' |].
    exact Gone'.
  - intros e Hread.
    split; [exact (project_detail_unreadable u i request w old e Hu Hold Hread) |].
    unfold handle, serve. cbn [resolve].
    rewrite (project_detail_unreadable u' i request' (set_clock t w) old e Hu' Hold Hread).
    reflexivity.
Qed.

Lemma project_create_wf (request : HttpRequest) (w w' : World)
    (outcome : result HttpResponse) :
  db_wf (db w) -> project_create request w = (outcome, w') -> db_wf (db w').
Proof.
  intros W Run. pose proof (project_create_step request w W) as St.
  rewrite Run in St. exact (proj1 (db_step_wf _ _ St W)).
Qed.

Lemma stamp_created (row : Project) (t : nat) :
  created_at row = Some t -> stamp row = t.
Proof. unfold stamp. intros ->. reflexivity. Qed.

(** C6, as amended.  The list view goes through all projects, newest first.
    When A, B and C are created in that order, each later than everything
    before it, the table in the order of the list starts with C, then B, then
    A, each with its submitted values.  When every stored project can be read,
    the list that is shown is this one as it is read, so its first element is
    C; when some stored project cannot be read, the view raises instead of
    showing a list. *)
Theorem newest_project_is_listed_first (uA uB uC uL : User)
    (reqA reqB reqC reqL : HttpRequest) (tA tB tC tL : nat)
    (w0 wA wB wC : World) (rA rB rC : HttpResponse) :
  db_wf (db w0) ->
  (forall r, In r (rows (db w0)) -> stamp r < tA) -> tA < tB -> tB < tC ->
  user reqA = Some uA -> method reqA = "POST" ->
  user reqB = Some uB -> method reqB = "POST" ->
  user reqC = Some uC -> method reqC = "POST" ->
  project_create reqA (set_clock tA w0) = (Ok rA, wA) ->
  project_create reqB (set_clock tB wA) = (Ok rB, wB) ->
  project_create reqC (set_clock tC wB) = (Ok rC, wC) ->
  user reqL = Some uL ->
  exists a b c w',
    holds_form reqA a /\ holds_form reqB b /\ holds_form reqC c
    /\ Permutation (c :: b :: a :: order_by_created_desc (rows (db w0)))
                   (rows (db wC))
    /\ newest_first (c :: b :: a :: order_by_created_desc (rows (db w0)))
    /\ ((forall r, In r (rows (db wC)) -> exists p, read_row r = Ok p) ->
        exists c' b' a' rest,
          project_list reqL (set_clock tL wC)
          = (Ok (render "construction/project_list.html"
                   (projects_context (c' :: b' :: a' :: rest))), w')
          /\ read_row c = Ok c' /\ read_row b = Ok b' /\ read_row a = Ok a'
          /\ Forall2 (fun r p => read_row r = Ok p)
               (order_by_created_desc (rows (db w0))) rest)
    /\ ((exists r, In r (rows (db wC)) /\ read_row r = Raise InvalidOperation) ->
        project_list reqL (set_clock tL wC) = (Raise InvalidOperation, w')).
Proof.
  intros W0 Old HAB HBC HuA HmA HuB HmB HuC HmC RunA RunB RunC HuL.
  assert (WA : db_wf (db wA))
    by exact (project_create_wf reqA (set_clock tA w0) wA _ W0 RunA).
  assert (WB : db_wf (db wB))
    by exact (project_create_wf reqB (set_clock tB wA) wB _ WA RunB).
  destruct (project_create_row uA reqA (set_clock tA w0) _ _ HuA HmA W0 RunA)
    as (a & RowsA & _ & _ & FormA & _ & _ & CreatedA & _).
  destruct (project_create_row uB reqB (set_clock tB wA) _ _ HuB HmB WA RunB)
    as (b & RowsB & _ & _ & FormB & _ & _ & CreatedB & _).
  destruct (project_create_row uC reqC (set_clock tC wB) _ _ HuC HmC WB RunC)
    as (c & RowsC & _ & _ & FormC & _ & _ & CreatedC & _).
  cbn [db clock set_clock rows] in *.
  apply stamp_created in CreatedA, CreatedB, CreatedC.
  assert (Order : order_by_created_desc (rows (db wC))
                  = c :: b :: a :: order_by_created_desc (rows (db w0))).
  { rewrite RowsC, RowsB, RowsA.
    rewrite order_newest_last.
    2:{ intros x Hx. rewrite CreatedC.
        apply in_app_or in Hx as [Hx | [<- | []]]; [| lia].
        apply in_app_or in Hx as [Hx | [<- | []]]; [| lia].
        specialize (Old x Hx). lia. }
    rewrite order_newest_last.
    2:{ intros x Hx. rewrite CreatedB.
        apply in_app_or in Hx as [Hx | [<- | []]]; [| lia].
        specialize (Old x Hx). lia. }
    rewrite order_newest_last.
    2:{ intros x Hx. rewrite CreatedA. exact (Old x Hx). }
    reflexivity. }
  destruct (project_list_run uL reqL (set_clock tL wC) HuL) as (w' & E & _).
  cbn [db set_clock] in E. rewrite Order in E.
  exists a, b, c, w'.
  split; [exact FormA | split; [exact FormB | split; [exact FormC |]]].
  rewrite <- Order. split; [apply order_by_created_desc_perm |].
  split; [apply order_by_created_desc_sorted |].
  split.
  - intros Readable.
    destruct (read_rows_readable (c :: b :: a :: order_by_created_desc (rows (db w0))))
      as (ps & Rs).
    { intros r Hr. apply Readable.
      apply (Permutation_in _ (order_by_created_desc_perm (rows (db wC)))).
      rewrite Order. exact Hr. }
    rewrite Rs in E. apply read_rows_all in Rs.
    inversion Rs as [| ? c' ? ps1 Rc Rs1]; subst.
    inversion Rs1 as [| ? b' ? ps2 Rb Rs2]; subst.
    inversion Rs2 as [| ? a' ? rest Ra Rs3]; subst.
    exists c', b', a', rest.
    split; [exact E |]. split; [exact Rc |]. split; [exact Rb |].
    split; [exact Ra | exact Rs3].
  - intros (r & Hr & Bad).
    destruct (read_rows (c :: b :: a :: order_by_created_desc (rows (db w0))))
      as [ps | e] eqn:Rs.
    + exfalso.
      apply (Permutation_in _ (Permutation_sym (order_by_created_desc_perm (rows (db wC)))))
        in Hr.
      rewrite Order in Hr.
      destruct (read_rows_in _ _ r Rs Hr) as (p & _ & Rp).
      rewrite Rp in Bad. discriminate Bad.
    + destruct (read_rows_raises _ _ Rs) as (-> & _). exact E.
Qed.

(** C9, as amended.  Any authenticated user, the manager of the project or
    not, can look at, update and delete a stored project that can be read: the
    page is shown, an update with a form its columns take replaces the fields
    and leaves the manager as it was, a delete removes the row.  What
    [project_detail] and [project_list] answer and do to the table, the flash
    messages and the document store is the same for any two authenticated
    users, whatever the state of the audit sink.  Only an anonymous request is
    treated otherwise: it is sent to the login page and nothing happens.  A
    stored project that cannot be read can be looked at, updated and deleted
    by no one, its manager included.  The list is shown to any authenticated
    user when every stored project can be read. *)
Theorem outcome_does_not_depend_on_user (i : nat) (u1 u2 : User)
    (request : HttpRequest) (w1 w2 : World) (old : Project) :
  alike w1 w2 -> db_wf (db w1) -> get_row i (db w1) = Some old ->
  (fst (project_detail i (as_user (Some u1) request) w1)
   = fst (project_detail i (as_user (Some u2) request) w2)
   /\ alike (snd (project_detail i (as_user (Some u1) request) w1))
            (snd (project_detail i (as_user (Some u2) request) w2)))
  /\ (fst (project_list (as_user (Some u1) request) w1)
      = fst (project_list (as_user (Some u2) request) w2)
      /\ alike (snd (project_list (as_user (Some u1) request) w1))
               (snd (project_list (as_user (Some u2) request) w2)))
  /\ project_detail i (as_user None request) w1
     = (Ok (redirect (LOGIN_URL settings)), w1)
  /\ project_list (as_user None request) w1
     = (Ok (redirect (LOGIN_URL settings)), w1)
  /\ (forall p0, read_row old = Ok p0 ->
      (plain_view request = true ->
       exists document_url w',
         project_detail i (as_user (Some u1) request) w1
         = (Ok (render "construction/project_detail.html"
                  (project_context p0 document_url)), w'))
      /\ (method request = "POST" ->
          mvd_get "action" (POST request) = Some "update" -> acceptable request ->
          exists response w' row,
            project_detail i (as_user (Some u1) request) w1 = (Ok response, w')
            /\ get_row i (db w') = Some row
            /\ holds_form request row /\ manager row = manager old)
      /\ (method request = "POST" ->
          mvd_get "action" (POST request) = Some "delete" ->
          exists w',
            project_detail i (as_user (Some u1) request) w1
            = (Ok (redirect "project_list"), w')
            /\ get_row i (db w') = None))
  /\ (forall e, read_row old = Raise e ->
      project_detail i (as_user (Some u1) request) w1 = (Raise InvalidOperation, w1))
  /\ (forall projects,
      read_rows (order_by_created_desc (rows (db w1))) = Ok projects ->
      exists w',
        project_list (as_user (Some u1) request) w1
        = (Ok (render "construction/project_list.html" (projects_context projects)),
           w')).
Proof.
  intros H W Hold. split; [| split; [| split; [| split; [| split; [| split]]]]].
  - exact (agree_detail i u1 u2 request w1 w2 H).
  - exact (agree_list u1 u2 request w1 w2 H).
  - apply anonymous_redirected. reflexivity.
  - apply anonymous_redirected. reflexivity.
  - intros p0 Hread. split; [| split].
    + intros Hv.
      rewrite (project_detail_view_run u1 i (as_user (Some u1) request) w1 old p0
                 eq_refl Hv Hold Hread).
      destruct (show_project_run u1 p0 w1) as (w' & E & _).
      eexists _, w'. exact E.
    + intros Hm Ha A.
      pose proof (project_detail_update_run u1 i (as_user (Some u1) request) w1 old p0
                    eq_refl Hm Ha Hold Hread) as R.
      cbv zeta in R.
      destruct (updated_project_frame i (as_user (Some u1) request) (next_ok S3 w1) old)
        as (Ui & Um & Uc & Ucar).
      destruct (get_row_id _ _ _ Hold) as [Hid HIn].
      set (p := stamped i (created_at old) (clock w1)
                  (updated_project i (as_user (Some u1) request) (next_ok S3 w1) old))
        in *.
      destruct (prepare_acceptable (as_user (Some u1) request) p) as (row & P).
      { apply stamped_carries. exact Ucar. }
      { exact A. }
      { cbn [p created_at stamped]. apply (W old HIn). }
      { discriminate. }
      rewrite P in R. destruct R as (w' & E & D & _).
      destruct (prepare_fields _ _ P) as (Fi & Fm & _).
      eexists _, w', row. split; [exact E |].
      split; [| split].
      * rewrite D. unfold get_row. cbn [rows].
        apply find_replace_same with (old := old); [| exact Hold].
        apply has_id_true. rewrite Fi. reflexivity.
      * apply (prepare_holds_form (as_user (Some u1) request) p row);
          [apply stamped_carries; exact Ucar | exact P].
      * rewrite Fm. cbn [p manager stamped]. exact Um.
    + intros Hm Ha.
      destruct (project_detail_delete_run u1 i (as_user (Some u1) request) w1 old p0
                  eq_refl Hm Ha Hold Hread) as (w' & E & D & _).
      exists w'. split; [exact E |].
      rewrite D. unfold get_row. cbn [rows]. apply find_remove_same.
  - intros e Hread.
    exact (project_detail_unreadable u1 i (as_user (Some u1) request) w1 old e
             eq_refl Hold Hread).
  - intros projects Rs.
    destruct (project_list_run u1 (as_user (Some u1) request) w1 eq_refl)
      as (w' & E & _).
    rewrite Rs in E. exists w'. exact E.
Qed.

(** * Further properties *)

(** ** The collaborators *)

Lemma logs_ok_0 (w : World) :
  logs_ok 0 w = aws (cloud w) Logs (length (logs_calls (cloud w))).
Proof. unfold logs_ok. rewrite Nat.add_0_r. reflexivity. Qed.

Lemma logs_ok_1 (w : World) :
  logs_ok 1 w = aws (cloud w) Logs (S (length (logs_calls (cloud w)))).
Proof. unfold logs_ok. rewrite Nat.add_1_r. reflexivity. Qed.

Lemma length_snoc {A} (l : list A) (x : A) : length (l ++ [x]) = S (length l).
Proof. rewrite length_app. cbn. apply Nat.add_1_r. Qed.

(** X1.  [S3FileManager.upload_file] never raises.  It makes one call through
    the S3 client, for the given file and key in the manager's bucket, and
    returns whether that call went through; when it did not, one line is
    printed.  Nothing else of the state changes. *)
Theorem upload_file_reports_failure (self : S3FileManager) (f : File) (key : string)
    (w : World) :
  exists ok w',
    upload_file self f key w = (Ok ok, w')
    /\ ok = next_ok S3 w
    /\ s3_calls (cloud w')
       = s3_calls (cloud w) ++ [(upload_fileobj f (bucket_name self) key, ok)]
    /\ console w' = console w ++ complaint ok "Error uploading file to S3"
    /\ only_called S3 w w'.
Proof.
  unfold upload_file, try_except, bind, s3_client, print, ret, next_ok, only_called.
  cbn. destruct (aws (cloud w) S3 (length (s3_calls (cloud w)))); cbn;
    eexists _, _; (split; [reflexivity |]); cbn; rewrite ?app_nil_r;
    repeat split; congruence.
Qed.

(** X2.  [S3FileManager.get_file_url] never raises.  It makes one call through
    the S3 client, for the key in the manager's bucket with the given lifetime,
    and returns the URL when the call went through and [None] when it did
    not. *)
Theorem get_file_url_reports_failure (self : S3FileManager) (key : string)
    (expiration : nat) (w : World) :
  exists (ok : bool) w',
    get_file_url self key expiration w
    = (Ok (if ok then Some {| url_bucket := bucket_name self; url_key := key;
                              url_expires := expiration |}
           else None), w')
    /\ ok = next_ok S3 w
    /\ s3_calls (cloud w')
       = s3_calls (cloud w)
           ++ [(generate_presigned_url (bucket_name self) key expiration, ok)]
    /\ console w' = console w ++ complaint ok "Error generating presigned URL"
    /\ only_called S3 w w'.
Proof.
  unfold get_file_url, try_except, bind, s3_client, print, ret, next_ok, only_called.
  cbn. destruct (aws (cloud w) S3 (length (s3_calls (cloud w)))) eqn:E; cbn.
  - exists true. eexists. (split; [reflexivity |]); cbn; rewrite ?app_nil_r;
      repeat split; congruence.
  - exists false. eexists. (split; [reflexivity |]); cbn;
      repeat split; congruence.
Qed.

(** X3.  [NotificationManager.send_email] never raises.  It makes one call
    through the SES client, from the sender to the single recipient with the
    subject and the body, and returns whether that call went through. *)
Theorem send_email_reports_failure (self : NotificationManager)
    (to_email subject body sender_email : string) (w : World) :
  exists ok w',
    send_email self to_email subject body sender_email w = (Ok ok, w')
    /\ ok = next_ok SES w
    /\ ses_calls (cloud w')
       = ses_calls (cloud w) ++ [(ses_send_email sender_email to_email subject body, ok)]
    /\ console w' = console w ++ complaint ok "Error sending email"
    /\ only_called SES w w'.
Proof.
  unfold send_email, try_except, bind, ses_client, print, ret, next_ok, only_called.
  cbn. destruct (aws (cloud w) SES (length (ses_calls (cloud w)))); cbn;
    eexists _, _; (split; [reflexivity |]); cbn; rewrite ?app_nil_r;
    repeat split; congruence.
Qed.

(** X4.  [NotificationManager.send_sns_notification] never raises.  It makes
    one call through the SNS client and returns whether that call went through.
    The call carries a subject exactly when a subject that is not the empty
    string was given; an empty subject is published as no subject. *)
Theorem send_sns_notification_drops_empty_subject (self : NotificationManager)
    (topic_arn message : string) (subject : option string) (w : World) :
  exists ok w',
    send_sns_notification self topic_arn message subject w = (Ok ok, w')
    /\ ok = next_ok SNS w
    /\ sns_calls (cloud w')
       = sns_calls (cloud w) ++ [(sns_publish topic_arn message (given subject), ok)]
    /\ (given subject = None <-> subject = None \/ subject = Some EmptyString)
    /\ (forall s, given subject = Some s -> subject = Some s)
    /\ console w' = console w ++ complaint ok "Error sending SNS notification"
    /\ only_called SNS w w'.
Proof.
  assert (G1 : given subject = None <-> subject = None \/ subject = Some EmptyString).
  { destruct subject as [s |]; cbn.
    - destruct s; cbn; split; intros H; try discriminate; auto.
      destruct H as [H | H]; discriminate.
    - split; auto. }
  assert (G2 : forall s, given subject = Some s -> subject = Some s).
  { destruct subject as [s |]; cbn; [| discriminate].
    destruct (truthy s); intros s' H; [exact H | discriminate]. }
  unfold send_sns_notification, try_except, bind, sns_client, print, ret, next_ok,
    only_called.
  cbn. fold (given subject).
  destruct (aws (cloud w) SNS (length (sns_calls (cloud w)))); cbn;
    eexists _, _; (split; [reflexivity |]); cbn; rewrite ?app_nil_r;
    (split; [reflexivity |]); (split; [reflexivity |]);
    (split; [exact G1 |]); (split; [exact G2 |]);
    repeat split; congruence.
Qed.

Lemma ensure_log_group_exists_run (self : CloudWatchLogger) (w : World) :
  exists w',
    ensure_log_group_exists self w = (Ok (logs_ok 0 w || logs_ok 1 w), w')
    /\ logs_calls (cloud w')
       = logs_calls (cloud w)
           ++ (describe_log_groups (log_group_name self), logs_ok 0 w)
              :: (if logs_ok 0 w then []
                  else [(create_log_group (log_group_name self), logs_ok 1 w)])
    /\ console w'
       = console w ++ complaint (logs_ok 0 w || logs_ok 1 w) "Error creating log group"
    /\ only_called Logs w w'.
Proof.
  rewrite logs_ok_0, logs_ok_1.
  unfold ensure_log_group_exists, try_except, bind, logs_client, print, ret, only_called.
  cbn. destruct (aws (cloud w) Logs (length (logs_calls (cloud w)))); cbn.
  - eexists. (split; [reflexivity |]); cbn; rewrite ?app_nil_r;
      repeat split; congruence.
  - rewrite length_snoc.
    destruct (aws (cloud w) Logs (S (length (logs_calls (cloud w))))); cbn;
      eexists; (split; [reflexivity |]); cbn; rewrite <- ?app_assoc, ?app_nil_r;
      repeat split; congruence.
Qed.

Lemma ensure_log_stream_exists_run (self : CloudWatchLogger) (w : World) :
  exists w',
    ensure_log_stream_exists self w = (Ok (logs_ok 0 w || logs_ok 1 w), w')
    /\ logs_calls (cloud w')
       = logs_calls (cloud w)
           ++ (describe_log_streams (log_group_name self) (log_stream_name self),
               logs_ok 0 w)
              :: (if logs_ok 0 w then []
                  else [(create_log_stream (log_group_name self) (log_stream_name self),
                         logs_ok 1 w)])
    /\ console w'
       = console w ++ complaint (logs_ok 0 w || logs_ok 1 w) "Error creating log stream"
    /\ only_called Logs w w'.
Proof.
  rewrite logs_ok_0, logs_ok_1.
  unfold ensure_log_stream_exists, try_except, bind, logs_client, print, ret, only_called.
  cbn. destruct (aws (cloud w) Logs (length (logs_calls (cloud w)))); cbn.
  - eexists. (split; [reflexivity |]); cbn; rewrite ?app_nil_r;
      repeat split; congruence.
  - rewrite length_snoc.
    destruct (aws (cloud w) Logs (S (length (logs_calls (cloud w))))); cbn;
      eexists; (split; [reflexivity |]); cbn; rewrite <- ?app_assoc, ?app_nil_r;
      repeat split; congruence.
Qed.

(** X5.  [CloudWatchLogger.ensure_log_group_exists] and
    [CloudWatchLogger.ensure_log_stream_exists] never raise.  Each first asks
    for what it needs, the group or the stream of the day; it tries to create
    it only when that call raised, and then reports whether the creation went
    through.  Each makes one call or two, prints only when both raised, and
    touches nothing but the logs client and the console. *)
Theorem group_and_stream_are_created_only_when_the_lookup_fails
    (self : CloudWatchLogger) (w : World) :
  (exists w',
     ensure_log_group_exists self w = (Ok (logs_ok 0 w || logs_ok 1 w), w')
     /\ logs_calls (cloud w')
        = logs_calls (cloud w)
            ++ (describe_log_groups (log_group_name self), logs_ok 0 w)
               :: (if logs_ok 0 w then []
                   else [(create_log_group (log_group_name self), logs_ok 1 w)])
     /\ console w'
        = console w
            ++ complaint (logs_ok 0 w || logs_ok 1 w) "Error creating log group"
     /\ only_called Logs w w')
  /\ (exists w',
        ensure_log_stream_exists self w = (Ok (logs_ok 0 w || logs_ok 1 w), w')
        /\ logs_calls (cloud w')
           = logs_calls (cloud w)
               ++ (describe_log_streams (log_group_name self) (log_stream_name self),
                   logs_ok 0 w)
                  :: (if logs_ok 0 w then []
                      else [(create_log_stream (log_group_name self)
                               (log_stream_name self), logs_ok 1 w)])
        /\ console w'
           = console w
               ++ complaint (logs_ok 0 w || logs_ok 1 w) "Error creating log stream"
        /\ only_called Logs w w').
Proof.
  split.
  - exact (ensure_log_group_exists_run self w).
  - exact (ensure_log_stream_exists_run self w).
Qed.

Lemma logs_ok_shift (w w' : World) (k n : nat) :
  aws (cloud w') = aws (cloud w) ->
  length (logs_calls (cloud w')) = length (logs_calls (cloud w)) + n ->
  logs_ok k w' = logs_ok (n + k) w.
Proof.
  intros A L. unfold logs_ok. rewrite A, L, Nat.add_assoc. reflexivity.
Qed.

(** The steps of [log_project_activity], one at a time. *)
Lemma log_project_activity_group (self : CloudWatchLogger) (a : string)
    (p : option string) (u : string) (d : list (string * pyval)) (w : World) :
  exists w1,
    ensure_log_group_exists self
      (noted {| act_type := a; act_project := p; act_user := u; act_details := d |} w)
    = (Ok (logs_ok 0 w || logs_ok 1 w), w1)
    /\ logs_calls (cloud w1)
       = logs_calls (cloud w)
           ++ (describe_log_groups (log_group_name self), logs_ok 0 w)
              :: (if logs_ok 0 w then []
                  else [(create_log_group (log_group_name self), logs_ok 1 w)])
    /\ console w1
       = console w ++ complaint (logs_ok 0 w || logs_ok 1 w) "Error creating log group"
    /\ aws (cloud w1) = aws (cloud w) /\ clock w1 = clock w
    /\ log_project_activity self a p u d w
       = (if negb (logs_ok 0 w || logs_ok 1 w) then ret false else
          stream <- ensure_log_stream_exists self ;;
          if negb stream then ret false else
          t <- now ;;
          let log_entry := {| timestamp := t; activity_type := a;
                              project_name := p; actor := u; details := d |} in
          try_except
            (ms <- now ;;
             message <- json_dumps log_entry ;;
             logs_client (put_log_events (log_group_name self) (log_stream_name self)
                            (1000 * utcnow_timestamp ms)%Z message) ;;
             ret true)
            (fun _ => print "Error logging to CloudWatch" ;; ret false)) w1.
Proof.
  destruct (ensure_log_group_exists_run self
              (noted {| act_type := a; act_project := p; act_user := u;
                        act_details := d |} w))
    as (w1 & E & C & P & F).
  exists w1. split; [exact E |]. split; [exact C |]. split; [exact P |].
  destruct F as (_ & Fc & _ & _ & Fa & _).
  split; [exact Fa |]. split; [exact Fc |].
  unfold log_project_activity. unfold bind at 1.
  change (note ?x w) with (Ok tt, noted x w). cbv beta iota.
  unfold bind at 1. rewrite E. reflexivity.
Qed.

(** X6.  When the log group can neither be found nor created,
    [log_project_activity] gives up at once: it returns [False] after these two
    calls, does not look for the stream and sends no record. *)
Theorem no_log_group_no_record (self : CloudWatchLogger) (a : string)
    (p : option string) (u : string) (d : list (string * pyval)) (w : World) :
  logs_ok 0 w = false -> logs_ok 1 w = false ->
  exists w',
    log_project_activity self a p u d w = (Ok false, w')
    /\ logs_calls (cloud w')
       = logs_calls (cloud w)
           ++ [(describe_log_groups (log_group_name self), false);
               (create_log_group (log_group_name self), false)]
    /\ console w' = console w ++ ["Error creating log group"].
Proof.
  intros H0 H1.
  destruct (log_project_activity_group self a p u d w) as (w1 & _ & C & P & _ & _ & R).
  rewrite H0, H1 in *. cbn in R, C, P.
  exists w1. split; [exact R |]. split; [exact C | exact P].
Qed.

(** X7.  Details that [json.dumps] cannot serialise never reach CloudWatch:
    [log_project_activity] returns [False], and no call it made through the
    logs client is a [put_log_events]. *)
Theorem unserialisable_details_are_not_sent (self : CloudWatchLogger) (a : string)
    (p : option string) (u : string) (d : list (string * pyval)) (w : World) :
  forallb (fun kv => serialisable (snd kv)) d = false ->
  exists w' calls,
    log_project_activity self a p u d w = (Ok false, w')
    /\ logs_calls (cloud w') = logs_calls (cloud w) ++ calls
    /\ forallb (fun c => negb (is_put (fst c))) calls = true.
Proof.
  intros Bad.
  destruct (log_project_activity_group self a p u d w) as (w1 & _ & C & _ & _ & _ & R).
  rewrite R. clear R.
  destruct (logs_ok 0 w || logs_ok 1 w) eqn:G; cbv beta iota; cbn [negb].
  - destruct (ensure_log_stream_exists_run self w1) as (w2 & E & C2 & _ & _).
    unfold bind at 1. rewrite E.
    destruct (logs_ok 0 w1 || logs_ok 1 w1) eqn:S; cbn [negb].
    + unfold bind at 1. unfold now at 1. cbv beta iota zeta.
      unfold try_except, bind, now, json_dumps. cbn [details].
      rewrite Bad. unfold raise, print, ret. cbn.
      eexists _, _. split; [reflexivity |]. cbn.
      split; [rewrite C2, C, <- app_assoc; reflexivity |].
      destruct (logs_ok 0 w), (logs_ok 0 w1); reflexivity.
    + unfold ret. eexists _, _. split; [reflexivity |].
      split; [rewrite C2, C, <- app_assoc; reflexivity |].
      destruct (logs_ok 0 w), (logs_ok 0 w1); reflexivity.
  - unfold ret. eexists _, _. split; [reflexivity |].
    split; [exact C |].
    destruct (logs_ok 0 w); reflexivity.
Qed.

(** X8.  When the group and the stream are found and the record is accepted,
    [log_project_activity] makes exactly three calls (the lookup of the group,
    the lookup of the stream, the record itself), returns [True] and prints
    nothing.  The record carries the time of the clock; the event is stamped
    with [utcnow().timestamp()] in milliseconds, which is that time read as
    local time and so is off it by the UTC offset of the process. *)
Theorem record_is_sent_in_three_calls (self : CloudWatchLogger) (a : string)
    (p : option string) (u : string) (d : list (string * pyval)) (w : World) :
  logs_ok 0 w = true -> logs_ok 1 w = true -> logs_ok 2 w = true ->
  forallb (fun kv => serialisable (snd kv)) d = true ->
  exists w',
    log_project_activity self a p u d w = (Ok true, w')
    /\ logs_calls (cloud w')
       = logs_calls (cloud w)
           ++ [(describe_log_groups (log_group_name self), true);
               (describe_log_streams (log_group_name self) (log_stream_name self), true);
               (put_log_events (log_group_name self) (log_stream_name self)
                  (1000 * utcnow_timestamp (clock w))%Z
                  {| timestamp := clock w; activity_type := a; project_name := p;
                     actor := u; details := d |}, true)]
    /\ console w' = console w.
Proof.
  intros H0 H1 H2 Good.
  destruct (log_project_activity_group self a p u d w)
    as (w1 & _ & C & P & A1 & T1 & R).
  rewrite R. clear R. rewrite H0 in *. cbn in C, P. cbv beta iota. cbn [orb negb].
  destruct (ensure_log_stream_exists_run self w1) as (w2 & E & C2 & P2 & F2).
  assert (S0 : logs_ok 0 w1 = true).
  { rewrite (logs_ok_shift w w1 0 1 A1); [exact H1 |].
    rewrite C. apply length_app. }
  rewrite S0 in *. cbn in C2, P2, E.
  destruct F2 as (_ & T2 & _ & _ & A2 & _).
  unfold bind at 1. rewrite E. cbn [negb].
  unfold bind at 1. unfold now at 1. cbv beta iota zeta.
  unfold try_except, bind, now, json_dumps. cbn [details].
  rewrite Good. unfold ret, logs_client. cbn.
  assert (S2 : aws (cloud w2) Logs (length (logs_calls (cloud w2))) = true).
  { rewrite <- logs_ok_0. rewrite (logs_ok_shift w w2 0 2); [exact H2 | congruence |].
    rewrite C2, C, !length_app. cbn. rewrite <- Nat.add_assoc. reflexivity. }
  rewrite S2. cbn.
  eexists. split; [reflexivity |]. cbn.
  rewrite T2, T1, C2, C, P2, P, <- !app_assoc, !app_nil_r. cbn.
  split; reflexivity.
Qed.

(** ** The project views *)

(** X9.  [@login_required]: a request without a user, on any project route and
    with any method and form, is answered with a redirect to the login page;
    the view does not run, so the table, the audit journal, the clients and the
    flash messages are as before. *)
Theorem anonymous_request_changes_nothing (t : nat) (r : Route)
    (request : HttpRequest) (w : World) :
  user request = None ->
  handle t r request w = (sent (redirect (LOGIN_URL settings)), set_clock t w).
Proof.
  intros Hu. unfold handle, serve.
  destruct r; cbn [resolve]; unfold project_list, project_create, project_detail;
    rewrite (anonymous_redirected _ _ _ Hu); reflexivity.
Qed.

Lemma create_form_is_shown (u : User) (request : HttpRequest) (w : World) :
  user request = Some u -> method request <> "POST" ->
  project_create request w
  = (Ok (render "construction/project_create.html" no_context), w).
Proof.
  intros Hu Hm. unfold project_create, login_required. rewrite Hu.
  destruct (method request =? "POST") eqn:E; [| reflexivity].
  apply String.eqb_eq in E. contradiction.
Qed.

(** X10.  [project_create] on a request that is not a POST shows the empty form
    and does nothing else. *)
Theorem create_form_is_shown_without_effect (u : User) (request : HttpRequest)
    (w : World) :
  user request = Some u -> method request <> "POST" ->
  project_create request w
  = (Ok (render "construction/project_create.html" no_context), w).
Proof.
  intros Hu Hm. exact (create_form_is_shown u request w Hu Hm).
Qed.

(** X11.  A request for a project that is not in the table is answered 404
    whatever its method and its action, update and delete included, and leaves
    no trace: no audit record, no call, no message. *)
Theorem missing_project_is_not_found (t i : nat) (u : User) (request : HttpRequest)
    (w : World) :
  user request = Some u -> get_row i (db w) = None ->
  handle t (detail_route i) request w = (not_found, set_clock t w).
Proof.
  intros Hu Hg. unfold handle, serve. cbn [resolve].
  rewrite (project_detail_missing u i request (set_clock t w) Hu Hg). reflexivity.
Qed.

(** X12.  The detail page (any request that is neither an update nor a delete)
    of a stored project that can be read shows the project as it is read,
    leaves the table and the flash messages alone and writes one view record.
    A project without a document key costs no call and shows no URL; one with
    a key costs one call for a URL that lasts 3600 seconds, and the page is
    shown without a URL when that call fails. *)
Theorem detail_page_signs_the_stored_document (u : User) (i : nat)
    (request : HttpRequest) (w : World) (old p : Project) :
  user request = Some u -> plain_view request = true ->
  get_row i (db w) = Some old -> read_row old = Ok p ->
  exists document_url w',
    project_detail i request w
    = (Ok (render "construction/project_detail.html"
             (project_context p document_url)), w')
    /\ db w' = db w /\ flash w' = flash w
    /\ activities w' = activities w ++ [view_activity u old]
    /\ match has_document (document old) with
       | None => document_url = None /\ s3_calls (cloud w') = s3_calls (cloud w)
       | Some key =>
           s3_calls (cloud w')
           = s3_calls (cloud w)
               ++ [(generate_presigned_url (AWS_S3_BUCKET_NAME settings) key 3600,
                    next_ok S3 w)]
           /\ document_url
              = if next_ok S3 w
                then Some {| url_bucket := AWS_S3_BUCKET_NAME settings;
                             url_key := key; url_expires := 3600 |}
                else None
       end.
Proof.
  intros Hu Hv Hg Hread.
  rewrite (project_detail_view_run u i request w old p Hu Hv Hg Hread).
  destruct (read_row_fields old p Hread)
    as (Ri & Rn & _ & _ & _ & _ & Rst & _ & _ & Rd & _).
  destruct (show_project_run u p w)
    as (w' & R & D & _ & _ & F & S & _ & _ & A).
  exists (shown_url p (next_ok S3 w)), w'.
  split; [exact R |]. split; [exact D |]. split; [exact F |].
  split; [rewrite A; unfold view_activity; rewrite Ri, Rn, Rst; reflexivity |].
  unfold shown_url, url_calls in *. rewrite Rd in *.
  destruct (has_document (document old)) as [key |].
  - split; [exact S | reflexivity].
  - split; [reflexivity |]. rewrite S. apply app_nil_r.
Qed.

(** X13.  A POST to [project_detail] whose action is neither [update] nor
    [delete] is served exactly as the same request sent with GET. *)
Theorem unknown_action_is_a_view (i : nat) (request : HttpRequest) (w : World) :
  plain_view request = true ->
  project_detail i request w = project_detail i (as_get request) w.
Proof.
  intros Hv.
  destruct (user request) as [u |] eqn:Hu.
  - destruct (get_row i (db w)) as [old |] eqn:Hg.
    + destruct (read_row old) as [p | e] eqn:Hread.
      * rewrite (project_detail_view_run u i request w old p Hu Hv Hg Hread).
        rewrite (project_detail_view_run u i (as_get request) w old p Hu eq_refl Hg Hread).
        reflexivity.
      * rewrite (project_detail_unreadable u i request w old e Hu Hg Hread).
        rewrite (project_detail_unreadable u i (as_get request) w old e Hu Hg Hread).
        reflexivity.
    + rewrite (project_detail_missing u i request w Hu Hg).
      rewrite (project_detail_missing u i (as_get request) w Hu Hg).
      reflexivity.
  - unfold project_detail.
    rewrite (anonymous_redirected _ request w Hu).
    rewrite (anonymous_redirected _ (as_get request) w Hu).
    reflexivity.
Qed.

(** X14.  Deleting a stored project that can be read removes its row and no
    other, keeps the key sequence where it was, records the deletion under the
    name the project had, and makes no call to the document store: a stored
    document stays in the bucket. *)
Theorem delete_removes_the_row_and_keeps_the_document (u : User) (i : nat)
    (request : HttpRequest) (w : World) (old p : Project) :
  user request = Some u -> method request = "POST" ->
  mvd_get "action" (POST request) = Some "delete" ->
  get_row i (db w) = Some old -> read_row old = Ok p ->
  exists w',
    project_detail i request w = (Ok (redirect "project_list"), w')
    /\ get_row i (db w') = None
    /\ (forall j, j <> i -> get_row j (db w') = get_row j (db w))
    /\ next_id (db w') = next_id (db w)
    /\ activities w' = activities w ++ [delete_activity u old]
    /\ flash w' = flash w ++ [deleted_message (name old)]
    /\ s3_calls (cloud w') = s3_calls (cloud w).
Proof.
  intros Hu Hm Ha Hg Hread.
  destruct (project_detail_delete_run u i request w old p Hu Hm Ha Hg Hread)
    as (w' & R & D & _ & _ & F & S & _ & _ & A).
  exists w'. split; [exact R |]. unfold get_row. rewrite D. cbn [rows next_id].
  split; [apply find_remove_same |].
  split; [intros j Hj; apply find_remove_other; congruence |].
  split; [reflexivity |]. split; [exact A |]. split; [exact F | exact S].
Qed.

(** X15.  [project_list] counts the rows of the table, writes one view record
    for the list with that number, and then reads the rows, newest first.
    When every row can be read it shows each of them once, as it is read, and
    the number it recorded is the number of projects it shows; when a row
    cannot be read it raises, after the record was written.  Either way the
    table and the flash messages are as they were. *)
Theorem list_counts_what_it_shows (u : User) (request : HttpRequest) (w : World) :
  user request = Some u ->
  exists w',
    activities w' = activities w ++ [list_activity u (length (rows (db w)))]
    /\ db w' = db w /\ flash w' = flash w
    /\ Permutation (order_by_created_desc (rows (db w))) (rows (db w))
    /\ newest_first (order_by_created_desc (rows (db w)))
    /\ (forall projects,
        read_rows (order_by_created_desc (rows (db w))) = Ok projects ->
        project_list request w
        = (Ok (render "construction/project_list.html" (projects_context projects)), w')
        /\ length projects = length (rows (db w))
        /\ Forall2 (fun r p => read_row r = Ok p)
             (order_by_created_desc (rows (db w))) projects)
    /\ (forall e,
        read_rows (order_by_created_desc (rows (db w))) = Raise e ->
        project_list request w = (Raise InvalidOperation, w')
        /\ exists r, In r (rows (db w)) /\ read_row r = Raise InvalidOperation).
Proof.
  intros Hu.
  destruct (project_list_run u request w Hu) as (w' & E & D & _ & _ & F & _ & _ & _ & A).
  exists w'. split; [exact A |]. split; [exact D |]. split; [exact F |].
  split; [apply order_by_created_desc_perm |].
  split; [apply order_by_created_desc_sorted |].
  split.
  - intros projects Rs. rewrite Rs in E. split; [exact E |].
    split; [| exact (read_rows_all _ _ Rs)].
    rewrite (read_rows_length _ _ Rs).
    apply Permutation_length, order_by_created_desc_perm.
  - intros e Rs. rewrite Rs in E.
    destruct (read_rows_raises _ _ Rs) as (-> & r & Hr & Bad).
    split; [exact E |]. exists r. split; [| exact Bad].
    exact (Permutation_in _ (order_by_created_desc_perm _) Hr).
Qed.

(** ** From one request to the next *)

(** X16.  A project that was created can be looked at right away, by any
    user, when its budget can be read back: the page of the key the creation
    took shows the stored row as it is read, and the stored row carries the
    eight submitted fields and the creator as its manager; it shows no URL
    when no document key was stored.  When the budget cannot be read back the
    page raises [decimal.InvalidOperation]. *)
Theorem created_project_is_shown_as_read_back (u v : User)
    (request view : HttpRequest) (w w1 : World) (response : HttpResponse) (t : nat) :
  user request = Some u -> method request = "POST" -> db_wf (db w) ->
  project_create request w = (Ok response, w1) ->
  user view = Some v -> plain_view view = true ->
  exists row,
    get_row (next_id (db w)) (db w1) = Some row
    /\ holds_form request row /\ manager row = user_id u
    /\ (forall p, read_row row = Ok p ->
        exists document_url w2,
          project_detail (next_id (db w)) view (set_clock t w1)
          = (Ok (render "construction/project_detail.html"
                   (project_context p document_url)), w2)
          /\ (has_document (document row) = None -> document_url = None))
    /\ (forall e, read_row row = Raise e ->
        project_detail (next_id (db w)) view (set_clock t w1)
        = (Raise InvalidOperation, set_clock t w1)).
Proof.
  intros Hu Hm W Run Hv Hp.
  destruct (project_create_row u request w w1 response Hu Hm W Run)
    as (row & _ & _ & G & H & _ & M & _).
  exists row. split; [exact G |]. split; [exact H |]. split; [exact M |].
  split.
  - intros p Hread.
    rewrite (project_detail_view_run v (next_id (db w)) view (set_clock t w1) row p
               Hv Hp G Hread).
    destruct (show_project_run v p (set_clock t w1)) as (w2 & R & _).
    exists (shown_url p (next_ok S3 (set_clock t w1))), w2.
    split; [exact R |].
    intros D. unfold shown_url.
    destruct (read_row_fields row p Hread) as (_ & _ & _ & _ & _ & _ & _ & _ & _ & Rd & _).
    rewrite Rd, D. reflexivity.
  - intros e Hread.
    exact (project_detail_unreadable v (next_id (db w)) view (set_clock t w1) row e
             Hv G Hread).
Qed.

(** X17.  After a stored project that can be read was deleted, a list that is
    shown holds no project with its key, and holds every other project of the
    table, as it is read; and the list is shown when every other project can
    be read. *)
Theorem deleted_project_is_not_listed (u v : User) (i : nat)
    (request view : HttpRequest) (w : World) (old p0 : Project) (t : nat) :
  user request = Some u -> method request = "POST" ->
  mvd_get "action" (POST request) = Some "delete" ->
  get_row i (db w) = Some old -> read_row old = Ok p0 ->
  user view = Some v ->
  let w1 := set_clock t (snd (project_detail i request w)) in
  (forall projects w2,
   project_list view w1
   = (Ok (render "construction/project_list.html" (projects_context projects)), w2) ->
   (forall p, In p projects -> id p <> Some i)
   /\ (forall r, In r (rows (db w)) -> id r <> Some i ->
       exists p, In p projects /\ read_row r = Ok p))
  /\ ((forall r, In r (rows (db w)) -> id r <> Some i -> exists p, read_row r = Ok p) ->
      exists projects w2,
        project_list view w1
        = (Ok (render "construction/project_list.html" (projects_context projects)),
           w2)).
Proof.
  intros Hu Hm Ha Hg Hread Hv w1.
  destruct (project_detail_delete_run u i request w old p0 Hu Hm Ha Hg Hread)
    as (w' & R & D & _).
  assert (Hw1 : w1 = set_clock t w') by (unfold w1; rewrite R; reflexivity).
  destruct (project_list_run v view w1 Hv) as (w2' & L & _).
  rewrite Hw1 in L. change (db (set_clock t w')) with (db w') in L.
  rewrite D in L. cbn [rows] in L. rewrite <- Hw1 in L.
  assert (Kept : forall r, In r (remove_row i (rows (db w)))
                           <-> In r (rows (db w)) /\ id r <> Some i).
  { intros r. unfold remove_row. rewrite filter_In. split; intros [HIn Hn]; split;
      try exact HIn.
    - intros Hid. apply has_id_true in Hid. rewrite Hid in Hn. discriminate Hn.
    - destruct (has_id i r) eqn:E; [| reflexivity].
      apply has_id_true in E. contradiction. }
  split.
  - intros projects w2 Run. rewrite L in Run.
    destruct (read_rows (order_by_created_desc (remove_row i (rows (db w)))))
      as [ps | e] eqn:Rs; [| discriminate Run].
    assert (ps = projects) as -> by congruence.
    split.
    + intros p HIn.
      destruct (read_rows_from _ _ p Rs HIn) as (r & Hr & Rr).
      apply (Permutation_in _ (order_by_created_desc_perm _)) in Hr.
      apply Kept in Hr as [_ Hid].
      destruct (read_row_fields r p Rr) as (-> & _). exact Hid.
    + intros r HIn Hid.
      apply (read_rows_in _ _ r Rs).
      apply (Permutation_in _ (Permutation_sym (order_by_created_desc_perm _))).
      apply Kept. split; assumption.
  - intros Readable.
    destruct (read_rows_readable (order_by_created_desc (remove_row i (rows (db w)))))
      as (ps & Rs).
    { intros r Hr. apply (Permutation_in _ (order_by_created_desc_perm _)) in Hr.
      apply Kept in Hr as [HIn Hid]. exact (Readable r HIn Hid). }
    rewrite Rs in L. exists ps, w2'. exact L.
Qed.

(** ** Failures *)

Lemma agree_email {B} (nm : NotificationManager) (to subject body sender : string)
    (k1 k2 : M B) :
  agree k1 k2 ->
  agree (bind (send_email nm to subject body sender) (fun _ => k1))
        (bind (send_email nm to subject body sender) (fun _ => k2)).
Proof.
  intros Hk w1 w2 (D & C & F & A & S). rewrite !bind_send_email. apply Hk.
  unfold alike. frames. repeat split; assumption.
Qed.

Lemma agree_sns {B} (nm : NotificationManager) (topic message : string)
    (subject : option string) (k1 k2 : M B) :
  agree k1 k2 ->
  agree (bind (send_sns_notification nm topic message subject) (fun _ => k1))
        (bind (send_sns_notification nm topic message subject) (fun _ => k2)).
Proof.
  intros Hk w1 w2 (D & C & F & A & S). rewrite !bind_send_sns. apply Hk.
  unfold alike. frames. repeat split; assumption.
Qed.

Lemma agree_create (request : HttpRequest) :
  agree (project_create request) (project_create request).
Proof.
  unfold project_create, login_required.
  destruct (user request) as [u |]; [| apply agree_ret].
  destruct (method request =? "POST"); [| apply agree_ret].
  cbv zeta. apply agree_bind; [unfold objects_create; apply agree_save |].
  intros project. apply agree_bind.
  - destruct (supplied (mvd_get "document" (FILES request))) as [f |];
      [| apply agree_ret].
    apply agree_bind; [apply agree_upload |].
    intros [|]; [| apply agree_ret].
    apply agree_bind; [apply agree_save |]. intros _.
    unfold log_file_upload. apply agree_log. apply agree_ret.
  - intros _. unfold announce_created. apply agree_log. apply agree_email.
    apply agree_bind.
    + destruct (high_priority (mvd_get "priority" (POST request)));
        [apply agree_sns |]; apply agree_ret.
    + intros _. apply agree_bind; [apply agree_message |]. intros _.
      apply agree_ret.
Qed.

Lemma as_user_same (request : HttpRequest) : as_user (user request) request = request.
Proof. destruct request. reflexivity. Qed.

(** X18.  What a project view answers, and the table, the flash messages and
    the document store it leaves, do not depend on whether the audit sink, the
    mail and the alerts work: from two states that differ only there, the same
    request on the same route has the same outcome. *)
Theorem outcome_does_not_depend_on_notifications (r : Route) (request : HttpRequest)
    (w1 w2 : World) :
  alike w1 w2 ->
  fst (resolve r request w1) = fst (resolve r request w2)
  /\ alike (snd (resolve r request w1)) (snd (resolve r request w2)).
Proof.
  intros H. destruct r as [| | i]; cbn [resolve].
  - destruct (user request) as [u |] eqn:Hu.
    + rewrite <- (as_user_same request), Hu. exact (agree_list u u request w1 w2 H).
    + unfold project_list. rewrite !(anonymous_redirected _ _ _ Hu).
      split; [reflexivity | exact H].
  - exact (agree_create request w1 w2 H).
  - destruct (user request) as [u |] eqn:Hu.
    + rewrite <- (as_user_same request), Hu. exact (agree_detail i u u request w1 w2 H).
    + unfold project_detail. rewrite !(anonymous_redirected _ _ _ Hu).
      split; [reflexivity | exact H].
Qed.

(** X19.  A project view answers with a server error in two cases only, and
    in both the table is as it was.  Either the persistence layer refused a
    submitted creation or a submitted update (a value its column does not
    convert, or a missing value); or a stored row could not be read, which
    makes the list fail when it is any row of the table, and makes the detail
    view fail, whatever it was asked to do, when it is the row asked for. *)
Theorem what_makes_a_view_fail (t : nat) (r : Route) (request : HttpRequest)
    (w : World) (e : exn) :
  db_wf (db w) ->
  fst (handle t r request w) = server_error e ->
  db (snd (handle t r request w)) = db w
  /\ ((persistence_error e /\ method request = "POST"
       /\ (r = create_route
           \/ exists i, r = detail_route i
                        /\ mvd_get "action" (POST request) = Some "update"))
      \/ (e = InvalidOperation
          /\ exists row,
               read_row row = Raise InvalidOperation
               /\ ((r = list_route /\ In row (rows (db w)))
                   \/ exists i, r = detail_route i /\ get_row i (db w) = Some row))).
Proof.
  intros W. unfold handle, serve.
  destruct (user request) as [u |] eqn:Hu.
  2:{ destruct r; cbn [resolve]; unfold project_list, project_create, project_detail;
        rewrite (anonymous_redirected _ _ _ Hu); discriminate. }
  destruct r as [| | i]; cbn [resolve].
  - destruct (project_list_run u request (set_clock t w) Hu) as (w' & R & D & _).
    rewrite R. change (db (set_clock t w)) with (db w) in *.
    destruct (read_rows (order_by_created_desc (rows (db w)))) as [ps | e'] eqn:Rs;
      [discriminate |].
    destruct (read_rows_raises _ _ Rs) as (-> & row & Hr & Bad).
    cbn. intros E. injection E as <-. split; [exact D |].
    right. split; [reflexivity |]. exists row. split; [exact Bad |].
    left. split; [reflexivity |].
    exact (Permutation_in _ (order_by_created_desc_perm _) Hr).
  - destruct (String.eqb_spec (method request) "POST") as [Hm | Hm].
    + pose proof (project_create_run u request (set_clock t w) Hu Hm W) as R.
      cbv zeta in R.
      destruct (prepare _) as [row | e'] eqn:P.
      * destruct R as (w' & R & _). rewrite R. discriminate.
      * rewrite R. pose proof (prepare_raises _ _ P) as [-> | ->]; cbn;
          intros E; injection E as <-;
          (split; [reflexivity |]); left;
          (split; [red; auto |]); (split; [exact Hm |]); left; reflexivity.
    + rewrite (create_form_is_shown u request (set_clock t w) Hu Hm). discriminate.
  - destruct (get_row i (db w)) as [old |] eqn:Hg.
    2:{ rewrite (project_detail_missing u i request (set_clock t w) Hu Hg).
        discriminate. }
    destruct (read_row old) as [p0 | e0] eqn:Hread.
    2:{ rewrite (project_detail_unreadable u i request (set_clock t w) old e0 Hu Hg Hread).
        pose proof (read_row_raises old e0 Hread) as ->.
        cbn. intros E. injection E as <-. split; [reflexivity |].
        right. split; [reflexivity |]. exists old. split; [exact Hread |].
        right. exists i. split; [reflexivity | exact Hg]. }
    destruct (plain_view request) eqn:Hv.
    { rewrite (project_detail_view_run u i request (set_clock t w) old p0 Hu Hv Hg Hread).
      destruct (show_project_run u p0 (set_clock t w)) as (w' & R & _).
      rewrite R. discriminate. }
    unfold plain_view in Hv.
    destruct (String.eqb_spec (method request) "POST") as [Hm | Hm];
      [| discriminate Hv].
    cbn [negb orb] in Hv.
    destruct (is_str (mvd_get "action" (POST request)) "update") eqn:Au.
    + apply is_str_true in Au.
      pose proof (project_detail_update_run u i request (set_clock t w) old p0
                    Hu Hm Au Hg Hread) as R.
      cbv zeta in R.
      destruct (prepare _) as [row | e'] eqn:P.
      * destruct R as (w' & R & _). rewrite R. discriminate.
      * destruct R as (w' & R & D & _). rewrite R.
        pose proof (prepare_raises _ _ P) as [-> | ->]; cbn;
          intros E; injection E as <-;
          (split; [exact D |]); left;
          (split; [red; auto |]); (split; [exact Hm |]);
          right; exists i; (split; [reflexivity | exact Au]).
    + cbn [negb andb] in Hv.
      destruct (is_str (mvd_get "action" (POST request)) "delete") eqn:Ad;
        [| discriminate Hv].
      apply is_str_true in Ad.
      destruct (project_detail_delete_run u i request (set_clock t w) old p0
                  Hu Hm Ad Hg Hread) as (w' & R & _).
      rewrite R. discriminate.
Qed.

(** X20.  A creation the persistence layer rejects leaves no trace at all: the
    view raises before any upload, audit record, mail, alert or message. *)
Theorem rejected_creation_leaves_no_trace (u : User) (request : HttpRequest)
    (w : World) (e : exn) :
  user request = Some u -> db_wf (db w) ->
  fst (project_create request w) = Raise e ->
  project_create request w = (Raise e, w) /\ persistence_error e.
Proof.
  intros Hu W.
  destruct (String.eqb_spec (method request) "POST") as [Hm | Hm].
  - pose proof (project_create_run u request w Hu Hm W) as R. cbv zeta in R.
    destruct (prepare _) as [row | e'] eqn:P.
    + destruct R as (w' & R & _). rewrite R. discriminate.
    + rewrite R. cbn. intros E. injection E as <-.
      split; [reflexivity | exact (prepare_raises _ _ P)].
  - rewrite (create_form_is_shown u request w Hu Hm). discriminate.
Qed.

(** X21.  An update of a stored project that can be read, when the
    persistence layer rejects it, keeps the stored row and queues no message,
    but its upload was already made: the file submitted with it was sent to
    the document store, and recorded as uploaded when the store took it,
    before the row was refused. *)
Theorem rejected_update_has_already_uploaded (u : User) (i : nat)
    (request : HttpRequest) (w : World) (old p0 : Project) (e : exn) :
  user request = Some u -> method request = "POST" ->
  mvd_get "action" (POST request) = Some "update" ->
  get_row i (db w) = Some old -> read_row old = Ok p0 ->
  fst (project_detail i request w) = Raise e ->
  let w' := snd (project_detail i request w) in
  persistence_error e
  /\ db w' = db w /\ flash w' = flash w
  /\ s3_calls (cloud w')
     = s3_calls (cloud w)
         ++ match supplied (mvd_get "document" (FILES request)) with
            | Some f => [(upload_fileobj f (AWS_S3_BUCKET_NAME settings)
                            (document_key i f), next_ok S3 w)]
            | None => []
            end
  /\ activities w'
     = activities w
         ++ match supplied (mvd_get "document" (FILES request)) with
            | Some f => if next_ok S3 w
                        then [upload_activity u f (mvd_get "name" (POST request))]
                        else []
            | None => []
            end.
Proof.
  intros Hu Hm Ha Hg Hread.
  pose proof (project_detail_update_run u i request w old p0 Hu Hm Ha Hg Hread) as R.
  cbv zeta in R.
  destruct (prepare _) as [row | e'] eqn:P.
  - destruct R as (w' & R & _). rewrite R. discriminate.
  - destruct R as (w' & R & D & F & S & A). rewrite R. cbn.
    intros E. injection E as <-.
    split; [exact (prepare_raises _ _ P) |].
    split; [exact D |]. split; [exact F |]. split; [exact S | exact A].
Qed.

(** ** Keys *)

Lemma replace_row_keys (i : nat) (row : Project) (l : list Project) :
  id row = Some i -> map id (replace_row i row l) = map id l.
Proof.
  intros Hrow. unfold replace_row.
  induction l as [| a l IH]; cbn [map]; [reflexivity |].
  rewrite IH. destruct (has_id i a) eqn:E; [| reflexivity].
  apply has_id_true in E. rewrite Hrow, E. reflexivity.
Qed.

Lemma remove_row_keys (i : nat) (l : list Project) :
  NoDup (map id l) -> NoDup (map id (remove_row i l)).
Proof.
  induction l as [| a l IH]; cbn; intros N; [constructor |].
  inversion N as [| x xs Hx Hxs]; subst.
  destruct (negb (has_id i a)); cbn; [| exact (IH Hxs)].
  constructor; [| exact (IH Hxs)].
  intros HIn. apply Hx. apply in_map_iff in HIn as (r & Hr & HInr).
  apply filter_In in HInr as [HInr _]. apply in_map_iff. exists r. split; assumption.
Qed.

Lemma db_step_keys (d d' : DB) :
  db_step d d' -> db_wf d -> NoDup (keys d) -> NoDup (keys d').
Proof.
  unfold keys. intros St W N. destruct St as [| row Hid _ | i row old _ Hid _ | i];
    cbn [rows].
  - exact N.
  - rewrite map_app. cbn [map]. rewrite Hid.
    apply NoDup_app; [exact N | repeat constructor; intros [] |].
    intros x HIn [<- | []].
    apply in_map_iff in HIn as (r & Hr & HInr).
    destruct (W r HInr) as [(j & Hj & Hlt) _]. rewrite Hj in Hr.
    injection Hr as ->. exact (Nat.lt_irrefl _ Hlt).
  - rewrite (replace_row_keys i row (rows d) Hid). exact N.
  - apply remove_row_keys. exact N.
Qed.

(** X22.  Whatever requests are served, on whatever routes, the keys of the
    table stay pairwise distinct, every key stays below the key sequence, and
    the sequence never goes back: a key that was given once is not given
    again, not even after its project was deleted. *)
Theorem keys_stay_unique (l : list (nat * Route * HttpRequest)) (w : World) :
  db_wf (db w) -> NoDup (keys (db w)) ->
  db_wf (db (handle_all l w))
  /\ NoDup (keys (db (handle_all l w)))
  /\ next_id (db w) <= next_id (db (handle_all l w)).
Proof.
  revert w. induction l as [| [[t r] request] rest IH]; intros w W N; cbn [handle_all].
  - split; [exact W |]. split; [exact N | apply Nat.le_refl].
  - pose proof (handle_step t r request w W) as St.
    destruct (db_step_wf _ _ St W) as (W' & Le & _).
    pose proof (db_step_keys _ _ St W N) as N'.
    destruct (IH _ W' N') as (W'' & N'' & Le').
    split; [exact W'' |]. split; [exact N'' |].
    exact (Nat.le_trans _ _ _ Le Le').
Qed.

(** ** The session views *)

Lemma lift_log {B} (self : CloudWatchLogger) (a : string) (p : option string)
    (u : string) (d : list (string * pyval)) (k : X B) (w : World) :
  xbind (lift (log_project_activity self a p u d)) (fun _ => k) w
  = k (logged self a p u d w).
Proof.
  destruct (log_project_activity_total self a p u d w) as (b & w' & E & _).
  unfold xbind, lift, logged. rewrite E. reflexivity.
Qed.

(** X23.  A login with credentials [authenticate] does not accept shows the
    login page again with one message, the same whichever of the two was
    wrong, leaves the session as it was, and is not recorded: no audit record
    is written and no call is made. *)
Theorem failed_login_is_not_recorded (authenticate : string -> string -> option User)
    (META : list (string * string)) (request : HttpRequest)
    (name_given password_given : string) (w : World) :
  method request = "POST" ->
  mvd_get "username" (POST request) = Some name_given ->
  mvd_get "password" (POST request) = Some password_given ->
  authenticate name_given password_given = None ->
  exists w',
    user_login authenticate META request w = (Returned (login_form request), w')
    /\ flash w' = flash w ++ ["Invalid username or password."]
    /\ activities w' = activities w /\ cloud w' = cloud w
    /\ db w' = db w /\ console w' = console w.
Proof.
  intros Hm Hu Hp Ha. unfold user_login, post_item. rewrite Hm, Hu, Hp.
  change ("POST" =? "POST") with true. cbv iota.
  unfold xbind at 1. unfold xret at 1. cbv beta iota.
  unfold xbind at 1. unfold xret at 1. cbv beta iota.
  rewrite Ha. unfold xbind, lift, messages_error, xret.
  eexists. split; [reflexivity |]. repeat split.
Qed.

(** X24.  A login with accepted credentials binds the session to the user
    [authenticate] gave, sends the client to the project list with one
    message, and writes one login record, under the name that was submitted
    and with the address of the client when the request has one.  The table
    and the other clients are left alone, and the login goes through when the
    audit sink does not. *)
Theorem login_binds_the_session_and_is_recorded
    (authenticate : string -> string -> option User)
    (META : list (string * string)) (request : HttpRequest)
    (name_given password_given : string) (u : User) (w : World) :
  method request = "POST" ->
  mvd_get "username" (POST request) = Some name_given ->
  mvd_get "password" (POST request) = Some password_given ->
  authenticate name_given password_given = Some u ->
  exists w',
    user_login authenticate META request w
    = (Returned {| response := redirect "project_list"; session := Some u |}, w')
    /\ activities w'
       = activities w
           ++ [{| act_type := "LOGIN"; act_project := Some "USER_AUTH";
                  act_user := name_given; act_details := login_details META |}]
    /\ flash w' = flash w ++ ["Login successful!"]
    /\ db w' = db w
    /\ s3_calls (cloud w') = s3_calls (cloud w)
    /\ ses_calls (cloud w') = ses_calls (cloud w)
    /\ sns_calls (cloud w') = sns_calls (cloud w).
Proof.
  intros Hm Hu Hp Ha. unfold user_login, post_item. rewrite Hm, Hu, Hp.
  change ("POST" =? "POST") with true. cbv iota.
  unfold xbind at 1. unfold xret at 1. cbv beta iota.
  unfold xbind at 1. unfold xret at 1. cbv beta iota.
  rewrite Ha. cbv zeta. unfold log_user_login. cbv zeta. rewrite lift_log.
  unfold xbind, lift, messages_success, xret.
  eexists. split; [reflexivity |]. frames.
  split; [| repeat split].
  unfold login_details, given.
  destruct (mvd_get "REMOTE_ADDR" META) as [ip |]; [| reflexivity].
  destruct (truthy ip); reflexivity.
Qed.

(** X25.  A POST to [user_login] that lacks the user name or the password
    raises [MultiValueDictKeyError] for the first of the two that is missing,
    before anything is done: [authenticate] is not asked and the state is as
    it was. *)
Theorem login_without_credentials_raises
    (authenticate : string -> string -> option User)
    (META : list (string * string)) (request : HttpRequest) (w : World) :
  method request = "POST" ->
  mvd_get "username" (POST request) = None
  \/ mvd_get "password" (POST request) = None ->
  user_login authenticate META request w
  = (Thrown (MultiValueDictKeyError
               (match mvd_get "username" (POST request) with
                | None => "username"
                | Some _ => "password"
                end)), w).
Proof.
  intros Hm H. unfold user_login, post_item. rewrite Hm.
  change ("POST" =? "POST") with true. cbv iota.
  destruct (mvd_get "username" (POST request)) as [n |]; [| reflexivity].
  destruct H as [H | H]; [discriminate H |]. rewrite H. reflexivity.
Qed.

(** X26.  [user_login] on a request that is not a POST shows the login page
    and does nothing else, whoever sends it. *)
Theorem login_page_is_shown_without_effect
    (authenticate : string -> string -> option User)
    (META : list (string * string)) (request : HttpRequest) (w : World) :
  method request <> "POST" ->
  user_login authenticate META request w = (Returned (login_form request), w).
Proof.
  intros Hm. unfold user_login.
  destruct (method request =? "POST") eqn:E; [| reflexivity].
  apply String.eqb_eq in E. contradiction.
Qed.

(** X27.  [user_logout] needs no session and never raises.  It clears the
    session, sends the client to the login page with one message, and writes
    one logout record, under the name of the user of the request or under
    [Anonymous] when there is none.  The table is left alone. *)
Theorem logout_always_succeeds (request : HttpRequest) (w : World) :
  exists w',
    user_logout request w
    = (Returned {| response := redirect "user_login"; session := None |}, w')
    /\ activities w'
       = activities w
           ++ [{| act_type := "LOGOUT"; act_project := Some "USER_AUTH";
                  act_user := leaver request; act_details := [] |}]
    /\ (user request = None -> leaver request = "Anonymous")
    /\ flash w' = flash w ++ ["You have been logged out successfully."]
    /\ db w' = db w
    /\ s3_calls (cloud w') = s3_calls (cloud w)
    /\ ses_calls (cloud w') = ses_calls (cloud w)
    /\ sns_calls (cloud w') = sns_calls (cloud w).
Proof.
  unfold user_logout. cbv zeta. fold (leaver request). rewrite lift_log.
  unfold xbind, lift, messages_success, xret.
  eexists. split; [reflexivity |]. frames.
  split; [reflexivity |].
  split; [intros H; unfold leaver; rewrite H; reflexivity |].
  repeat split.
Qed.

(** ** The command [init_construction] *)

Lemma xbind_run {A B} (m : X A) (k : A -> X B) (w w1 : World) (x : A) :
  m w = (Returned x, w1) -> xbind m k w = k x w1.
Proof. intros E. unfold xbind. rewrite E. reflexivity. Qed.

Lemma lift_write {B} (text : string) (k : X B) (w : World) :
  xbind (lift (stdout_write text)) (fun _ => k) w = k (wrote text w).
Proof. reflexivity. Qed.

Lemma lift_today {B} (cal : Calendar) (k : date -> X B) (w : World) :
  xbind (lift (date_today cal)) k w = k (date_of cal (clock w)) w.
Proof. reflexivity. Qed.

Lemma lift_create {B} (n d l : string) (s e : date) (b : decimal) (st pr : string)
    (m : nat) (k : X B) (w : World) :
  xbind (lift (objects_create (Some n) (Some d) (Some l) (Val s) (Val e) (Val b)
                 (Some st) (Some pr) m)) (fun _ => k) w
  = k (set_db {| rows := rows (db w)
                   ++ [written (next_id (db w)) (clock w) n d l s e b st pr m];
                 next_id := S (next_id (db w)) |} w).
Proof. reflexivity. Qed.

Lemma only_stored_refl (w : World) : only_stored w w.
Proof. repeat split. Qed.

Lemma only_stored_trans (w1 w2 w3 : World) :
  only_stored w1 w2 -> only_stored w2 w3 -> only_stored w1 w3.
Proof.
  unfold only_stored. intros (C & K & A & F) (C' & K' & A' & F').
  repeat split; congruence.
Qed.

Lemma wrote_stored (text : string) (w : World) :
  only_stored w (wrote text w) /\ db (wrote text w) = db w.
Proof. repeat split. Qed.

Lemma create_samples_run (cal : Calendar) (admin_user : User) (w : World) :
  exists w',
    create_samples cal admin_user w = (Returned tt, w')
    /\ db w'
       = {| rows := rows (db w)
              ++ sample_rows cal (user_id admin_user) (next_id (db w)) (clock w);
            next_id := S (S (S (next_id (db w)))) |}
    /\ only_stored w w' /\ console w' = console w.
Proof.
  unfold create_samples.
  rewrite !lift_today, lift_create.
  rewrite !lift_today, lift_create.
  rewrite !lift_today, lift_create.
  unfold xret. eexists. split; [reflexivity |].
  cbn [db set_db clock cloud activities flash console rows next_id].
  rewrite <- !app_assoc. cbn [app].
  repeat split.
Qed.

Lemma named_admin (i : nat) : named "admin" (new_admin i) = true.
Proof. reflexivity. Qed.

Lemma find_exists {A} (f : A -> bool) (l : list A) :
  existsb f l = true -> exists x, find f l = Some x.
Proof.
  induction l as [| a l IH]; cbn; [discriminate |].
  destruct (f a) eqn:E; [intros _; exists a; reflexivity |].
  exact IH.
Qed.

Lemma find_absent {A} (f : A -> bool) (l : list A) (x : A) :
  existsb f l = false -> f x = true -> find f (l ++ [x]) = Some x.
Proof.
  induction l as [| a l IH]; cbn; intros H Hx; [rewrite Hx; reflexivity |].
  destruct (f a); [discriminate H |]. exact (IH H Hx).
Qed.

Lemma existsb_snoc {A} (f : A -> bool) (l : list A) (x : A) :
  f x = true -> existsb f (l ++ [x]) = true.
Proof.
  intros Hx. rewrite existsb_app. cbn. rewrite Hx. apply orb_true_iff.
  right. reflexivity.
Qed.

Lemma with_admin_exists (a : Auth) : username_exists "admin" (with_admin a) = true.
Proof.
  unfold with_admin. destruct (username_exists "admin" a) eqn:Ex; [exact Ex |].
  unfold username_exists. cbn [accounts]. apply existsb_snoc, named_admin.
Qed.

Lemma with_admin_found (a : Auth) :
  exists admin, find (named "admin") (accounts (with_admin a)) = Some admin.
Proof. apply find_exists. exact (with_admin_exists a). Qed.

Lemma ensure_superuser_run (a : Auth) (w : World) :
  exists w',
    ensure_superuser a w = (Returned (with_admin a), w')
    /\ only_stored w w' /\ db w' = db w.
Proof.
  unfold ensure_superuser, with_admin, create_superuser.
  destruct (username_exists "admin" a); cbn [negb].
  - rewrite lift_write. unfold xret. eexists. split; [reflexivity |].
    apply wrote_stored.
  - unfold xbind at 1. unfold xret at 1. cbv beta iota.
    rewrite lift_write. unfold xret. eexists. split; [reflexivity |].
    apply wrote_stored.
Qed.

Lemma ensure_samples_run (cal : Calendar) (a : Auth) (admin : Account) (w : World) :
  find (named "admin") (accounts a) = Some admin ->
  exists w',
    ensure_samples cal a w = (Returned tt, w')
    /\ db w'
       = match rows (db w) with
         | [] => {| rows := sample_rows cal (user_id (account admin))
                              (next_id (db w)) (clock w);
                    next_id := S (S (S (next_id (db w)))) |}
         | _ :: _ => db w
         end
    /\ only_stored w w'.
Proof.
  intros F. unfold ensure_samples.
  unfold xbind at 1. unfold lift at 1, objects_exists at 1.
  destruct (rows (db w)) as [| r rest] eqn:R; cbv beta iota; cbn [negb].
  - unfold get_user. rewrite F.
    unfold xbind at 1. unfold xret at 1. cbv beta iota.
    destruct (create_samples_run cal (account admin) w) as (w1 & E & D & S & _).
    rewrite (xbind_run _ _ _ _ _ E).
    unfold lift, stdout_write, print. eexists. split; [reflexivity |].
    cbn [db]. rewrite D, R. split; [reflexivity |].
    destruct S as (C & K & A & L). repeat split; assumption.
  - unfold lift, stdout_write, print. eexists. split; [reflexivity |].
    repeat split.
Qed.

Lemma Command_handle_run (cal : Calendar) (a : Auth) (w : World) :
  exists admin w',
    find (named "admin") (accounts (with_admin a)) = Some admin
    /\ Command_handle cal a w = (Returned (with_admin a), w')
    /\ db w'
       = match rows (db w) with
         | [] => {| rows := sample_rows cal (user_id (account admin))
                              (next_id (db w)) (clock w);
                    next_id := S (S (S (next_id (db w)))) |}
         | _ :: _ => db w
         end
    /\ only_stored w w'.
Proof.
  destruct (with_admin_found a) as (admin & F). exists admin.
  unfold Command_handle. rewrite lift_write.
  destruct (ensure_superuser_run a (wrote "Initializing Construction Management App..." w))
    as (w1 & E1 & S1 & D1).
  rewrite (xbind_run _ _ _ _ _ E1).
  destruct (ensure_samples_run cal (with_admin a) admin w1 F) as (w2 & E2 & D2 & S2).
  rewrite (xbind_run _ _ _ _ _ E2). rewrite lift_write. unfold xret.
  eexists. split; [exact F |]. split; [reflexivity |].
  destruct (wrote_stored "Initializing Construction Management App..." w) as (S0 & D0).
  destruct (wrote_stored done_text w2) as (S3 & D3).
  split.
  - rewrite D3, D2, D1, D0. destruct S1 as (C1 & _). destruct S0 as (C0 & _).
    rewrite C1, C0. reflexivity.
  - exact (only_stored_trans _ _ _ S0
             (only_stored_trans _ _ _ S1 (only_stored_trans _ _ _ S2 S3))).
Qed.

(** X28.  [Command.handle] never raises, whatever the user table and the
    project table hold.  Afterwards an account named [admin] exists: an
    existing one is left as it is, password and rights included; otherwise a
    superuser is added under the next key.  Beside the two tables the command
    only writes to the console. *)
Theorem init_always_completes (cal : Calendar) (a : Auth) (w : World) :
  exists a' w',
    Command_handle cal a w = (Returned a', w')
    /\ username_exists "admin" a' = true
    /\ (username_exists "admin" a = true -> a' = a)
    /\ (username_exists "admin" a = false ->
        a' = {| accounts := accounts a ++ [new_admin (next_user a)];
                next_user := S (next_user a) |})
    /\ only_stored w w'.
Proof.
  destruct (Command_handle_run cal a w) as (admin & w' & _ & E & _ & S).
  exists (with_admin a), w'. split; [exact E |].
  split; [apply with_admin_exists |].
  unfold with_admin. split; [intros ->; reflexivity |].
  split; [intros ->; reflexivity | exact S].
Qed.


(** X30.  Running [Command.handle] again, at any later time, changes neither
    the user table nor the project table the first run left. *)
Theorem init_is_idempotent (cal : Calendar) (a a1 : Auth) (w w1 : World) (t : nat) :
  Command_handle cal a w = (Returned a1, w1) ->
  exists w2,
    Command_handle cal a1 (set_clock t w1) = (Returned a1, w2)
    /\ db w2 = db w1.
Proof.
  intros Run.
  destruct (Command_handle_run cal a w) as (admin & w' & _ & E & D & _).
  rewrite E in Run. injection Run as <- <-.
  destruct (Command_handle_run cal (with_admin a) (set_clock t w'))
    as (admin2 & w2 & _ & E2 & D2 & _).
  assert (Same : with_admin (with_admin a) = with_admin a).
  { unfold with_admin at 1. rewrite with_admin_exists. reflexivity. }
  rewrite Same in E2. exists w2. split; [exact E2 |].
  rewrite D2. change (db (set_clock t w')) with (db w').
  assert (NE : rows (db w') <> []).
  { destruct (rows (db w)) as [| r rest] eqn:R; rewrite D.
    - cbn [rows sample_rows]. discriminate.
    - rewrite R. discriminate. }
  destruct (rows (db w')); [contradiction NE; reflexivity | reflexivity].
Qed.

End Construction.

(** * Worked examples *)

(** A date column that takes ten characters. *)
Definition ten_chars (s : string) : option string :=
  if Nat.eqb (String.length s) 10 then Some s else None.

(** ** A decimal column of twelve digits, two of them after the point *)

(** A [decimal.Decimal] that is a plain numeral: its digits as one number and
    the number of them that stand after the point. *)
Record Amount := { coefficient : N; places : nat }.

Definition digit (c : ascii) : option N :=
  let n := N_of_ascii c in
  if (48 <=? n)%N && (n <=? 57)%N then Some (n - 48)%N else None.

(** The digits of [s] appended to [acc], and how many they are. *)
Fixpoint digits (s : string) (acc : N) (count : nat) : option (N * nat) :=
  match s with
  | EmptyString => Some (acc, count)
  | String c rest =>
      match digit c with
      | Some d => digits rest (10 * acc + d)%N (S count)
      | None => None
      end
  end.

(** [s] up to its first point, and what follows the point when there is one. *)
Fixpoint split_point (s : string) : string * option string :=
  match s with
  | EmptyString => (EmptyString, None)
  | String c rest =>
      if Ascii.eqb c "."
      then (EmptyString, Some rest)
      else let (whole, fraction) := split_point rest in (String c whole, fraction)
  end.

(** [DecimalField.to_python] on the plain numerals: digits, with at most one
    point among them, and at least one digit. *)
Definition amount_of_text (s : string) : option Amount :=
  let (whole, fraction) := split_point s in
  match digits whole 0 0 with
  | Some (n, k) =>
      match fraction with
      | None => if Nat.eqb k 0 then None else Some {| coefficient := n; places := 0 |}
      | Some f =>
          match digits f n 0 with
          | Some (m, j) =>
              if Nat.eqb (k + j) 0 then None else Some {| coefficient := m; places := j |}
          | None => None
          end
      end
  | None => None
  end.

Definition pow10 (k : nat) : N := N.pow 10 (N.of_nat k).

(** [n / unit], rounded to the nearest number, a half to the even one. *)
Definition round_half_even (n unit : N) : N :=
  let q := (n / unit)%N in
  let r := (n mod unit)%N in
  if (2 * r <? unit)%N then q
  else if (unit <? 2 * r)%N then (q + 1)%N
  else if N.even q then q else (q + 1)%N.

(** What a query gives back for a stored amount: the amount at two places,
    when that has at most twelve digits. *)
Definition read_amount (a : Amount) : option Amount :=
  let c := if Nat.leb (places a) 2
           then (coefficient a * pow10 (2 - places a))%N
           else round_half_even (coefficient a) (pow10 (places a - 2)) in
  if (c <? pow10 12)%N then Some {| coefficient := c; places := 2 |} else None.

Definition text_of (n : N) : string := NilZero.string_of_uint (N.to_uint n).

Fixpoint zeros (k : nat) : string :=
  match k with
  | 0 => EmptyString
  | S k' => String "0" (zeros k')
  end.

(** [str] of an amount. *)
Definition str_amount (a : Amount) : string :=
  match places a with
  | 0 => text_of (coefficient a)
  | S _ =>
      let fraction := text_of (coefficient a mod pow10 (places a)) in
      text_of (coefficient a / pow10 (places a)) ++ "."
        ++ zeros (places a - String.length fraction) ++ fraction
  end.

Example amount_of_text_plain :
  amount_of_text "2750000.00" = Some {| coefficient := 275000000; places := 2 |}
  /\ amount_of_text "100.999" = Some {| coefficient := 100999; places := 3 |}
  /\ amount_of_text "12" = Some {| coefficient := 12; places := 0 |}
  /\ amount_of_text EmptyString = None
  /\ amount_of_text "." = None
  /\ amount_of_text "12a" = None.
Proof. repeat split. Qed.

Example read_amount_rounds_and_refuses :
  read_amount {| coefficient := 275000000; places := 2 |}
  = Some {| coefficient := 275000000; places := 2 |}
  /\ read_amount {| coefficient := 100999; places := 3 |}
     = Some {| coefficient := 10100; places := 2 |}
  /\ read_amount {| coefficient := 12; places := 0 |}
     = Some {| coefficient := 1200; places := 2 |}
  /\ read_amount {| coefficient := 999999999999; places := 2 |}
     = Some {| coefficient := 999999999999; places := 2 |}
  /\ read_amount {| coefficient := 1000000000000; places := 2 |} = None
  /\ read_amount {| coefficient := 1234567890123400; places := 2 |} = None.
Proof. vm_compute. repeat split. Qed.

Example str_amount_plain :
  str_amount {| coefficient := 275000000; places := 2 |} = "2750000.00"
  /\ str_amount {| coefficient := 10100; places := 2 |} = "101.00"
  /\ str_amount {| coefficient := 5; places := 2 |} = "0.05"
  /\ str_amount {| coefficient := 12; places := 0 |} = "12".
Proof. vm_compute. repeat split. Qed.

(** ** The process *)

Definition site : Settings :=
  {| AWS_CLOUDWATCH_LOG_GROUP := "construction-logs";
     AWS_REGION := "eu-north-1";
     AWS_S3_BUCKET_NAME := "construction-docs";
     AWS_SES_SENDER_EMAIL := "noreply@example.org";
     AWS_SNS_TOPIC_ARN := "arn:aws:sns:eu-north-1:1:alerts";
     LOGIN_URL := "/construction/login/" |}.

Definition day : string := "2026-11-03".

(** A process one hour west of UTC: the time of the clock, read as local
    time, is one hour later. *)
Definition west (t : nat) : Z := (Z.of_nat t + 3600)%Z.

(** Every call goes through; the document store is down; the document store
    takes one call and is down afterwards. *)
Definition all_up : client -> nat -> bool := fun _ _ => true.

Definition s3_down : client -> nat -> bool :=
  fun c _ => match c with S3 => false | _ => true end.

Definition s3_once : client -> nat -> bool :=
  fun c n => match c with S3 => Nat.eqb n 0 | _ => true end.

(** The state of a process that has served nothing yet, at time [t]. *)
Definition fresh (oracle : client -> nat -> bool) (t : nat) : @World string Amount :=
  {| db := {| rows := []; next_id := 1 |};
     clock := t;
     cloud := {| aws := oracle; logs_calls := []; s3_calls := [];
                 ses_calls := []; sns_calls := [] |};
     activities := []; console := []; flash := [] |}.

Definition alice : User := {| user_id := 7; username := "alice"; email := "alice@example.org" |}.
Definition bob : User := {| user_id := 8; username := "bob"; email := EmptyString |}.

Definition fields (name priority : string) : list (string * string) :=
  [("name", name); ("description", "Two lanes"); ("location", "Route 95");
   ("start_date", "2026-12-01"); ("end_date", "2027-06-30");
   ("budget", "2750000.00"); ("priority", priority)].

Definition form (name status priority : string) : list (string * string) :=
  fields name priority ++ [("status", status)].

(** A complete form for a tower of the given budget. *)
Definition priced (budget : string) : list (string * string) :=
  [("name", "Tower"); ("description", "Forty floors"); ("location", "Pier 4");
   ("start_date", "2026-12-01"); ("end_date", "2029-06-30");
   ("budget", budget); ("status", "Planning"); ("priority", "Low")].

Definition plan : File := {| file_name := "plan.pdf"; file_body := "%PDF-1.7" |}.
Definition plan2 : File := {| file_name := "plan-v2.pdf"; file_body := "%PDF-1.7" |}.

Definition post (u : User) (fields : list (string * string))
    (files : list (string * File)) : HttpRequest :=
  {| method := "POST"; user := Some u; POST := fields; FILES := files |}.

Definition get (u : User) : HttpRequest :=
  {| method := "GET"; user := Some u; POST := []; FILES := [] |}.

Definition create_bridge : HttpRequest :=
  post alice (form "Bridge" "Planning" "High") [("document", plan)].

(** The same form without its status field. *)
Definition create_without_status : HttpRequest :=
  post alice (fields "Bridge" "High") [].

(** A budget of sixteen digits, and one of three places after the point. *)
Definition create_costly : HttpRequest := post alice (priced "12345678901234.00") [].

Definition create_fine : HttpRequest := post alice (priced "100.999") [].

Definition update_bridge : HttpRequest :=
  post bob (("action", "update") :: form "Bridge II" "In Progress" "Critical")
    [("document", plan2)].

Definition update_without_status : HttpRequest :=
  post bob (("action", "update") :: fields "Bridge II" "Critical") [].

Definition delete_bridge : HttpRequest := post bob [("action", "delete")] [].

Abbreviation create_view := (project_create ten_chars amount_of_text site day west).
Abbreviation detail_view :=
  (project_detail ten_chars amount_of_text str_amount read_amount site day west).
Abbreviation list_view := (@project_list string Amount read_amount site day west).
Abbreviation serve_at :=
  (handle ten_chars amount_of_text str_amount read_amount site day west).
Abbreviation serve_all :=
  (handle_all ten_chars amount_of_text str_amount read_amount site day west).
Abbreviation route_to :=
  (resolve ten_chars amount_of_text str_amount read_amount site day west).
Abbreviation lookup := (@get_object_or_404 string Amount read_amount).
Abbreviation read := (@read_row string Amount read_amount).

(** The state after [create_bridge] was served at time 10. *)
Definition after_create (oracle : client -> nat -> bool) : @World string Amount :=
  snd (create_view create_bridge (fresh oracle 10)).

(** The states after the tower was created at time 10. *)
Definition after_costly : @World string Amount :=
  snd (create_view create_costly (fresh all_up 10)).

Definition after_fine : @World string Amount :=
  snd (create_view create_fine (fresh all_up 10)).

Lemma fresh_wf (oracle : client -> nat -> bool) (t : nat) : db_wf (db (fresh oracle t)).
Proof. intros r []. Qed.

Lemma after_create_wf (oracle : client -> nat -> bool) : db_wf (db (after_create oracle)).
Proof.
  apply (project_create_wf ten_chars amount_of_text site day west create_bridge
           (fresh oracle 10) _ (fst (create_view create_bridge (fresh oracle 10)))).
  - apply fresh_wf.
  - unfold after_create. apply surjective_pairing.
Qed.

Lemma after_costly_wf : db_wf (db after_costly).
Proof.
  apply (project_create_wf ten_chars amount_of_text site day west create_costly
           (fresh all_up 10) _ (fst (create_view create_costly (fresh all_up 10)))).
  - apply fresh_wf.
  - unfold after_costly. apply surjective_pairing.
Qed.

Lemma set_clock_wf (t : nat) (w : @World string Amount) :
  db_wf (db w) -> db_wf (db (set_clock t w)).
Proof. intros W. exact W. Qed.

(** A run that returns [a] is the pair of [a] and the state it leaves. *)
Lemma run_fst {A W} (p : A * W) (a : A) : fst p = a -> p = (a, snd p).
Proof. destruct p as [x w]. cbn. intros ->. reflexivity. Qed.

Lemma create_bridge_acceptable : acceptable ten_chars amount_of_text create_bridge.
Proof.
  unfold acceptable. cbn.
  repeat split; try discriminate; eexists _, _; split; reflexivity.
Qed.

Lemma update_bridge_acceptable : acceptable ten_chars amount_of_text update_bridge.
Proof.
  unfold acceptable. cbn.
  repeat split; try discriminate; eexists _, _; split; reflexivity.
Qed.

Lemma create_costly_acceptable : acceptable ten_chars amount_of_text create_costly.
Proof.
  unfold acceptable. cbn.
  repeat split; try discriminate; eexists _, _; split; reflexivity.
Qed.

Lemma create_fine_acceptable : acceptable ten_chars amount_of_text create_fine.
Proof.
  unfold acceptable. cbn.
  repeat split; try discriminate; eexists _, _; split; reflexivity.
Qed.

Lemma update_without_status_unacceptable :
  ~ acceptable ten_chars amount_of_text update_without_status.
Proof. unfold acceptable. cbn. intros H. decompose [and] H. congruence. Qed.

(** The project [create_bridge] leaves in the table when every call goes
    through. *)
Definition stored_bridge : @Project string Amount :=
  {| id := Some 1; name := Some "Bridge"; description := Some "Two lanes";
     location := Some "Route 95"; start_date := Val "2026-12-01";
     end_date := Val "2027-06-30";
     budget := Val {| coefficient := 275000000; places := 2 |};
     status := Some "Planning"; priority := Some "High"; manager := 7;
     document := Some "project_documents/1_plan.pdf";
     created_at := Some 10; updated_at := Some 10 |}.

(** The tower as [create_costly] leaves it in the table. *)
Definition stored_tower : @Project string Amount :=
  {| id := Some 1; name := Some "Tower"; description := Some "Forty floors";
     location := Some "Pier 4"; start_date := Val "2026-12-01";
     end_date := Val "2029-06-30";
     budget := Val {| coefficient := 1234567890123400; places := 2 |};
     status := Some "Planning"; priority := Some "Low"; manager := 7;
     document := None;
     created_at := Some 10; updated_at := Some 10 |}.

Lemma bridge_is_stored (t : nat) :
  get_row 1 (db (set_clock t (after_create all_up))) = Some stored_bridge.
Proof. vm_compute. reflexivity. Qed.

Lemma tower_is_stored (t : nat) :
  get_row 1 (db (set_clock t after_costly)) = Some stored_tower.
Proof. vm_compute. reflexivity. Qed.

Lemma bridge_is_readable : read stored_bridge = Ok stored_bridge.
Proof. vm_compute. reflexivity. Qed.

Lemma tower_is_unreadable : read stored_tower = Raise InvalidOperation.
Proof. vm_compute. reflexivity. Qed.

Definition create_named (name : string) : HttpRequest :=
  post alice (form name "Planning" "Low") [].

Definition after_a : @World string Amount :=
  snd (create_view (create_named "A") (fresh all_up 10)).
Definition after_b : @World string Amount :=
  snd (create_view (create_named "B") (set_clock 20 after_a)).
Definition after_c : @World string Amount :=
  snd (create_view (create_named "C") (set_clock 30 after_b)).

(** The third project is the tower. *)
Definition after_tower : @World string Amount :=
  snd (create_view create_costly (set_clock 30 after_b)).

Definition to_list : @HttpResponse string Amount := redirect "project_list".

Definition later_requests : list (nat * Route * HttpRequest) :=
  [(30, create_route, create_bridge); (31, list_route, get alice);
   (32, detail_route 1, delete_bridge)].

(** ** C1 *)

Lemma created_project_holds_submitted_values_witness :
  exists w' row v,
    create_view create_bridge (fresh all_up 10) = (Ok (redirect "project_list"), w')
    /\ get_row 1 (db w') = Some row
    /\ holds_form ten_chars amount_of_text create_bridge row
    /\ manager row = 7
    /\ budget row = Val v
    /\ lookup 1 w'
       = (match read_amount v with
          | Some v' => Ok (with_budget (Val v') row)
          | None => Raise InvalidOperation
          end, w').
Proof.
  exact (proj1 (created_project_holds_submitted_values ten_chars amount_of_text
                  read_amount site day west alice create_bridge (fresh all_up 10)
                  eq_refl eq_refl (fresh_wf all_up 10))
               create_bridge_acceptable).
Defined.

(** Three submissions whose values do not come back.  Without a status the
    view raises and no project, with status Planning or any other, is stored.
    A budget of sixteen digits is stored, and looking the project up raises.
    A budget of three places is stored, and comes back rounded to two. *)
Lemma submitted_values_do_not_always_come_back :
  (mvd_get "status" (POST create_without_status) = None
   /\ fst (create_view create_without_status (fresh all_up 10)) = Raise IntegrityError
   /\ ~ (exists row,
           In row (rows (db (snd (create_view create_without_status
                                    (fresh all_up 10)))))
           /\ status row = Some "Planning"))
  /\ (mvd_get "budget" (POST create_costly) = Some "12345678901234.00"
      /\ fst (create_view create_costly (fresh all_up 10)) = Ok to_list
      /\ get_row 1 (db after_costly) = Some stored_tower
      /\ fst (lookup 1 after_costly) = Raise InvalidOperation)
  /\ (mvd_get "budget" (POST create_fine) = Some "100.999"
      /\ fst (create_view create_fine (fresh all_up 10)) = Ok to_list
      /\ amount_of_text "100.999" = Some {| coefficient := 100999; places := 3 |}
      /\ exists p,
           fst (lookup 1 after_fine) = Ok p
           /\ budget p = Val {| coefficient := 10100; places := 2 |}
           /\ str_budget str_amount (budget p) = "101.00").
Proof.
  split; [| split].
  - split; [reflexivity |]. split; [vm_compute; reflexivity |].
    intros (row & HIn & _). vm_compute in HIn. exact HIn.
  - split; [reflexivity |]. split; [vm_compute; reflexivity |].
    split; vm_compute; reflexivity.
  - split; [reflexivity |]. split; [vm_compute; reflexivity |].
    split; [vm_compute; reflexivity |].
    eexists. split; [vm_compute; reflexivity |].
    split; vm_compute; reflexivity.
Qed.

(** The default of the model is what the constructor fills in when it is called
    without a status. *)
Example status_default_of_constructor :
  status (@Project_init string Amount (Some "Bridge") None None Null Null Null
            None None 7)
  = Some "Planning".
Proof. reflexivity. Qed.

(** ** C2 *)

Lemma creation_notifies_witness :
  (exists sent_ok,
     ses_calls (cloud (after_create all_up))
     = ses_calls (cloud (fresh all_up 10))
         ++ [(creation_email site alice create_bridge, sent_ok)])
  /\ (mvd_get "priority" (POST create_bridge) = Some "High"
      \/ mvd_get "priority" (POST create_bridge) = Some "Critical" ->
      exists published_ok,
        sns_calls (cloud (after_create all_up))
        = sns_calls (cloud (fresh all_up 10))
            ++ [(creation_alert site create_bridge, published_ok)])
  /\ (~ (mvd_get "priority" (POST create_bridge) = Some "High"
         \/ mvd_get "priority" (POST create_bridge) = Some "Critical") ->
      sns_calls (cloud (after_create all_up)) = sns_calls (cloud (fresh all_up 10))).
Proof.
  apply (creation_notifies ten_chars amount_of_text site day west alice create_bridge
           (fresh all_up 10) (after_create all_up) (redirect "project_list")).
  - reflexivity.
  - reflexivity.
  - apply fresh_wf.
  - refine (run_fst _ _ _). vm_compute. reflexivity.
Defined.

(** ** C3 *)

Lemma failed_upload_keeps_project_witness :
  Ok to_list = Ok to_list
  /\ exists row,
       rows (db (after_create s3_down)) = rows (db (fresh s3_down 10)) ++ [row]
       /\ get_row (next_id (db (fresh s3_down 10))) (db (after_create s3_down))
          = Some row
       /\ holds_form ten_chars amount_of_text create_bridge row
       /\ manager row = user_id alice
       /\ document row = None.
Proof.
  apply (failed_upload_keeps_project ten_chars amount_of_text site day west alice
           create_bridge (fresh s3_down 10) (after_create s3_down) (Ok to_list)
           plan "construction-docs" "project_documents/1_plan.pdf").
  - reflexivity.
  - reflexivity.
  - apply fresh_wf.
  - reflexivity.
  - refine (run_fst _ _ _). vm_compute. reflexivity.
  - vm_compute. reflexivity.
Defined.

(** ** C4 *)

Lemma update_overwrites_every_field_witness :
  (acceptable ten_chars amount_of_text update_bridge ->
   exists response w' row before,
     detail_view 1 update_bridge (set_clock 20 (after_create all_up))
     = (Ok response, w')
     /\ get_row 1 (db w') = Some row
     /\ holds_form ten_chars amount_of_text update_bridge row
     /\ document row
        = match supplied (mvd_get "document" (FILES update_bridge)) with
          | Some f => if next_ok S3 (set_clock 20 (after_create all_up))
                      then Some (document_key 1 f) else document stored_bridge
          | None => document stored_bridge
          end
     /\ activities w'
        = activities (set_clock 20 (after_create all_up)) ++ before
            ++ [update_record bob update_bridge; view_activity bob row])
  /\ (~ acceptable ten_chars amount_of_text update_without_status ->
      exists e w',
        persistence_error e
        /\ detail_view 1 update_without_status (set_clock 20 (after_create all_up))
           = (Raise e, w')
        /\ db w' = db (set_clock 20 (after_create all_up))
        /\ activities w'
           = activities (set_clock 20 (after_create all_up))
               ++ upload_activities bob update_without_status
                    (next_ok S3 (set_clock 20 (after_create all_up))))
  /\ detail_view 1 update_bridge (set_clock 20 after_costly)
     = (Raise InvalidOperation, set_clock 20 after_costly).
Proof.
  split; [| split].
  - refine (proj1 (update_overwrites_every_field ten_chars amount_of_text str_amount
                     read_amount site day west bob 1 update_bridge
                     (set_clock 20 (after_create all_up)) stored_bridge
                     eq_refl eq_refl eq_refl _ _) stored_bridge _).
    + apply set_clock_wf, after_create_wf.
    + apply bridge_is_stored.
    + exact bridge_is_readable.
  - refine (proj1 (proj2 (update_overwrites_every_field ten_chars amount_of_text
                            str_amount read_amount site day west bob 1
                            update_without_status
                            (set_clock 20 (after_create all_up)) stored_bridge
                            eq_refl eq_refl eq_refl _ _)) stored_bridge _).
    + apply set_clock_wf, after_create_wf.
    + apply bridge_is_stored.
    + exact bridge_is_readable.
  - refine (proj2 (proj2 (update_overwrites_every_field ten_chars amount_of_text
                            str_amount read_amount site day west bob 1
                            update_bridge (set_clock 20 after_costly) stored_tower
                            eq_refl eq_refl eq_refl _ _)) InvalidOperation _).
    + apply set_clock_wf, after_costly_wf.
    + apply tower_is_stored.
    + exact tower_is_unreadable.
Defined.

(** An update whose upload fails keeps the previous document key; an update
    whose form lacks a field raises, overwrites nothing and leaves no update
    record; and an update of a project whose budget cannot be read raises
    whatever the form, and overwrites nothing. *)
Lemma update_is_not_unconditional :
  (mvd_get "document" (FILES update_bridge) = Some plan2
   /\ exists response row,
        fst (detail_view 1 update_bridge (set_clock 20 (after_create s3_once)))
        = Ok response
        /\ get_row 1 (db (snd (detail_view 1 update_bridge
                                 (set_clock 20 (after_create s3_once)))))
           = Some row
        /\ document row = Some "project_documents/1_plan.pdf"
        /\ document row <> Some (document_key 1 plan2))
  /\ (fst (detail_view 1 update_without_status (set_clock 20 (after_create s3_once)))
      = Raise IntegrityError
      /\ mvd_get "name" (POST update_without_status) = Some "Bridge II"
      /\ (exists row,
            get_row 1 (db (snd (detail_view 1 update_without_status
                                  (set_clock 20 (after_create s3_once)))))
            = Some row
            /\ name row = Some "Bridge")
      /\ activities (snd (detail_view 1 update_without_status
                            (set_clock 20 (after_create s3_once))))
         = activities (after_create s3_once))
  /\ (fst (detail_view 1 update_bridge (set_clock 20 after_costly))
      = Raise InvalidOperation
      /\ mvd_get "name" (POST update_bridge) = Some "Bridge II"
      /\ get_row 1 (db (snd (detail_view 1 update_bridge (set_clock 20 after_costly))))
         = Some stored_tower
      /\ name stored_tower = Some "Tower"
      /\ activities (snd (detail_view 1 update_bridge (set_clock 20 after_costly)))
         = activities after_costly).
Proof.
  split; [| split].
  - split; [reflexivity |]. eexists _, _.
    split; [vm_compute; reflexivity |].
    split; [vm_compute; reflexivity |].
    split; [reflexivity | discriminate].
  - split; [vm_compute; reflexivity |].
    split; [reflexivity |].
    split; [| vm_compute; reflexivity].
    eexists. split; [vm_compute; reflexivity | reflexivity].
  - split; [vm_compute; reflexivity |].
    split; [reflexivity |].
    split; [vm_compute; reflexivity |].
    split; [reflexivity | vm_compute; reflexivity].
Qed.

(** ** C5 *)

Lemma stored_document_key_witness :
  "project_documents/1_plan.pdf"
  = ("project_documents/" ++ str_int (subject create_route (fresh all_up 10)) ++ "_"
       ++ file_name plan)%string
  /\ (true = true -> forall response, Ok to_list = Ok response ->
      exists row,
        get_row (subject create_route (fresh all_up 10)) (db (after_create all_up))
        = Some row
        /\ document row = Some "project_documents/1_plan.pdf").
Proof.
  apply (stored_document_key ten_chars amount_of_text str_amount read_amount site day
           west create_route create_bridge (fresh all_up 10) (after_create all_up)
           (Ok to_list) plan "construction-docs" "project_documents/1_plan.pdf" true).
  - apply fresh_wf.
  - cbn [resolve]. refine (run_fst _ _ _). vm_compute. reflexivity.
  - vm_compute. left. reflexivity.
Defined.

(** The key of the stored file is not the project's key, an underscore and the
    file name: it starts with [project_documents/]. *)
Lemma document_key_has_a_prefix :
  s3_calls (cloud (after_create all_up))
  = [(upload_fileobj plan "construction-docs" "project_documents/1_plan.pdf", true)]
  /\ get_row 1 (db (after_create all_up)) = Some stored_bridge
  /\ document stored_bridge <> Some (str_int 1 ++ "_" ++ file_name plan)%string.
Proof.
  split; [vm_compute; reflexivity |].
  split; [vm_compute; reflexivity | discriminate].
Qed.

(** ** C6 *)

Lemma newest_project_is_listed_first_witness :
  exists a b c w',
    holds_form ten_chars amount_of_text (create_named "A") a
    /\ holds_form ten_chars amount_of_text (create_named "B") b
    /\ holds_form ten_chars amount_of_text (create_named "C") c
    /\ Permutation
         (c :: b :: a :: order_by_created_desc (rows (db (fresh all_up 10))))
         (rows (db after_c))
    /\ newest_first
         (c :: b :: a :: order_by_created_desc (rows (db (fresh all_up 10))))
    /\ ((forall r, In r (rows (db after_c)) -> exists p, read r = Ok p) ->
        exists c' b' a' rest,
          list_view (get bob) (set_clock 40 after_c)
          = (Ok (render "construction/project_list.html"
                   (projects_context (c' :: b' :: a' :: rest))), w')
          /\ read c = Ok c' /\ read b = Ok b' /\ read a = Ok a'
          /\ Forall2 (fun r p => read r = Ok p)
               (order_by_created_desc (rows (db (fresh all_up 10)))) rest)
    /\ ((exists r, In r (rows (db after_c)) /\ read r = Raise InvalidOperation) ->
        list_view (get bob) (set_clock 40 after_c) = (Raise InvalidOperation, w')).
Proof.
  apply (newest_project_is_listed_first ten_chars amount_of_text read_amount site day
           west alice alice alice bob
           (create_named "A") (create_named "B") (create_named "C") (get bob)
           10 20 30 40 (fresh all_up 10) after_a after_b after_c
           to_list to_list to_list).
  - apply fresh_wf.
  - intros r [].
  - lia.
  - lia.
  - reflexivity.
  - reflexivity.
  - reflexivity.
  - reflexivity.
  - reflexivity.
  - reflexivity.
  - refine (run_fst _ _ _). vm_compute. reflexivity.
  - refine (run_fst _ _ _). vm_compute. reflexivity.
  - refine (run_fst _ _ _). vm_compute. reflexivity.
  - reflexivity.
Defined.

(** Two projects created in the same second are listed in the order they were
    added. *)
Example same_second_keeps_the_order_of_addition :
  exists first second,
    rows (db (snd (create_view (create_named "B") after_a))) = [first; second]
    /\ created_at first = created_at second
    /\ order_by_created_desc [first; second] = [first; second]
    /\ name first = Some "A" /\ name second = Some "B".
Proof.
  eexists _, _. split; [vm_compute; reflexivity |]. repeat split.
Qed.

(** Every project of the example can be read, so its list is shown, and starts
    with C. *)
Example list_of_three_starts_with_c :
  exists c b a,
    fst (list_view (get bob) (set_clock 40 after_c))
    = Ok (render "construction/project_list.html" (projects_context [c; b; a]))
    /\ name c = Some "C" /\ name b = Some "B" /\ name a = Some "A".
Proof.
  eexists _, _, _. split; [vm_compute; reflexivity |]. repeat split.
Qed.

(** A, B and the tower are created in that order, each creation is answered
    with the redirect, and the list that follows raises: it has no first
    element. *)
Lemma list_fails_on_a_budget_it_cannot_read :
  fst (create_view (create_named "A") (fresh all_up 10)) = Ok to_list
  /\ fst (create_view (create_named "B") (set_clock 20 after_a)) = Ok to_list
  /\ fst (create_view create_costly (set_clock 30 after_b)) = Ok to_list
  /\ length (rows (db after_tower)) = 3
  /\ fst (list_view (get bob) (set_clock 40 after_tower)) = Raise InvalidOperation
  /\ (forall projects,
      fst (list_view (get bob) (set_clock 40 after_tower))
      <> Ok (render "construction/project_list.html" (projects_context projects))).
Proof.
  split; [vm_compute; reflexivity |].
  split; [vm_compute; reflexivity |].
  split; [vm_compute; reflexivity |].
  split; [vm_compute; reflexivity |].
  assert (E : fst (list_view (get bob) (set_clock 40 after_tower))
              = Raise InvalidOperation) by (vm_compute; reflexivity).
  split; [exact E |]. intros projects. rewrite E. discriminate.
Qed.

(** ** C7 *)

Lemma deleted_project_is_not_found_witness :
  (fst (detail_view 1 delete_bridge (set_clock 20 (after_create all_up)))
   = Ok to_list
   /\ fst (serve_at 40 (detail_route 1) (get alice)
             (serve_all later_requests
                (snd (detail_view 1 delete_bridge
                        (set_clock 20 (after_create all_up))))))
      = not_found)
  /\ (detail_view 1 delete_bridge (set_clock 20 after_costly)
      = (Raise InvalidOperation, set_clock 20 after_costly)
      /\ fst (serve_at 40 (detail_route 1) (get alice) (set_clock 20 after_costly))
         = server_error InvalidOperation).
Proof.
  split.
  - refine (proj1 (deleted_project_is_not_found ten_chars amount_of_text str_amount
                     read_amount site day west bob alice 1 40 delete_bridge
                     (get alice) (set_clock 20 (after_create all_up)) stored_bridge
                     later_requests _ eq_refl eq_refl eq_refl _ eq_refl)
                  stored_bridge _).
    + apply set_clock_wf, after_create_wf.
    + apply bridge_is_stored.
    + exact bridge_is_readable.
  - refine (proj2 (deleted_project_is_not_found ten_chars amount_of_text str_amount
                     read_amount site day west bob alice 1 40 delete_bridge
                     (get alice) (set_clock 20 after_costly) stored_tower
                     later_requests _ eq_refl eq_refl eq_refl _ eq_refl)
                  InvalidOperation _).
    + apply set_clock_wf, after_costly_wf.
    + apply tower_is_stored.
    + exact tower_is_unreadable.
Defined.

(** The tower was created and is in the table.  Its delete submission raises,
    the row stays, and the detail lookup that follows is answered with a server
    error, which is not the not-found response. *)
Lemma unreadable_project_is_not_deleted :
  fst (create_view create_costly (fresh all_up 10)) = Ok to_list
  /\ fst (detail_view 1 delete_bridge (set_clock 20 after_costly))
     = Raise InvalidOperation
  /\ get_row 1 (db (snd (detail_view 1 delete_bridge (set_clock 20 after_costly))))
     = Some stored_tower
  /\ fst (serve_at 40 (detail_route 1) (get alice)
            (snd (detail_view 1 delete_bridge (set_clock 20 after_costly))))
     = server_error InvalidOperation
  /\ server_error InvalidOperation <> (@not_found string Amount).
Proof.
  split; [vm_compute; reflexivity |].
  split; [vm_compute; reflexivity |].
  split; [vm_compute; reflexivity |].
  split; [vm_compute; reflexivity | discriminate].
Qed.

(** ** C9 *)

Lemma outcome_does_not_depend_on_user_witness :
  (fst (detail_view 1 (as_user (Some bob) update_bridge) (after_create all_up))
   = fst (detail_view 1 (as_user (Some alice) update_bridge) (after_create all_up))
   /\ alike (snd (detail_view 1 (as_user (Some bob) update_bridge)
                    (after_create all_up)))
            (snd (detail_view 1 (as_user (Some alice) update_bridge)
                    (after_create all_up))))
  /\ (fst (list_view (as_user (Some bob) update_bridge) (after_create all_up))
      = fst (list_view (as_user (Some alice) update_bridge) (after_create all_up))
      /\ alike (snd (list_view (as_user (Some bob) update_bridge)
                       (after_create all_up)))
               (snd (list_view (as_user (Some alice) update_bridge)
                       (after_create all_up))))
  /\ detail_view 1 (as_user None update_bridge) (after_create all_up)
     = (Ok (redirect (LOGIN_URL site)), after_create all_up)
  /\ list_view (as_user None update_bridge) (after_create all_up)
     = (Ok (redirect (LOGIN_URL site)), after_create all_up)
  /\ (forall p0, read stored_bridge = Ok p0 ->
      (plain_view update_bridge = true ->
       exists document_url w',
         detail_view 1 (as_user (Some bob) update_bridge) (after_create all_up)
         = (Ok (render "construction/project_detail.html"
                  (project_context p0 document_url)), w'))
      /\ (method update_bridge = "POST" ->
          mvd_get "action" (POST update_bridge) = Some "update" ->
          acceptable ten_chars amount_of_text update_bridge ->
          exists response w' row,
            detail_view 1 (as_user (Some bob) update_bridge) (after_create all_up)
            = (Ok response, w')
            /\ get_row 1 (db w') = Some row
            /\ holds_form ten_chars amount_of_text update_bridge row
            /\ manager row = manager stored_bridge)
      /\ (method update_bridge = "POST" ->
          mvd_get "action" (POST update_bridge) = Some "delete" ->
          exists w',
            detail_view 1 (as_user (Some bob) update_bridge) (after_create all_up)
            = (Ok (redirect "project_list"), w')
            /\ get_row 1 (db w') = None))
  /\ (forall e, read stored_bridge = Raise e ->
      detail_view 1 (as_user (Some bob) update_bridge) (after_create all_up)
      = (Raise InvalidOperation, after_create all_up))
  /\ (forall projects,
      read_rows read_amount (order_by_created_desc (rows (db (after_create all_up))))
      = Ok projects ->
      exists w',
        list_view (as_user (Some bob) update_bridge) (after_create all_up)
        = (Ok (render "construction/project_list.html" (projects_context projects)),
           w')).
Proof.
  apply (outcome_does_not_depend_on_user ten_chars amount_of_text str_amount
           read_amount site day west 1 bob alice update_bridge
           (after_create all_up) (after_create all_up) stored_bridge).
  - repeat split.
  - apply after_create_wf.
  - vm_compute. reflexivity.
Defined.

(** Bob, who is not the manager of the bridge, looks at it, updates it and
    deletes it. *)
Example bob_looks_updates_and_deletes :
  manager stored_bridge <> user_id bob
  /\ (exists document_url,
        fst (detail_view 1 (get bob) (set_clock 20 (after_create all_up)))
        = Ok (render "construction/project_detail.html"
                (project_context stored_bridge document_url)))
  /\ (exists response row,
        fst (detail_view 1 update_bridge (set_clock 20 (after_create all_up)))
        = Ok response
        /\ get_row 1 (db (snd (detail_view 1 update_bridge
                                 (set_clock 20 (after_create all_up)))))
           = Some row
        /\ name row = Some "Bridge II" /\ manager row = user_id alice)
  /\ fst (detail_view 1 delete_bridge (set_clock 20 (after_create all_up)))
     = Ok to_list
  /\ get_row 1 (db (snd (detail_view 1 delete_bridge
                           (set_clock 20 (after_create all_up)))))
     = None.
Proof.
  split; [discriminate |].
  split; [eexists; vm_compute; reflexivity |].
  split.
  - eexists _, _. split; [vm_compute; reflexivity |].
    split; [vm_compute; reflexivity |]. split; reflexivity.
  - split; vm_compute; reflexivity.
Qed.

(** The tower exists and alice is its manager, yet neither she nor bob can
    look at it, update it or delete it: each request raises and the row stays
    as it was.  And bob's update of the bridge with a form that lacks the
    status raises as well. *)
Lemma operations_do_not_always_succeed :
  get_row 1 (db after_costly) = Some stored_tower
  /\ manager stored_tower = user_id alice
  /\ (forall u request,
      In u [alice; bob] ->
      In request [get u; as_user (Some u) update_bridge;
                  as_user (Some u) delete_bridge] ->
      fst (detail_view 1 request (set_clock 20 after_costly))
      = Raise InvalidOperation
      /\ get_row 1 (db (snd (detail_view 1 request (set_clock 20 after_costly))))
         = Some stored_tower)
  /\ fst (detail_view 1 update_without_status (set_clock 20 (after_create all_up)))
     = Raise IntegrityError.
Proof.
  split; [vm_compute; reflexivity |].
  split; [reflexivity |].
  split; [| vm_compute; reflexivity].
  intros u request [<- | [<- | []]] [<- | [<- | [<- | []]]];
    split; vm_compute; reflexivity.
Qed.

(** ** C10 *)

Lemma update_keeps_manager_and_creation_witness :
  let w' := snd (detail_view 1 update_bridge (set_clock 20 (after_create all_up))) in
  (exists row,
     get_row 1 (db w') = Some row
     /\ id row = id stored_bridge /\ manager row = manager stored_bridge
     /\ created_at row = created_at stored_bridge
     /\ (row = stored_bridge
         \/ updated_at row = Some (clock (set_clock 20 (after_create all_up)))))
  /\ (forall j, j <> 1 ->
      get_row j (db w') = get_row j (db (set_clock 20 (after_create all_up))))
  /\ next_id (db w') = next_id (db (set_clock 20 (after_create all_up))).
Proof.
  apply (update_keeps_manager_and_creation ten_chars amount_of_text str_amount
           read_amount site day west bob 1 update_bridge
           (set_clock 20 (after_create all_up)) stored_bridge).
  - reflexivity.
  - reflexivity.
  - reflexivity.
  - vm_compute. reflexivity.
Defined.

(** An update also changes the time of the last update, which is neither one of
    the eight fields of the form nor the document key. *)
Lemma update_sets_updated_at :
  exists before after,
    get_row 1 (db (set_clock 20 (after_create all_up))) = Some before
    /\ get_row 1 (db (snd (detail_view 1 update_bridge
                             (set_clock 20 (after_create all_up)))))
       = Some after
    /\ updated_at before = Some 10
    /\ updated_at after = Some 20
    /\ updated_at after <> updated_at before.
Proof.
  eexists _, _.
  split; [vm_compute; reflexivity |].
  split; [vm_compute; reflexivity |].
  split; [reflexivity |]. split; [reflexivity | discriminate].
Qed.
(** * Worked examples of the further properties *)

(** The audit sink is down; only the document store is up. *)
Definition logs_down : client -> nat -> bool :=
  fun c _ => match c with Logs => false | _ => true end.

Definition only_s3 : client -> nat -> bool :=
  fun c _ => match c with S3 => true | _ => false end.

Definition logger : CloudWatchLogger := cloudwatch_logger site day.

(** A form whose action the detail view does not know. *)
Definition archive_bridge : HttpRequest := post bob [("action", "archive")] [].

(** An update without a status that comes with a file. *)
Definition update_without_status_with_plan : HttpRequest :=
  post bob (("action", "update") :: fields "Bridge II" "Critical")
    [("document", plan2)].

(** The credentials of alice. *)
Definition check_password (name_given password_given : string) : option User :=
  if (name_given =? "alice") && (password_given =? "secret") then Some alice else None.

Definition credentials (name_given password_given : string) : HttpRequest :=
  {| method := "POST"; user := None;
     POST := [("username", name_given); ("password", password_given)];
     FILES := [] |}.

Definition name_only : HttpRequest :=
  {| method := "POST"; user := None; POST := [("username", "alice")]; FILES := [] |}.

Definition from_lan : list (string * string) := [("REMOTE_ADDR", "10.0.0.1")].

Abbreviation login_view := (@user_login string Amount site day west).

(** Dates as text, amounts as the numerals they are written with. *)
Definition paper : @Calendar string Amount :=
  {| date_of := fun t => ("day " ++ str_int t)%string;
     plus_days := fun d n => (d ++ " + " ++ str_int n)%string;
     decimal_of_float :=
       fun s => match amount_of_text s with
                | Some a => a
                | None => {| coefficient := 0; places := 0 |}
                end |}.

Definition nobody : Auth := {| accounts := []; next_user := 1 |}.

Abbreviation init_command := (Command_handle ten_chars amount_of_text paper).

(** ** X6 *)

Lemma no_log_group_no_record_witness :
  exists w',
    log_project_activity west logger "VIEW" (Some "Bridge") "alice" []
      (fresh logs_down 10)
    = (Ok false, w')
    /\ logs_calls (cloud w')
       = logs_calls (cloud (fresh logs_down 10))
           ++ [(describe_log_groups (log_group_name logger), false);
               (create_log_group (log_group_name logger), false)]
    /\ console w' = console (fresh logs_down 10) ++ ["Error creating log group"].
Proof.
  apply (no_log_group_no_record west logger "VIEW" (Some "Bridge") "alice" []
           (fresh logs_down 10)).
  - reflexivity.
  - reflexivity.
Defined.

(** ** X7 *)

Lemma unserialisable_details_are_not_sent_witness :
  exists w' calls,
    log_project_activity west logger "VIEW" (Some "Bridge") "alice" [("blob", PObj)]
      (fresh all_up 10)
    = (Ok false, w')
    /\ logs_calls (cloud w') = logs_calls (cloud (fresh all_up 10)) ++ calls
    /\ forallb (fun c => negb (is_put (fst c))) calls = true.
Proof.
  apply (unserialisable_details_are_not_sent west logger "VIEW" (Some "Bridge") "alice"
           [("blob", PObj)] (fresh all_up 10)).
  reflexivity.
Defined.

(** ** X8 *)

Lemma record_is_sent_in_three_calls_witness :
  exists w',
    log_project_activity west logger "VIEW" (Some "Bridge") "alice"
      [("status", PStr "Planning")] (fresh all_up 10)
    = (Ok true, w')
    /\ logs_calls (cloud w')
       = logs_calls (cloud (fresh all_up 10))
           ++ [(describe_log_groups (log_group_name logger), true);
               (describe_log_streams (log_group_name logger) (log_stream_name logger),
                true);
               (put_log_events (log_group_name logger) (log_stream_name logger)
                  (1000 * west (clock (fresh all_up 10)))%Z
                  {| timestamp := clock (fresh all_up 10); activity_type := "VIEW";
                     project_name := Some "Bridge"; actor := "alice";
                     details := [("status", PStr "Planning")] |}, true)]
    /\ console w' = console (fresh all_up 10).
Proof.
  apply (record_is_sent_in_three_calls west logger "VIEW" (Some "Bridge") "alice"
           [("status", PStr "Planning")] (fresh all_up 10)).
  - reflexivity.
  - reflexivity.
  - reflexivity.
  - reflexivity.
Defined.

(** At time 10 the event is stamped an hour and ten seconds after the epoch,
    in milliseconds, while the record it carries says 10. *)
Example event_stamp_in_the_west :
  (1000 * west (clock (fresh all_up 10)))%Z = 3610000%Z
  /\ (1000 * Z.of_nat (clock (fresh all_up 10)))%Z = 10000%Z.
Proof. split; reflexivity. Qed.

(** ** X9 *)

Lemma anonymous_request_changes_nothing_witness :
  serve_at 10 create_route
    (as_user None create_bridge) (fresh all_up 5)
  = (sent (redirect (LOGIN_URL site)), set_clock 10 (fresh all_up 5)).
Proof.
  apply (anonymous_request_changes_nothing ten_chars amount_of_text str_amount
           read_amount site day west 10
           create_route (as_user None create_bridge) (fresh all_up 5)).
  reflexivity.
Defined.

(** ** X10 *)

Lemma create_form_is_shown_without_effect_witness :
  create_view (get alice) (fresh all_up 10)
  = (Ok (render "construction/project_create.html" no_context), fresh all_up 10).
Proof.
  apply (create_form_is_shown_without_effect ten_chars amount_of_text site day west alice
           (get alice) (fresh all_up 10)).
  - reflexivity.
  - discriminate.
Defined.

(** ** X11 *)

Lemma missing_project_is_not_found_witness :
  serve_at 10 (detail_route 5) delete_bridge
    (fresh all_up 5)
  = (not_found, set_clock 10 (fresh all_up 5)).
Proof.
  apply (missing_project_is_not_found ten_chars amount_of_text str_amount
           read_amount site day west 10 5 bob
           delete_bridge (fresh all_up 5)).
  - reflexivity.
  - reflexivity.
Defined.

(** ** X12 *)

Lemma detail_page_signs_the_stored_document_witness :
  exists document_url w',
    detail_view 1 (get bob) (set_clock 20 (after_create all_up))
    = (Ok (render "construction/project_detail.html"
             (project_context stored_bridge document_url)), w')
    /\ db w' = db (set_clock 20 (after_create all_up))
    /\ flash w' = flash (set_clock 20 (after_create all_up))
    /\ activities w'
       = activities (set_clock 20 (after_create all_up))
           ++ [view_activity bob stored_bridge]
    /\ match has_document (document stored_bridge) with
       | None =>
           document_url = None
           /\ s3_calls (cloud w') = s3_calls (cloud (set_clock 20 (after_create all_up)))
       | Some key =>
           s3_calls (cloud w')
           = s3_calls (cloud (set_clock 20 (after_create all_up)))
               ++ [(generate_presigned_url (AWS_S3_BUCKET_NAME site) key 3600,
                    next_ok S3 (set_clock 20 (after_create all_up)))]
           /\ document_url
              = if next_ok S3 (set_clock 20 (after_create all_up))
                then Some {| url_bucket := AWS_S3_BUCKET_NAME site;
                             url_key := key; url_expires := 3600 |}
                else None
       end.
Proof.
  apply (detail_page_signs_the_stored_document ten_chars amount_of_text str_amount
           read_amount site day west
           bob 1 (get bob) (set_clock 20 (after_create all_up)) stored_bridge
           stored_bridge).
  - reflexivity.
  - reflexivity.
  - vm_compute. reflexivity.
  - vm_compute. reflexivity.
Defined.

(** ** X13 *)

Lemma unknown_action_is_a_view_witness :
  detail_view 1 archive_bridge (after_create all_up)
  = detail_view 1 (as_get archive_bridge) (after_create all_up).
Proof.
  apply (unknown_action_is_a_view ten_chars amount_of_text str_amount
           read_amount site day west 1
           archive_bridge (after_create all_up)).
  reflexivity.
Defined.

(** ** X14 *)

Lemma delete_removes_the_row_and_keeps_the_document_witness :
  exists w',
    detail_view 1 delete_bridge (set_clock 20 (after_create all_up))
    = (Ok (redirect "project_list"), w')
    /\ get_row 1 (db w') = None
    /\ (forall j, j <> 1 ->
        get_row j (db w') = get_row j (db (set_clock 20 (after_create all_up))))
    /\ next_id (db w') = next_id (db (set_clock 20 (after_create all_up)))
    /\ activities w'
       = activities (set_clock 20 (after_create all_up))
           ++ [delete_activity bob stored_bridge]
    /\ flash w'
       = flash (set_clock 20 (after_create all_up))
           ++ [deleted_message (name stored_bridge)]
    /\ s3_calls (cloud w') = s3_calls (cloud (set_clock 20 (after_create all_up))).
Proof.
  apply (delete_removes_the_row_and_keeps_the_document ten_chars amount_of_text
           str_amount read_amount site day west bob 1 delete_bridge
           (set_clock 20 (after_create all_up)) stored_bridge stored_bridge).
  - reflexivity.
  - reflexivity.
  - reflexivity.
  - vm_compute. reflexivity.
  - vm_compute. reflexivity.
Defined.

(** ** X15 *)

Lemma list_counts_what_it_shows_witness :
  exists w',
    activities w'
    = activities (after_create all_up)
        ++ [list_activity alice (length (rows (db (after_create all_up))))]
    /\ db w' = db (after_create all_up) /\ flash w' = flash (after_create all_up)
    /\ Permutation (order_by_created_desc (rows (db (after_create all_up))))
                   (rows (db (after_create all_up)))
    /\ newest_first (order_by_created_desc (rows (db (after_create all_up))))
    /\ (forall projects,
        read_rows read_amount (order_by_created_desc (rows (db (after_create all_up))))
        = Ok projects ->
        list_view (get alice) (after_create all_up)
        = (Ok (render "construction/project_list.html" (projects_context projects)),
           w')
        /\ length projects = length (rows (db (after_create all_up)))
        /\ Forall2 (fun r p => read r = Ok p)
             (order_by_created_desc (rows (db (after_create all_up)))) projects)
    /\ (forall e,
        read_rows read_amount (order_by_created_desc (rows (db (after_create all_up))))
        = Raise e ->
        list_view (get alice) (after_create all_up) = (Raise InvalidOperation, w')
        /\ exists r, In r (rows (db (after_create all_up)))
                     /\ read r = Raise InvalidOperation).
Proof.
  apply (list_counts_what_it_shows read_amount site day west alice (get alice)
           (after_create all_up)).
  reflexivity.
Defined.

(** The list of the table that holds the bridge shows it; the list of the table
    that holds the tower raises, after it has recorded that it shows one
    project. *)
Example list_of_one :
  fst (list_view (get alice) (after_create all_up))
  = Ok (render "construction/project_list.html" (projects_context [stored_bridge]))
  /\ fst (list_view (get alice) after_costly) = Raise InvalidOperation
  /\ activities (snd (list_view (get alice) after_costly))
     = activities after_costly ++ [list_activity alice 1].
Proof. repeat split; vm_compute; reflexivity. Qed.

(** ** X16 *)

Lemma created_project_is_shown_as_read_back_witness :
  exists row,
    get_row (next_id (db (fresh s3_down 10))) (db (after_create s3_down)) = Some row
    /\ holds_form ten_chars amount_of_text create_bridge row
    /\ manager row = user_id alice
    /\ (forall p, read row = Ok p ->
        exists document_url w2,
          detail_view (next_id (db (fresh s3_down 10))) (get bob)
            (set_clock 20 (after_create s3_down))
          = (Ok (render "construction/project_detail.html"
                   (project_context p document_url)), w2)
          /\ (has_document (document row) = None -> document_url = None))
    /\ (forall e, read row = Raise e ->
        detail_view (next_id (db (fresh s3_down 10))) (get bob)
          (set_clock 20 (after_create s3_down))
        = (Raise InvalidOperation, set_clock 20 (after_create s3_down))).
Proof.
  apply (created_project_is_shown_as_read_back ten_chars amount_of_text str_amount
           read_amount site day west alice bob create_bridge (get bob)
           (fresh s3_down 10) (after_create s3_down) (redirect "project_list") 20).
  - reflexivity.
  - reflexivity.
  - apply fresh_wf.
  - refine (run_fst _ _ _). vm_compute. reflexivity.
  - reflexivity.
  - reflexivity.
Defined.

(** The project of three places is shown with its budget at two; the page of
    the tower raises. *)
Example created_projects_as_they_are_shown :
  (exists p document_url,
     fst (detail_view 1 (get bob) (set_clock 20 after_fine))
     = Ok (render "construction/project_detail.html" (project_context p document_url))
     /\ budget p = Val {| coefficient := 10100; places := 2 |})
  /\ fst (detail_view 1 (get bob) (set_clock 20 after_costly)) = Raise InvalidOperation.
Proof.
  split; [| vm_compute; reflexivity].
  eexists _, _. split; [vm_compute; reflexivity | reflexivity].
Qed.

(** ** X17 *)

Lemma deleted_project_is_not_listed_witness :
  let w1 := set_clock 30 (snd (detail_view 1 delete_bridge
                                 (set_clock 20 (after_create all_up)))) in
  (forall projects w2,
   list_view (get alice) w1
   = (Ok (render "construction/project_list.html" (projects_context projects)), w2) ->
   (forall p, In p projects -> id p <> Some 1)
   /\ (forall r, In r (rows (db (set_clock 20 (after_create all_up)))) ->
       id r <> Some 1 -> exists p, In p projects /\ read r = Ok p))
  /\ ((forall r, In r (rows (db (set_clock 20 (after_create all_up)))) ->
       id r <> Some 1 -> exists p, read r = Ok p) ->
      exists projects w2,
        list_view (get alice) w1
        = (Ok (render "construction/project_list.html" (projects_context projects)),
           w2)).
Proof.
  apply (deleted_project_is_not_listed ten_chars amount_of_text str_amount read_amount
           site day west bob alice 1 delete_bridge (get alice)
           (set_clock 20 (after_create all_up)) stored_bridge stored_bridge 30).
  - reflexivity.
  - reflexivity.
  - reflexivity.
  - vm_compute. reflexivity.
  - vm_compute. reflexivity.
  - reflexivity.
Defined.

(** ** X18 *)

Lemma outcome_does_not_depend_on_notifications_witness :
  fst (route_to create_route create_bridge
         (fresh all_up 10))
  = fst (route_to create_route create_bridge
           (fresh only_s3 10))
  /\ alike (snd (route_to create_route
                   create_bridge (fresh all_up 10)))
           (snd (route_to create_route
                   create_bridge (fresh only_s3 10))).
Proof.
  apply (outcome_does_not_depend_on_notifications ten_chars amount_of_text str_amount
           read_amount site day west
           create_route create_bridge (fresh all_up 10) (fresh only_s3 10)).
  repeat split.
Defined.

(** ** X19 *)

Lemma what_makes_a_view_fail_witness :
  db (snd (serve_at 10 create_route create_without_status (fresh all_up 5)))
  = db (fresh all_up 5)
  /\ ((persistence_error IntegrityError
       /\ method create_without_status = "POST"
       /\ (create_route = create_route
           \/ exists i, create_route = detail_route i
                        /\ mvd_get "action" (POST create_without_status)
                           = Some "update"))
      \/ (IntegrityError = InvalidOperation
          /\ exists row,
               read row = Raise InvalidOperation
               /\ ((create_route = list_route /\ In row (rows (db (fresh all_up 5))))
                   \/ exists i, create_route = detail_route i
                                /\ get_row i (db (fresh all_up 5)) = Some row))).
Proof.
  apply (what_makes_a_view_fail ten_chars amount_of_text str_amount read_amount
           site day west 10 create_route create_without_status (fresh all_up 5)
           IntegrityError).
  - apply fresh_wf.
  - vm_compute. reflexivity.
Defined.

(** The other case: the list and the page of the tower. *)
Example views_fail_on_the_tower :
  fst (serve_at 20 list_route (get bob) after_costly) = server_error InvalidOperation
  /\ fst (serve_at 20 (detail_route 1) (get bob) after_costly)
     = server_error InvalidOperation
  /\ fst (serve_at 20 (detail_route 1) delete_bridge after_costly)
     = server_error InvalidOperation.
Proof. repeat split; vm_compute; reflexivity. Qed.

(** ** X20 *)

Lemma rejected_creation_leaves_no_trace_witness :
  create_view create_without_status (fresh all_up 10)
  = (Raise IntegrityError, fresh all_up 10)
  /\ persistence_error IntegrityError.
Proof.
  apply (rejected_creation_leaves_no_trace ten_chars amount_of_text site day west alice
           create_without_status (fresh all_up 10) IntegrityError).
  - reflexivity.
  - apply fresh_wf.
  - vm_compute. reflexivity.
Defined.

(** ** X21 *)

Lemma rejected_update_has_already_uploaded_witness :
  let w := set_clock 20 (after_create all_up) in
  let w' := snd (detail_view 1 update_without_status_with_plan w) in
  persistence_error IntegrityError
  /\ db w' = db w /\ flash w' = flash w
  /\ s3_calls (cloud w')
     = s3_calls (cloud w)
         ++ match supplied (mvd_get "document"
                              (FILES update_without_status_with_plan)) with
            | Some f => [(upload_fileobj f (AWS_S3_BUCKET_NAME site)
                            (document_key 1 f), next_ok S3 w)]
            | None => []
            end
  /\ activities w'
     = activities w
         ++ match supplied (mvd_get "document"
                              (FILES update_without_status_with_plan)) with
            | Some f => if next_ok S3 w
                        then [upload_activity bob f
                                (mvd_get "name" (POST update_without_status_with_plan))]
                        else []
            | None => []
            end.
Proof.
  intros w.
  apply (rejected_update_has_already_uploaded ten_chars amount_of_text str_amount
           read_amount site day west
           bob 1 update_without_status_with_plan w stored_bridge stored_bridge
           IntegrityError).
  - reflexivity.
  - reflexivity.
  - reflexivity.
  - vm_compute. reflexivity.
  - vm_compute. reflexivity.
  - vm_compute. reflexivity.
Defined.

(** ** X22 *)

Lemma keys_stay_unique_witness :
  db_wf (db (serve_all later_requests
               (fresh all_up 10)))
  /\ NoDup (keys (db (serve_all later_requests
                        (fresh all_up 10))))
  /\ next_id (db (fresh all_up 10))
     <= next_id (db (serve_all later_requests
                       (fresh all_up 10))).
Proof.
  apply (keys_stay_unique ten_chars amount_of_text str_amount
           read_amount site day west later_requests
           (fresh all_up 10)).
  - apply fresh_wf.
  - constructor.
Defined.

(** ** X23 *)

Lemma failed_login_is_not_recorded_witness :
  exists w',
    login_view check_password from_lan (credentials "alice" "guess") (fresh all_up 10)
    = (Returned (login_form (credentials "alice" "guess")), w')
    /\ flash w' = flash (fresh all_up 10) ++ ["Invalid username or password."]
    /\ activities w' = activities (fresh all_up 10)
    /\ cloud w' = cloud (fresh all_up 10)
    /\ db w' = db (fresh all_up 10) /\ console w' = console (fresh all_up 10).
Proof.
  apply (failed_login_is_not_recorded site day west check_password from_lan
           (credentials "alice" "guess") "alice" "guess" (fresh all_up 10)).
  - reflexivity.
  - reflexivity.
  - reflexivity.
  - reflexivity.
Defined.

(** ** X24 *)

Lemma login_binds_the_session_and_is_recorded_witness :
  exists w',
    login_view check_password from_lan (credentials "alice" "secret") (fresh all_up 10)
    = (Returned {| response := redirect "project_list"; session := Some alice |}, w')
    /\ activities w'
       = activities (fresh all_up 10)
           ++ [{| act_type := "LOGIN"; act_project := Some "USER_AUTH";
                  act_user := "alice"; act_details := login_details from_lan |}]
    /\ flash w' = flash (fresh all_up 10) ++ ["Login successful!"]
    /\ db w' = db (fresh all_up 10)
    /\ s3_calls (cloud w') = s3_calls (cloud (fresh all_up 10))
    /\ ses_calls (cloud w') = ses_calls (cloud (fresh all_up 10))
    /\ sns_calls (cloud w') = sns_calls (cloud (fresh all_up 10)).
Proof.
  apply (login_binds_the_session_and_is_recorded site day west check_password from_lan
           (credentials "alice" "secret") "alice" "secret" alice (fresh all_up 10)).
  - reflexivity.
  - reflexivity.
  - reflexivity.
  - reflexivity.
Defined.

(** ** X25 *)

Lemma login_without_credentials_raises_witness :
  login_view check_password from_lan name_only (fresh all_up 10)
  = (Thrown (MultiValueDictKeyError
               (match mvd_get "username" (POST name_only) with
                | None => "username"
                | Some _ => "password"
                end)), fresh all_up 10).
Proof.
  apply (login_without_credentials_raises site day west check_password from_lan name_only
           (fresh all_up 10)).
  - reflexivity.
  - right. reflexivity.
Defined.

(** ** X26 *)

Lemma login_page_is_shown_without_effect_witness :
  login_view check_password from_lan (get alice) (fresh all_up 10)
  = (Returned (login_form (get alice)), fresh all_up 10).
Proof.
  apply (login_page_is_shown_without_effect site day west check_password from_lan
           (get alice) (fresh all_up 10)).
  discriminate.
Defined.

(** ** X30 *)

Lemma init_is_idempotent_witness :
  exists w2,
    init_command (with_admin nobody)
      (set_clock 99 (snd (init_command nobody (fresh all_up 10))))
    = (Returned (with_admin nobody), w2)
    /\ db w2 = db (snd (init_command nobody (fresh all_up 10))).
Proof.
  apply (init_is_idempotent ten_chars amount_of_text paper nobody (with_admin nobody)
           (fresh all_up 10) (snd (init_command nobody (fresh all_up 10))) 99).
  refine (run_fst _ _ _). vm_compute. reflexivity.
Defined.
